(** * Memento reminder manager: calendar grid, entry store and account gate

    A shallow embedding of the TypeScript sources

    - [types.ts]                      (module [Types])
    - [components/TimelineCalendar]   (module [TimelineCalendar])
    - [components/ReminderWidget.tsx] (module [ReminderWidget])
    - [App.tsx]                       (module [App])
    - [services/geminiService.ts]     (module [GeminiService])

    together with the part of the host they run on: the ECMAScript [Date]
    object (module [ESDate]) and the d3-time intervals (module [D3Time]).
    The definitions come first; the properties follow, in the modules
    [TimelineCalendarSpec], [AppSpec], [ReminderWidgetSpec] and
    [GeminiServiceSpec].

    Conventions of the embedding.
    - A [Date] object is its time value, a [Number]: a whole number of
      milliseconds since the epoch within the range of [TimeClip], or [NaN]
      for an Invalid Date.  [Date] itself stands for a valid date.  The zone
      of the host is a [Host]: the offset of local time from UTC at every
      time; a [TimeZone] is a zone with one offset at all times.
    - A string is a sequence of code units below 256.
    - A React state setter either stores a value or applies an updater to the
      pending state; an event handler reads the state of the render it was
      created in.  Handlers are written in a small monad that keeps the two
      apart. *)

From Stdlib Require Import ZArith List Bool String Ascii Lia.
From Stdlib Require Import Sorted Permutation DecimalString.
Import ListNotations.

#[local] Open Scope Z_scope.

(* ================================================================= *)
(** ** ECMAScript time values and the [Date] methods the code calls *)

Module ESDate.

(** A valid [Date], given by its time value. *)
Definition Date := Z.

(** A Number that is a whole number or NaN: the time value of a [Date]
    object, what its getters return and what is computed from them. *)
Inductive Number := NaN | Finite (n : Z).

Coercion Finite : Z >-> Number.

(** The time value of a [Date] object, [NaN] for an Invalid Date. *)
Definition DateValue := Number.

(** Time values lie within 100,000,000 days of the epoch. *)
Definition maxTime : Z := 8640000000000000.

Definition TimeClip (time : Z) : Number :=
  if Z.abs time <=? maxTime then Finite time else NaN.

Definition inRange (time : Z) : Prop := - maxTime <= time <= maxTime.

Definition msPerSecond : Z := 1000.
Definition msPerMinute : Z := 60000.
Definition msPerHour : Z := 3600000.
Definition msPerDay : Z := 86400000.

Definition Day (t : Z) : Z := t / msPerDay.
Definition TimeWithinDay (t : Z) : Z := t mod msPerDay.

Definition DaysInYear (y : Z) : Z :=
  if negb (y mod 4 =? 0) then 365
  else if negb (y mod 100 =? 0) then 366
  else if negb (y mod 400 =? 0) then 365
  else 366.

Definition DayFromYear (y : Z) : Z :=
  365 * (y - 1970) + (y - 1969) / 4 - (y - 1901) / 100 + (y - 1601) / 400.

Definition TimeFromYear (y : Z) : Z := msPerDay * DayFromYear y.

(** [YearFromTime t] is the largest [y] with [TimeFromYear y <= t].  It is
    computed from the mean length of a Gregorian year and corrected by at
    most one; [YearFromDay_spec] below shows that this is that year. *)
Definition YearFromDay (d : Z) : Z :=
  let y0 := 1970 + (400 * d) / 146097 in
  if d <? DayFromYear y0 then y0 - 1
  else if DayFromYear (y0 + 1) <=? d then y0 + 1
  else y0.

Definition YearFromTime (t : Z) : Z := YearFromDay (Day t).

Definition LeapOfYear (y : Z) : Z := if DaysInYear y =? 366 then 1 else 0.
Definition InLeapYear (t : Z) : Z := LeapOfYear (YearFromTime t).

Definition DayWithinYear (t : Z) : Z := Day t - DayFromYear (YearFromTime t).

(** Day number within the year of the first day of month [m] (0-based);
    [FirstDayOfMonth 12 leap] is the length of the year. *)
Definition FirstDayOfMonth (m leap : Z) : Z :=
  match m with
  | 0 => 0
  | 1 => 31
  | 2 => 59 + leap
  | 3 => 90 + leap
  | 4 => 120 + leap
  | 5 => 151 + leap
  | 6 => 181 + leap
  | 7 => 212 + leap
  | 8 => 243 + leap
  | 9 => 273 + leap
  | 10 => 304 + leap
  | 11 => 334 + leap
  | _ => 365 + leap
  end.

Definition MonthFromTime (t : Z) : Z :=
  let d := DayWithinYear t in
  let leap := InLeapYear t in
  if d <? 31 then 0
  else if d <? 59 + leap then 1
  else if d <? 90 + leap then 2
  else if d <? 120 + leap then 3
  else if d <? 151 + leap then 4
  else if d <? 181 + leap then 5
  else if d <? 212 + leap then 6
  else if d <? 243 + leap then 7
  else if d <? 273 + leap then 8
  else if d <? 304 + leap then 9
  else if d <? 334 + leap then 10
  else 11.

Definition DateFromTime (t : Z) : Z :=
  DayWithinYear t - FirstDayOfMonth (MonthFromTime t) (InLeapYear t) + 1.

Definition WeekDay (t : Z) : Z := (Day t + 4) mod 7.

Definition HourFromTime (t : Z) : Z := (t / msPerHour) mod 24.
Definition MinFromTime (t : Z) : Z := (t / msPerMinute) mod 60.
Definition SecFromTime (t : Z) : Z := (t / msPerSecond) mod 60.
Definition msFromTime (t : Z) : Z := t mod msPerSecond.

Definition MakeTime (hour min sec ms : Z) : Z :=
  hour * msPerHour + min * msPerMinute + sec * msPerSecond + ms.

(** [MakeDay]: the day number of the first of month [month mod 12] in year
    [year + floor (month / 12)], plus [date - 1]. *)
Definition MakeDay (year month date : Z) : Z :=
  let ym := year + month / 12 in
  let mn := month mod 12 in
  DayFromYear ym + FirstDayOfMonth mn (LeapOfYear ym) + date - 1.

Definition MakeDate (day time : Z) : Z := day * msPerDay + time.

(** The zone of the host.  [LocalTZAat t isUTC] is the offset of local time
    from UTC in milliseconds: at the UTC time [t] when [isUTC] holds, and
    else at the local time [t], where a local time that a transition skips
    or repeats is read with the offset before the transition.  The offsets
    are whole minutes, as those of the zones in use are. *)
Class Host := { LocalTZAat : Z -> bool -> Z }.

(** A zone with one offset at all times. *)
Class TimeZone := { LocalTZA : Z }.

#[global] Instance fixedOffset {tz : TimeZone} : Host :=
  {| LocalTZAat := fun _ _ => LocalTZA |}.

Section LocalZone.

Context {host : Host}.

Definition LocalTime (t : Z) : Z := t + LocalTZAat t true.
Definition UTC (t : Z) : Z := t - LocalTZAat t false.

(** The getters, on a valid date. *)
Definition getFullYear (d : Date) : Z := YearFromTime (LocalTime d).
Definition getMonth (d : Date) : Z := MonthFromTime (LocalTime d).
Definition getDate (d : Date) : Z := DateFromTime (LocalTime d).
Definition getDay (d : Date) : Z := WeekDay (LocalTime d).
Definition getTime (d : Date) : Z := d.
Definition getTimezoneOffset (d : Date) : Z := (d - LocalTime d) / msPerMinute.

(** The time values that [setDate], [setMonth] and [setHours] compute on a
    valid date, before [TimeClip]. *)
Definition setDate_time (d : Date) (dt : Z) : Z :=
  let t := LocalTime d in
  UTC (MakeDate (MakeDay (YearFromTime t) (MonthFromTime t) dt)
                (TimeWithinDay t)).

Definition setMonth_time (d : Date) (month : Z) : Z :=
  let t := LocalTime d in
  UTC (MakeDate (MakeDay (YearFromTime t) month (DateFromTime t))
                (TimeWithinDay t)).

Definition setHours_time (d : Date) (hour min sec ms : Z) : Z :=
  let t := LocalTime d in
  UTC (MakeDate (Day t) (MakeTime hour min sec ms)).

(** The [Date] whose local calendar fields are the given ones. *)
Definition localDate (year month date hour min sec ms : Z) : Date :=
  UTC (MakeDate (MakeDay year month date) (MakeTime hour min sec ms)).

End LocalZone.

End ESDate.

(* ================================================================= *)
(** ** Arithmetic and comparison of Numbers *)

Module JSNum.

Import ESDate.

Definition add (a b : Number) : Number :=
  match a, b with
  | Finite x, Finite y => Finite (x + y)
  | _, _ => NaN
  end.

Definition sub (a b : Number) : Number :=
  match a, b with
  | Finite x, Finite y => Finite (x - y)
  | _, _ => NaN
  end.

Definition mul (a b : Number) : Number :=
  match a, b with
  | Finite x, Finite y => Finite (x * y)
  | _, _ => NaN
  end.

(** [Math.floor(a / b)], for a divisor other than 0. *)
Definition floorDiv (a b : Number) : Number :=
  match a, b with
  | Finite x, Finite y => Finite (x / y)
  | _, _ => NaN
  end.

(** [a % b]: the remainder has the sign of [a]. *)
Definition rem (a b : Number) : Number :=
  match a, b with
  | Finite x, Finite y => Finite (Z.rem x y)
  | _, _ => NaN
  end.

(** [a < b] and [a === b]: false when either is [NaN]. *)
Definition ltb (a b : Number) : bool :=
  match a, b with
  | Finite x, Finite y => x <? y
  | _, _ => false
  end.

Definition strictEq (a b : Number) : bool :=
  match a, b with
  | Finite x, Finite y => x =? y
  | _, _ => false
  end.

End JSNum.

Declare Scope num_scope.
Delimit Scope num_scope with num.
Notation "a + b" := (JSNum.add a b) : num_scope.
Notation "a - b" := (JSNum.sub a b) : num_scope.
Notation "a * b" := (JSNum.mul a b) : num_scope.
Notation "a <? b" := (JSNum.ltb a b) : num_scope.

(* ================================================================= *)
(** ** The methods of a [Date] object, which may be invalid *)

Module DateObject.

Import ESDate.

(** [new Date(value)] and [setTime(value)]. *)
Definition ofValue (value : Number) : DateValue :=
  match value with
  | Finite t => TimeClip t
  | NaN => NaN
  end.

Section LocalZone.

Context {host : Host}.

Definition getFullYear (d : DateValue) : Number :=
  match d with
  | Finite t => Finite (ESDate.getFullYear t)
  | NaN => NaN
  end.

Definition getMonth (d : DateValue) : Number :=
  match d with
  | Finite t => Finite (ESDate.getMonth t)
  | NaN => NaN
  end.

Definition getDate (d : DateValue) : Number :=
  match d with
  | Finite t => Finite (ESDate.getDate t)
  | NaN => NaN
  end.

Definition getDay (d : DateValue) : Number :=
  match d with
  | Finite t => Finite (ESDate.getDay t)
  | NaN => NaN
  end.

Definition getTimezoneOffset (d : DateValue) : Number :=
  match d with
  | Finite t => Finite (ESDate.getTimezoneOffset t)
  | NaN => NaN
  end.

Definition setDate (d : DateValue) (date : Number) : DateValue :=
  match d, date with
  | Finite t, Finite dt => TimeClip (setDate_time t dt)
  | _, _ => NaN
  end.

Definition setMonth (d : DateValue) (month : Number) : DateValue :=
  match d, month with
  | Finite t, Finite m => TimeClip (setMonth_time t m)
  | _, _ => NaN
  end.

Definition setHours (d : DateValue) (hour min sec ms : Z) : DateValue :=
  match d with
  | Finite t => TimeClip (setHours_time t hour min sec ms)
  | NaN => NaN
  end.

End LocalZone.

End DateObject.

(* ================================================================= *)
(** ** Loops *)

Module Loop.

(** [do_while depth body s] runs the loop [do s = body s while (continue)]:
    [body] answers [inl s'] to go round again and [inr r] to leave with [r].
    At most [2 ^ depth] rounds are run; [inl] is returned when that was
    not enough. *)
Fixpoint do_while {S R : Type} (depth : nat) (body : S -> S + R) (s : S)
  : S + R :=
  match depth with
  | O => body s
  | Datatypes.S depth' =>
      match do_while depth' body s with
      | inl s' => do_while depth' body s'
      | inr r => inr r
      end
  end.

End Loop.

(* ================================================================= *)
(** ** d3-time intervals *)

Module D3Time.

Import ESDate.

Definition durationMinute : Z := 60000.
Definition durationDay : Z := 86400000.
Definition durationWeek : Z := 604800000.

(** [timeInterval(floori, offseti, count)].  In d3 [floori] and [offseti]
    update the [Date] they are given; here they return the new time value.
    [counti] is [count] followed by the [Math.floor] that [interval.count]
    applies to it. *)
Record TimeInterval := timeInterval {
  floori : DateValue -> DateValue;
  offseti : DateValue -> Z -> DateValue;
  counti : DateValue -> DateValue -> Number
}.

Section Interval.

Variable I : TimeInterval.

(** [floori(date = new Date(+date)), date]. *)
Definition floor (date : DateValue) : DateValue :=
  floori I (DateObject.ofValue date).

(** [floori(date = new Date(date - 1)), offseti(date, 1), floori(date),
     date]. *)
Definition ceil (date : DateValue) : DateValue :=
  floori I (offseti I (floori I (DateObject.ofValue (date - 1)%num)) 1).

(** [offseti(date = new Date(+date), Math.floor(step)), date]. *)
Definition offset (date : DateValue) (step : Z) : DateValue :=
  offseti I (DateObject.ofValue date) step.

(** One round of the loop of [interval.range]:
    [do range.push(previous = new Date(+start)), offseti(start, step),
     floori(start); while (previous < start && start < stop)].
    A comparison with an Invalid Date is false, so the [start] of every
    round is a valid date. *)
Definition range_body (stop : DateValue) (step : Z) (st : Date * list Date)
  : (Date * list Date) + list Date :=
  let '(start, range) := st in
  let previous := start in
  let range := range ++ [previous] in
  let start := floori I (offseti I start step) in
  if (previous <? start)%num && (start <? stop)%num
  then match start with
       | Finite start => inl (start, range)
       | NaN => inr range
       end
  else inr range.

(** [interval.range]: [start = interval.ceil(start)], then nothing
    [if (!(start < stop) || !(step > 0))], and else the loop. *)
Definition range_step (start stop : DateValue) (step : Z) : list Date :=
  let start := ceil start in
  if negb (start <? stop)%num || negb (0 <? step) then []
  else
    match start, stop with
    | Finite start, Finite stop_ =>
        match Loop.do_while (Z.to_nat (Z.log2_up (stop_ - start)))
                (range_body stop step) (start, []) with
        | inr range => range
        | inl (_, range) => range
        end
    | _, _ => []
    end.

Definition range (start stop : DateValue) : list Date :=
  range_step start stop 1.

(** [t0.setTime(+start), t1.setTime(+end), floori(t0), floori(t1),
     Math.floor(count(t0, t1))]. *)
Definition count (start end_ : DateValue) : Number :=
  counti I (floori I (DateObject.ofValue start))
    (floori I (DateObject.ofValue end_)).

End Interval.

Section LocalZone.

Context {host : Host}.

Definition timeDay : TimeInterval :=
  timeInterval
    (fun date => DateObject.setHours date 0 0 0 0)
    (fun date step =>
       DateObject.setDate date (DateObject.getDate date + step)%num)
    (fun start end_ =>
       JSNum.floorDiv
         (end_ - start
          - (DateObject.getTimezoneOffset end_
             - DateObject.getTimezoneOffset start) * durationMinute)%num
         durationDay).

Definition timeWeekday (i : Z) : TimeInterval :=
  timeInterval
    (fun date =>
       let date :=
         DateObject.setDate date
           (DateObject.getDate date
            - JSNum.rem (DateObject.getDay date + 7 - i) 7)%num in
       DateObject.setHours date 0 0 0 0)
    (fun date step =>
       DateObject.setDate date (DateObject.getDate date + step * 7)%num)
    (fun start end_ =>
       JSNum.floorDiv
         (end_ - start
          - (DateObject.getTimezoneOffset end_
             - DateObject.getTimezoneOffset start) * durationMinute)%num
         durationWeek).

Definition timeSunday : TimeInterval := timeWeekday 0.
Definition timeWeek : TimeInterval := timeSunday.

Definition timeMonth : TimeInterval :=
  timeInterval
    (fun date =>
       let date := DateObject.setDate date 1 in
       DateObject.setHours date 0 0 0 0)
    (fun date step =>
       DateObject.setMonth date (DateObject.getMonth date + step)%num)
    (fun start end_ =>
       (DateObject.getMonth end_ - DateObject.getMonth start
        + (DateObject.getFullYear end_ - DateObject.getFullYear start)
          * 12)%num).

End LocalZone.

(** *** Local day numbers *)

(** Local midnight at the start of day number [n]. *)
Definition localMidnight {host : Host} (n : Z) : Date :=
  UTC (MakeDate n 0).

(** The Sunday on or before day [n], and the first Sunday on or after it. *)
Definition weekStart (n : Z) : Z := n - (n + 4) mod 7.
Definition weekCeil (n : Z) : Z := weekStart (n - 1) + 7.

(** The days from day [a], [n] of them, as local midnights. *)
Definition midnights {host : Host} (a : Z) (n : nat) : list Date :=
  map (fun i => localMidnight (a + Z.of_nat i)) (seq 0 n).

End D3Time.

(* ================================================================= *)
(** ** Array methods *)

Module JSArray.

Section Sort.

Context {A : Type}.
Variable compareFn : A -> A -> Z.

(** [Array.prototype.sort] is stable: an element is placed before the first
    later element that does not compare below it. *)
Fixpoint insert (x : A) (l : list A) : list A :=
  match l with
  | [] => [x]
  | y :: l' => if compareFn x y <=? 0 then x :: y :: l' else y :: insert x l'
  end.

Definition sort (l : list A) : list A := fold_right insert [] l.

Definition some (f : A -> bool) (l : list A) : bool := existsb f l.

(** [slice(start, end)], for indices that are not negative. *)
Definition slice (start end_ : nat) (l : list A) : list A :=
  firstn (end_ - start) (skipn start l).

End Sort.

End JSArray.

(* ================================================================= *)
(** ** types.ts *)

Module ReminderType.
Inductive t := Standard | Urgent | Meeting | Health | Idea.
End ReminderType.

Module RecurrenceType.
Inductive t := None | Daily | Weekly | Monthly | Yearly.

Definition eqb (a b : t) : bool :=
  match a, b with
  | None, None | Daily, Daily | Weekly, Weekly | Monthly, Monthly
  | Yearly, Yearly => true
  | _, _ => false
  end.
End RecurrenceType.

Module CommunicationMethod.
Inductive t := Notification | Email | SMS | Call.

Definition eqb (a b : t) : bool :=
  match a, b with
  | Notification, Notification | Email, Email | SMS, SMS | Call, Call => true
  | _, _ => false
  end.
End CommunicationMethod.

(** The union ['never' | 'date' | 'count'] of [recurrenceEndMode]. *)
Module RecurrenceEndMode.
Inductive t := never | date | count.

Definition eqb (a b : t) : bool :=
  match a, b with
  | never, never | date, date | count, count => true
  | _, _ => false
  end.
End RecurrenceEndMode.

Module Types.

(** A property declared with [?]: the object may lack it, hold [undefined]
    in it, or hold a value.  Reading it gives [undefined] in the first two
    cases; [JSON.stringify] writes it only in the third. *)
Inductive Optional (A : Type) :=
| Missing
| Undefined
| Value (a : A).
Arguments Missing {A}.
Arguments Undefined {A}.
Arguments Value {A} a.

(** What reading the property gives ([None] for [undefined]). *)
Definition read {A : Type} (o : Optional A) : option A :=
  match o with
  | Value a => Some a
  | _ => None
  end.

(** [string | number]; the numbers the form produces are integers. *)
Inductive StringOrNumber :=
| Str (s : string)
| Num (n : Z).

(** [Reminder].  The ISO string [date] is represented by the time value it
    denotes: [toISOString] writes it and [new Date(r.date)] reads it back. *)
Record Reminder := {
  id : string;
  userId : string;
  title : string;
  description : string;
  date : ESDate.Date;
  type : ReminderType.t;
  recurrence : RecurrenceType.t;
  method : CommunicationMethod.t;
  completed : bool;
  createdAt : Z;
  recurrenceEndMode : Optional RecurrenceEndMode.t;
  recurrenceEndValue : Optional StringOrNumber;
  contactInfo : Optional string
}.

End Types.

(** [User]. *)
Module User.

Record t := {
  id : string;
  isTemp : bool;
  name : string
}.

End User.

(** [Omit<Reminder, 'id' | 'createdAt' | 'userId'>], the argument of [onAdd]
    and of [handleSaveReminder]. *)
Module ReminderData.

Import Types.

Record t := {
  title : string;
  description : string;
  date : ESDate.Date;
  type : ReminderType.t;
  recurrence : RecurrenceType.t;
  method : CommunicationMethod.t;
  completed : bool;
  recurrenceEndMode : Optional RecurrenceEndMode.t;
  recurrenceEndValue : Optional StringOrNumber;
  contactInfo : Optional string
}.

End ReminderData.

(* ================================================================= *)
(** ** components/TimelineCalendar *)

Module TimelineCalendar.

Import ESDate D3Time Types.

Inductive ViewMode := month | week.
Inductive Direction := prev | next.

(** The [useState] cells of the component. *)
Record State := {
  currentDate : DateValue;
  viewMode : ViewMode;
  hoveredReminderId : option string
}.

Definition setCurrentDate (d : DateValue) (s : State) : State :=
  {| currentDate := d;
     viewMode := viewMode s;
     hoveredReminderId := hoveredReminderId s |}.

Definition setViewMode (m : ViewMode) (s : State) : State :=
  {| currentDate := currentDate s;
     viewMode := m;
     hoveredReminderId := hoveredReminderId s |}.

Section Component.

Context {host : Host}.

(** The [reminders] prop.  The [date] of a reminder is the ISO string of a
    valid date; [new Date(r.date)] is that date. *)
Variable reminders : list Reminder.

(** [resetView]; [now] is what [new Date()] gives while the handler runs. *)
Definition resetView (now : Date) (s : State) : State :=
  let s :=
    if (0 <? Z.of_nat (List.length reminders))
       && JSArray.some (fun r => now <? date r) reminders
    then
      let upcoming :=
        hd_error
          (JSArray.sort (fun a b => getTime (date a) - getTime (date b))
             (filter (fun r => now <=? date r) reminders)) in
      match upcoming with
      | Some upcoming => setCurrentDate (date upcoming) s
      | None => setCurrentDate now s
      end
    else setCurrentDate now s in
  setViewMode month s.

Definition handleNav (direction : Direction) (s : State) : State :=
  let offset := match direction with prev => -1 | next => 1 end in
  match viewMode s with
  | month => setCurrentDate (D3Time.offset timeMonth (currentDate s) offset) s
  | week => setCurrentDate (D3Time.offset timeWeek (currentDate s) offset) s
  end.

Definition getDays (s : State) : list Date :=
  let start :=
    match viewMode s with
    | month => floor timeMonth (currentDate s)
    | week => floor timeWeek (currentDate s)
    end in
  let end_ :=
    match viewMode s with
    | month => offset timeMonth start 1
    | week => offset timeWeek start 1
    end in
  let startGrid := floor timeWeek start in
  let endGrid :=
    match viewMode s with
    | month => ceil timeWeek end_
    | week => offset timeWeek startGrid 1
    end in
  range timeDay startGrid endGrid.

(** The reminders of the cell of [day]: those with
    [d3.timeDay.count(day, rDate) === 0]. *)
Definition dayReminders (day : Date) : list Reminder :=
  filter (fun r =>
            let rDate := date r in
            JSNum.strictEq (count timeDay day rDate) 0)
    reminders.

(** The cell lists [dayReminders.slice(0, 4)] and, when there are more,
    the number of the others. *)
Definition shownReminders (day : Date) : list Reminder :=
  JSArray.slice 0 4 (dayReminders day).

Definition moreReminders (day : Date) : option nat :=
  if (4 <? List.length (dayReminders day))%nat
  then Some (List.length (dayReminders day) - 4)%nat
  else None.

Definition isToday (now day : Date) : bool :=
  JSNum.strictEq (count timeDay now day) 0.

Definition isCurrentMonth (s : State) (day : Date) : bool :=
  JSNum.strictEq (DateObject.getMonth day)
    (DateObject.getMonth (currentDate s)).

End Component.

End TimelineCalendar.

(* ================================================================= *)
(** ** String methods *)

Module JSString.

(** [s.includes(q)]: [q] occurs in [s] at some position. *)
Fixpoint includes (s q : string) : bool :=
  String.prefix q s
  || match s with
     | String _ s' => includes s' q
     | EmptyString => false
     end.

(** [s.split(sep)[0]] for a separator of one character: the part of [s]
    before the first [sep], all of [s] when there is none. *)
Fixpoint splitHead (sep : ascii) (s : string) : string :=
  match s with
  | String c s' => if (c =? sep)%char then "" else String c (splitHead sep s')
  | EmptyString => ""
  end.

(** [s.slice(0, n)]. *)
Definition sliceTo (n : nat) (s : string) : string := String.substring 0 n s.

(** [Number.prototype.toString] of an integer. *)
Definition toString (n : Z) : string := NilZero.string_of_int (Z.to_int n).

(** [parts.join(sep)]. *)
Fixpoint join (sep : string) (parts : list string) : string :=
  match parts with
  | [] => ""
  | [p] => p
  | p :: rest => p ++ sep ++ join sep rest
  end.

End JSString.

(* ================================================================= *)
(** ** services/geminiService.ts *)

Module GeminiService.

(** How an awaited call ends: the promise is fulfilled with a value, or the
    call throws or the promise is rejected. *)
Inductive Completion (A : Type) :=
| Fulfilled (a : A)
| Thrown (error : string).
Arguments Fulfilled {A} a.
Arguments Thrown {A} error.

(** The part of [GenerateContentResponse] that is read. *)
Record GenerateContentResponse := {
  text : option string
}.

(** The white space and the line terminators among the code units below
    256: tab to carriage return, space and no-break space. *)
Definition isWhiteSpace (c : ascii) : bool :=
  let n := nat_of_ascii c in
  ((9 <=? n) && (n <=? 13) || (n =? 32) || (n =? 160))%nat.

Fixpoint trimStart (s : string) : string :=
  match s with
  | String c s' => if isWhiteSpace c then trimStart s' else s
  | EmptyString => EmptyString
  end.

Fixpoint trimEnd (s : string) : string :=
  match s with
  | String c s' =>
      match trimEnd s' with
      | EmptyString => if isWhiteSpace c then EmptyString
                       else String c EmptyString
      | t => String c t
      end
  | EmptyString => EmptyString
  end.

(** [String.prototype.trim], on strings of 8-bit code units. *)
Definition trim (s : string) : string := trimEnd (trimStart s).

Definition quote : string := String (ascii_of_nat 34) EmptyString.
Definition newline : string := String (ascii_of_nat 10) EmptyString.

Definition model : string := "gemini-3-flash-preview".

Definition refinePrompt (text_ : string) : string :=
  ("Rewrite the following reminder note to be more concise, clear, "
   ++ "and professional, but keep the friendly tone. "
   ++ "Return ONLY the rewritten text."
   ++ newline ++ "            " ++ newline
   ++ "            Original: " ++ quote ++ text_ ++ quote)%string.

Section Service.

(** [ai.models.generateContent({ model, contents })], awaited. *)
Variable generateContent :
  string -> string -> Completion GenerateContentResponse.

(** [refineReminderText]: the [try] block returns
    [response.text?.trim() || text], the [catch] block returns [text]. *)
Definition refineReminderText (text_ : string) : Completion string :=
  match generateContent model (refinePrompt text_) with
  | Fulfilled response =>
      Fulfilled
        match option_map trim (text response) with
        | Some t => if (t =? "")%string then text_ else t
        | None => text_
        end
  | Thrown _ => Fulfilled text_
  end.

Definition troubleMessage : string :=
  "I'm having trouble connecting to the cloud right now.".

Definition apologyMessage : string :=
  "I apologize, but I cannot process your request at the moment.".

Definition assistantPrompt (history userMessage : string) : string :=
  ("System Context: You are Memento AI, a minimalist assistant "
   ++ "for a reminder app. " ++ newline
   ++ "            Help the user refine their reminder notes "
   ++ "to be concise and clear. " ++ newline
   ++ "            Explain app features "
   ++ "(Calendar zoom based on entries, temp accounts)." ++ newline
   ++ "            Keep responses short, sober, and helpful." ++ newline
   ++ "            " ++ newline
   ++ "            Conversation History:" ++ newline
   ++ "            " ++ history ++ newline
   ++ "            " ++ newline
   ++ "            User Input: " ++ userMessage)%string.

(** [generateAssistantResponse]: the [try] block returns [response.text]
    or, when that is undefined or empty, the trouble message; the [catch]
    block logs the error and returns the apology.  The request carries the
    prompt as the text of its one part. *)
Definition generateAssistantResponse (history userMessage : string)
  : Completion string :=
  match generateContent model (assistantPrompt history userMessage) with
  | Fulfilled response =>
      Fulfilled
        match text response with
        | Some t => if (t =? "")%string then troubleMessage else t
        | None => troubleMessage
        end
  | Thrown _ => Fulfilled apologyMessage
  end.

End Service.

End GeminiService.

(* ================================================================= *)
(** ** Dates as strings *)

Module DateString.

Import ESDate.

(** The last decimal digit of [n], as a character. *)
Definition digit (n : Z) : ascii := ascii_of_N (48 + Z.to_N (n mod 10)).

(** The last [w] decimal digits of [n]: [n] padded with zeros to [w]
    places when it has no more. *)
Fixpoint pad (w : nat) (n : Z) : string :=
  match w with
  | O => ""
  | S w' => pad w' (n / 10) ++ String (digit n) ""
  end.

Definition yearString (y : Z) : string :=
  if ((0 <=? y) && (y <=? 9999))%Z then pad 4 y
  else ((if (y <? 0)%Z then "-" else "+") ++ pad 6 (Z.abs y))%string.

(** [Date.prototype.toISOString], of the UTC fields. *)
Definition toISOString (d : Date) : string :=
  (yearString (YearFromTime d) ++ "-" ++ pad 2 (MonthFromTime d + 1)
   ++ "-" ++ pad 2 (DateFromTime d)
   ++ "T" ++ pad 2 (HourFromTime d) ++ ":" ++ pad 2 (MinFromTime d)
   ++ ":" ++ pad 2 (SecFromTime d) ++ "." ++ pad 3 (msFromTime d)
   ++ "Z")%string.

(** [Date.prototype.toTimeString], of the local fields: the time, then the
    offset of the zone.  The name of the zone that hosts append in
    parentheses is left out. *)
Definition toTimeString {host : Host} (d : Date) : string :=
  let t := LocalTime d in
  let offset := LocalTZAat d true in
  (pad 2 (HourFromTime t) ++ ":" ++ pad 2 (MinFromTime t)
   ++ ":" ++ pad 2 (SecFromTime t)
   ++ " GMT" ++ (if (0 <=? offset)%Z then "+" else "-")
   ++ pad 2 (Z.abs offset / msPerHour)
   ++ pad 2 ((Z.abs offset / msPerMinute) mod 60))%string.

Definition digitValue (c : ascii) : option Z :=
  let n := Z.of_N (N_of_ascii c) in
  if (48 <=? n) && (n <=? 57) then Some (n - 48) else None.

Definition number2 (a b : ascii) : option Z :=
  match digitValue a, digitValue b with
  | Some x, Some y => Some (10 * x + y)
  | _, _ => None
  end.

Definition number4 (a b c d : ascii) : option Z :=
  match number2 a b, number2 c d with
  | Some x, Some y => Some (100 * x + y)
  | _, _ => None
  end.

(** The number of days of month [m] (from 0) of year [y]. *)
Definition DaysInMonth (y m : Z) : Z :=
  FirstDayOfMonth (m + 1) (LeapOfYear y) - FirstDayOfMonth m (LeapOfYear y).

(** The [Date] constructor on a string [YYYY-MM-DDTHH:mm], which is what the
    date and the time input of the form give: a date-time without offset is
    local time.  [None] stands for an invalid date, also for the dates that
    the month does not have, which hosts treat differently. *)
Definition parseLocalDateTime {host : Host} (s : string) : option Date :=
  match s with
  | String y1 (String y2 (String y3 (String y4 (String s1
    (String m1 (String m2 (String s2
    (String d1 (String d2 (String s3
    (String h1 (String h2 (String s4
    (String n1 (String n2 EmptyString))))))))))))))) =>
      if ((s1 =? "-") && (s2 =? "-") && (s3 =? "T") && (s4 =? ":"))%char
      then
        match number4 y1 y2 y3 y4, number2 m1 m2, number2 d1 d2,
              number2 h1 h2, number2 n1 n2 with
        | Some y, Some mo, Some d, Some h, Some mi =>
            if (1 <=? mo) && (mo <=? 12)
               && (1 <=? d) && (d <=? DaysInMonth y (mo - 1))
               && (h <=? 23) && (mi <=? 59)
            then Some (UTC (MakeDate (MakeDay y (mo - 1) d)
                                     (MakeTime h mi 0 0)))
            else None
        | _, _, _, _, _ => None
        end
      else None
  | _ => None
  end.

End DateString.

(* ================================================================= *)
(** ** components/ReminderWidget.tsx *)

Module ReminderWidget.

Import Types.

(** The [useState] cells of the form. *)
Record State := {
  title : string;
  description : string;
  date : string;
  time : string;
  type : ReminderType.t;
  recurrence : RecurrenceType.t;
  method : CommunicationMethod.t;
  recurrenceEndMode : RecurrenceEndMode.t;
  recurrenceEndValue : StringOrNumber;
  contactInfo : string;
  isRefining : bool
}.

(** The props that carry data; [onAdd] and [onClose] are the callbacks. *)
Record Props := {
  initialReminder : option Reminder;
  initialDate : option ESDate.Date
}.

Section Handlers.

(** The [Date] constructor applied to a date-time string. *)
Variable newDate : string -> ESDate.Date.

(** [handleSubmit]: the argument [onAdd] is called with, or [None] when the
    handler returns before calling it. *)
Definition handleSubmit (props : Props) (s : State) : option ReminderData.t :=
  if (title s =? "")%string || (date s =? "")%string then None
  else
    let fullDate :=
      newDate (date s ++ "T"
               ++ (if (time s =? "")%string then "09:00" else time s))%string in
    Some {|
      ReminderData.title := title s;
      ReminderData.description := description s;
      ReminderData.date := fullDate;
      ReminderData.type := type s;
      ReminderData.recurrence := recurrence s;
      ReminderData.method := method s;
      ReminderData.completed :=
        match initialReminder props with
        | Some r => Types.completed r
        | None => false
        end;
      ReminderData.recurrenceEndMode :=
        if RecurrenceType.eqb (recurrence s) RecurrenceType.None
        then Undefined
        else Value (recurrenceEndMode s);
      ReminderData.recurrenceEndValue :=
        if RecurrenceType.eqb (recurrence s) RecurrenceType.None
           || RecurrenceEndMode.eqb (recurrenceEndMode s)
                RecurrenceEndMode.never
        then Undefined
        else Value (recurrenceEndValue s);
      ReminderData.contactInfo :=
        if CommunicationMethod.eqb (method s) CommunicationMethod.Notification
        then Undefined
        else Value (contactInfo s)
    |}.

End Handlers.

(** The setters of the cells that handlers set. *)
Definition setDescription (d : string) (s : State) : State :=
  {| title := title s; description := d; date := date s; time := time s;
     type := type s; recurrence := recurrence s; method := method s;
     recurrenceEndMode := recurrenceEndMode s;
     recurrenceEndValue := recurrenceEndValue s;
     contactInfo := contactInfo s; isRefining := isRefining s |}.

Definition setIsRefining (b : bool) (s : State) : State :=
  {| title := title s; description := description s; date := date s;
     time := time s;
     type := type s; recurrence := recurrence s; method := method s;
     recurrenceEndMode := recurrenceEndMode s;
     recurrenceEndValue := recurrenceEndValue s;
     contactInfo := contactInfo s; isRefining := b |}.

Definition setTitle (t : string) (s : State) : State :=
  {| title := t; description := description s; date := date s;
     time := time s;
     type := type s; recurrence := recurrence s; method := method s;
     recurrenceEndMode := recurrenceEndMode s;
     recurrenceEndValue := recurrenceEndValue s;
     contactInfo := contactInfo s; isRefining := isRefining s |}.

(** [x || 'never'], [x || ''] on the optional properties: a property that
    is missing or holds [undefined], an empty string or 0 is falsy. *)
Definition endModeOr (o : Optional RecurrenceEndMode.t)
  : RecurrenceEndMode.t :=
  match o with
  | Value m => m
  | _ => RecurrenceEndMode.never
  end.

Definition endValueOr (o : Optional StringOrNumber) : StringOrNumber :=
  match o with
  | Value (Str "") | Value (Num 0) => Str ""
  | Value v => v
  | _ => Str ""
  end.

Definition contactOr (o : Optional string) : string :=
  match o with
  | Value c => c
  | _ => ""
  end.

Section Effects.

Context {host : ESDate.Host}.

(** The effect on [initialReminder] and [initialDate]: it fills the form
    from the reminder to edit or, without one, resets it, with the date
    that was clicked if any. *)
Definition loadForm (props : Props) (s : State) : State :=
  match initialReminder props with
  | Some r =>
      let d := Types.date r in
      {| title := Types.title r;
         description := Types.description r;
         date := JSString.splitHead "T" (DateString.toISOString d);
         time := JSString.sliceTo 5 (DateString.toTimeString d);
         type := Types.type r;
         recurrence := Types.recurrence r;
         method := Types.method r;
         recurrenceEndMode := endModeOr (Types.recurrenceEndMode r);
         recurrenceEndValue := endValueOr (Types.recurrenceEndValue r);
         contactInfo := contactOr (Types.contactInfo r);
         isRefining := isRefining s |}
  | None =>
      {| title := "";
         description := "";
         date := match initialDate props with
                 | Some d => JSString.splitHead "T" (DateString.toISOString d)
                 | None => ""
                 end;
         time := match initialDate props with
                 | Some _ => "09:00"
                 | None => ""
                 end;
         type := ReminderType.Standard;
         recurrence := RecurrenceType.None;
         method := CommunicationMethod.Notification;
         recurrenceEndMode := RecurrenceEndMode.never;
         recurrenceEndValue := Str "";
         contactInfo := "";
         isRefining := isRefining s |}
  end.

End Effects.

Section Refine.

Variable generateContent :
  string -> string -> GeminiService.Completion
                        GeminiService.GenerateContentResponse.

(** The render whose [handleAiRefine] runs. *)
Variable s : State.

(** [handleAiRefine] up to the [await]: the update of the state it queues,
    the identity when there is no description and it returns at once. *)
Definition handleAiRefine_begin (cur : State) : State :=
  if (description s =? "")%string then cur else setIsRefining true cur.

(** [handleAiRefine] from the [await] on, when the refined text has
    arrived. *)
Definition handleAiRefine_resume (cur : State) : State :=
  if (description s =? "")%string then cur
  else
    match GeminiService.refineReminderText generateContent (description s)
    with
    | GeminiService.Fulfilled refined =>
        setIsRefining false (setDescription refined cur)
    | GeminiService.Thrown _ => cur
    end.

End Refine.

End ReminderWidget.

(* ================================================================= *)
(** ** App.tsx *)

Module App.

Import Types.

Inductive ListMode := grid | list_.

(** The [useState] cells of [App]. *)
Record State := {
  user : User.t;
  reminders : list Reminder;
  showWidget : bool;
  viewMode : ListMode;
  searchQuery : string;
  editingReminder : option Reminder;
  initialWidgetDate : option ESDate.Date;
  pendingReminderData : option ReminderData.t;
  showReplaceDialog : bool
}.

(** What running a handler leaves behind: the state of the next render and
    the messages shown with [alert]. *)
Record Effects := {
  pending : State;
  alerts : list string
}.

(** A handler threads the effects; what it reads of the state it reads from
    the render it was created in, not from [pending]. *)
Definition Handler (A : Type) : Type := Effects -> A * Effects.

Definition ret {A : Type} (a : A) : Handler A := fun w => (a, w).

Definition bind {A B : Type} (h : Handler A) (k : A -> Handler B) : Handler B :=
  fun w => let '(a, w') := h w in k a w'.

Notation "h1 ;; h2" := (bind h1 (fun _ => h2))
  (at level 61, right associativity).

Definition update (f : State -> State) : Handler unit :=
  fun w => (tt, {| pending := f (pending w); alerts := alerts w |}).

Definition alert (msg : string) : Handler unit :=
  fun w => (tt, {| pending := pending w; alerts := alerts w ++ [msg] |}).

(** The setters.  [setReminders] takes an updater [prev => ...]; storing a
    value is the constant updater. *)
Definition setUser (u : User.t) : Handler unit :=
  update (fun s =>
    {| user := u; reminders := reminders s; showWidget := showWidget s;
       viewMode := viewMode s; searchQuery := searchQuery s;
       editingReminder := editingReminder s;
       initialWidgetDate := initialWidgetDate s;
       pendingReminderData := pendingReminderData s;
       showReplaceDialog := showReplaceDialog s |}).

Definition setReminders (f : list Reminder -> list Reminder) : Handler unit :=
  update (fun s =>
    {| user := user s; reminders := f (reminders s);
       showWidget := showWidget s;
       viewMode := viewMode s; searchQuery := searchQuery s;
       editingReminder := editingReminder s;
       initialWidgetDate := initialWidgetDate s;
       pendingReminderData := pendingReminderData s;
       showReplaceDialog := showReplaceDialog s |}).

Definition setShowWidget (b : bool) : Handler unit :=
  update (fun s =>
    {| user := user s; reminders := reminders s; showWidget := b;
       viewMode := viewMode s; searchQuery := searchQuery s;
       editingReminder := editingReminder s;
       initialWidgetDate := initialWidgetDate s;
       pendingReminderData := pendingReminderData s;
       showReplaceDialog := showReplaceDialog s |}).

Definition setEditingReminder (e : option Reminder) : Handler unit :=
  update (fun s =>
    {| user := user s; reminders := reminders s; showWidget := showWidget s;
       viewMode := viewMode s; searchQuery := searchQuery s;
       editingReminder := e;
       initialWidgetDate := initialWidgetDate s;
       pendingReminderData := pendingReminderData s;
       showReplaceDialog := showReplaceDialog s |}).

Definition setInitialWidgetDate (d : option ESDate.Date) : Handler unit :=
  update (fun s =>
    {| user := user s; reminders := reminders s; showWidget := showWidget s;
       viewMode := viewMode s; searchQuery := searchQuery s;
       editingReminder := editingReminder s;
       initialWidgetDate := d;
       pendingReminderData := pendingReminderData s;
       showReplaceDialog := showReplaceDialog s |}).

Definition setPendingReminderData (p : option ReminderData.t) : Handler unit :=
  update (fun s =>
    {| user := user s; reminders := reminders s; showWidget := showWidget s;
       viewMode := viewMode s; searchQuery := searchQuery s;
       editingReminder := editingReminder s;
       initialWidgetDate := initialWidgetDate s;
       pendingReminderData := p;
       showReplaceDialog := showReplaceDialog s |}).

Definition setShowReplaceDialog (b : bool) : Handler unit :=
  update (fun s =>
    {| user := user s; reminders := reminders s; showWidget := showWidget s;
       viewMode := viewMode s; searchQuery := searchQuery s;
       editingReminder := editingReminder s;
       initialWidgetDate := initialWidgetDate s;
       pendingReminderData := pendingReminderData s;
       showReplaceDialog := b |}).

Definition setViewMode (m : ListMode) : Handler unit :=
  update (fun s =>
    {| user := user s; reminders := reminders s; showWidget := showWidget s;
       viewMode := m; searchQuery := searchQuery s;
       editingReminder := editingReminder s;
       initialWidgetDate := initialWidgetDate s;
       pendingReminderData := pendingReminderData s;
       showReplaceDialog := showReplaceDialog s |}).

Definition setSearchQuery (q : string) : Handler unit :=
  update (fun s =>
    {| user := user s; reminders := reminders s; showWidget := showWidget s;
       viewMode := viewMode s; searchQuery := q;
       editingReminder := editingReminder s;
       initialWidgetDate := initialWidgetDate s;
       pendingReminderData := pendingReminderData s;
       showReplaceDialog := showReplaceDialog s |}).

(** [{ ...r, ...data }]: every property that [data] has replaces the one of
    [r]; [id], [userId] and [createdAt] are not properties of [data]. *)
Definition spreadOptional {A : Type} (base over : Optional A) : Optional A :=
  match over with
  | Missing => base
  | _ => over
  end.

Definition spreadData (r : Reminder) (data : ReminderData.t) : Reminder :=
  {| id := id r;
     userId := userId r;
     title := ReminderData.title data;
     description := ReminderData.description data;
     date := ReminderData.date data;
     type := ReminderData.type data;
     recurrence := ReminderData.recurrence data;
     method := ReminderData.method data;
     completed := ReminderData.completed data;
     createdAt := createdAt r;
     recurrenceEndMode :=
       spreadOptional (recurrenceEndMode r)
         (ReminderData.recurrenceEndMode data);
     recurrenceEndValue :=
       spreadOptional (recurrenceEndValue r)
         (ReminderData.recurrenceEndValue data);
     contactInfo :=
       spreadOptional (contactInfo r) (ReminderData.contactInfo data) |}.

(** [{ ...data, id, userId, createdAt }]. *)
Definition newReminderOf (data : ReminderData.t) (id_ userId_ : string)
  (createdAt_ : Z) : Reminder :=
  {| id := id_;
     userId := userId_;
     title := ReminderData.title data;
     description := ReminderData.description data;
     date := ReminderData.date data;
     type := ReminderData.type data;
     recurrence := ReminderData.recurrence data;
     method := ReminderData.method data;
     completed := ReminderData.completed data;
     createdAt := createdAt_;
     recurrenceEndMode := ReminderData.recurrenceEndMode data;
     recurrenceEndValue := ReminderData.recurrenceEndValue data;
     contactInfo := ReminderData.contactInfo data |}.

(** [{ ...r, userId: 'migrated' }] and [{ ...r, completed: !r.completed }]. *)
Definition withUserId (r : Reminder) (u : string) : Reminder :=
  {| id := id r; userId := u; title := title r;
     description := description r; date := date r; type := type r;
     recurrence := recurrence r; method := method r;
     completed := completed r; createdAt := createdAt r;
     recurrenceEndMode := recurrenceEndMode r;
     recurrenceEndValue := recurrenceEndValue r;
     contactInfo := contactInfo r |}.

Definition withCompleted (r : Reminder) (c : bool) : Reminder :=
  {| id := id r; userId := userId r; title := title r;
     description := description r; date := date r; type := type r;
     recurrence := recurrence r; method := method r;
     completed := c; createdAt := createdAt r;
     recurrenceEndMode := recurrenceEndMode r;
     recurrenceEndValue := recurrenceEndValue r;
     contactInfo := contactInfo r |}.

Definition limitMessage : string :=
  "Account limit reached (50 active reminders). Please delete some entries.".

Definition initialState : State :=
  {| user := {| User.id := "temp-user"; User.isTemp := true;
               User.name := "Guest" |};
     reminders := [];
     showWidget := false;
     viewMode := grid;
     searchQuery := "";
     editingReminder := None;
     initialWidgetDate := None;
     pendingReminderData := None;
     showReplaceDialog := false |}.

Section Render.

(** The state of the render whose handlers run. *)
Variable s : State.

(** What [generateId()], [Date.now()] and [new Date()] return while the
    handler runs. *)
Variable generateId : string.
Variable now : Z.

Definition closeWidget : Handler unit :=
  setShowWidget false ;;
  setEditingReminder None ;;
  setInitialWidgetDate None.

Definition createReminder (data : ReminderData.t) : Handler unit :=
  let newReminder := newReminderOf data generateId (User.id (user s)) now in
  setReminders (fun prev => prev ++ [newReminder]).

Definition handleSaveReminder (data : ReminderData.t) : Handler unit :=
  match editingReminder s with
  | Some editing =>
      (* 1. UPDATE Existing *)
      setReminders
        (fun prev =>
           map (fun r => if (id r =? id editing)%string
                         then spreadData r data else r) prev) ;;
      closeWidget
  | None =>
      (* 2. CREATE New *)
      if User.isTemp (user s) && (1 <=? Z.of_nat (List.length (reminders s)))
      then
        setPendingReminderData (Some data) ;;
        setShowReplaceDialog true
      else if negb (User.isTemp (user s))
              && (50 <=? Z.of_nat (List.length (reminders s)))
      then alert limitMessage
      else
        createReminder data ;;
        closeWidget
  end.

Definition handleConfirmReplace : Handler unit :=
  match pendingReminderData s with
  | Some pendingData =>
      setReminders (fun _ => []) ;;
      createReminder pendingData ;;
      setShowReplaceDialog false ;;
      setPendingReminderData None ;;
      closeWidget
  | None => ret tt
  end.

Definition handleCancelReplace : Handler unit :=
  setShowReplaceDialog false ;;
  setPendingReminderData None.

Definition openCreateWidget (date : option ESDate.Date) : Handler unit :=
  setEditingReminder None ;;
  setInitialWidgetDate
    (Some match date with Some d => d | None => now end) ;;
  setShowWidget true.

Definition openEditWidget (id_ : string) : Handler unit :=
  match find (fun r => (id r =? id_)%string) (reminders s) with
  | Some reminderToEdit =>
      setEditingReminder (Some reminderToEdit) ;;
      setInitialWidgetDate None ;;
      setShowWidget true
  | None => ret tt
  end.

Definition handleDeleteReminder (id_ : string) : Handler unit :=
  setReminders (fun prev => filter (fun r => negb (id r =? id_)%string) prev) ;;
  match editingReminder s with
  | Some editing => if (id editing =? id_)%string then closeWidget else ret tt
  | None => ret tt
  end.

Definition handleToggleComplete (id_ : string) : Handler unit :=
  setReminders
    (fun prev =>
       map (fun r => if (id r =? id_)%string
                     then withCompleted r (negb (completed r)) else r) prev).

Definition handleLogin (name_ : string) : Handler unit :=
  setUser {| User.id := generateId; User.isTemp := false;
             User.name := name_ |} ;;
  setReminders (fun prev => map (fun r => withUserId r "migrated") prev).

Definition handleLogout : Handler unit :=
  setUser {| User.id := "temp-user"; User.isTemp := true;
             User.name := "Guest" |} ;;
  setReminders (fun _ => []) ;;
  closeWidget.

(** Running a handler of this render: the effects it has, from none. *)
Definition run (h : Handler unit) : Effects :=
  snd (h {| pending := s; alerts := [] |}).

End Render.

Section Filtering.

(** [String.prototype.toLowerCase]. *)
Variable toLowerCase : string -> string.

(** [filteredReminders]: the reminders whose title or description contains
    the search query, whatever the case, by ascending date. *)
Definition filteredReminders (s : State) : list Reminder :=
  JSArray.sort
    (fun a b => ESDate.getTime (date a) - ESDate.getTime (date b))
    (filter
       (fun r =>
          JSString.includes (toLowerCase (title r))
            (toLowerCase (searchQuery s))
          || JSString.includes (toLowerCase (description r))
               (toLowerCase (searchQuery s)))
       (reminders s)).

End Filtering.

End App.

(* ================================================================= *)
(** ** components/UserProfile *)

Module UserProfile.

(** The [useState] cells of the component. *)
Record State := {
  isMenuOpen : bool;
  tempName : string
}.

(** The buttons of the menu, which shows the first to a temporary user and
    the second to any other, and the callbacks of [App] they call. *)
Inductive Button := CreateAccount | Logout.
Inductive Callback := onLogin (name : string) | onLogout.

Definition rendered (user : User.t) (b : Button) : bool :=
  match b with
  | CreateAccount => User.isTemp user
  | Logout => negb (User.isTemp user)
  end.

Definition setIsMenuOpen (b : bool) (s : State) : State :=
  {| isMenuOpen := b; tempName := tempName s |}.

(** [onClick]: the callback that is called, if any, and the next state. *)
Definition onClick (b : Button) (s : State) : option Callback * State :=
  match b with
  | CreateAccount =>
      if (tempName s =? "")%string then (None, s)
      else (Some (onLogin (tempName s)), setIsMenuOpen false s)
  | Logout => (Some onLogout, setIsMenuOpen false s)
  end.

End UserProfile.

(* ================================================================= *)
(** ** components/Assistant.tsx *)

(** [ChatMessage] of types.ts. *)
Module ChatMessage.

Inductive Role := user | model.

Definition roleString (r : Role) : string :=
  match r with
  | user => "user"
  | model => "model"
  end.

Record t := {
  id : string;
  role : Role;
  text : string;
  timestamp : Z
}.

End ChatMessage.

Module Assistant.

Import GeminiService.

(** The [useState] cells of the component. *)
Record State := {
  isOpen : bool;
  messages : list ChatMessage.t;
  input : string;
  loading : bool
}.

Definition initialState (now : Z) : State :=
  {| isOpen := false;
     messages :=
       [{| ChatMessage.id := "init";
           ChatMessage.role := ChatMessage.model;
           ChatMessage.text :=
             ("Hello. I can help you organize your schedule "
              ++ "or explain how the calendar works.")%string;
           ChatMessage.timestamp := now |}];
     input := "";
     loading := false |}.

(** The four readings of [Date.now()] in one run of [handleSend]. *)
Record Clock := {
  atUserId : Z;
  atUserTimestamp : Z;
  atBotId : Z;
  atBotTimestamp : Z
}.

Section Handlers.

Variable generateContent :
  string -> string -> Completion GenerateContentResponse.

(** The render whose [handleSend] runs. *)
Variable s : State.
Variable clock : Clock.

Definition userMsg : ChatMessage.t :=
  {| ChatMessage.id := JSString.toString (atUserId clock);
     ChatMessage.role := ChatMessage.user;
     ChatMessage.text := input s;
     ChatMessage.timestamp := atUserTimestamp clock |}.

Definition historyText : string :=
  JSString.join newline
    (map (fun m =>
            (ChatMessage.roleString (ChatMessage.role m) ++ ": "
             ++ ChatMessage.text m)%string)
       (messages s)).

(** What the awaited [generateAssistantResponse] gives. *)
Definition responseText : Completion string :=
  generateAssistantResponse generateContent historyText
    (ChatMessage.text userMsg).

Definition botMsg (response : string) : ChatMessage.t :=
  {| ChatMessage.id := JSString.toString (atBotId clock + 1);
     ChatMessage.role := ChatMessage.model;
     ChatMessage.text := response;
     ChatMessage.timestamp := atBotTimestamp clock |}.

(** [handleSend] up to the [await]: the update of the state it queues, the
    identity when the input is blank and the handler returns at once. *)
Definition handleSend_begin (cur : State) : State :=
  if (trim (input s) =? "")%string then cur
  else
    {| isOpen := isOpen cur;
       messages := messages cur ++ [userMsg];
       input := "";
       loading := true |}.

(** [handleSend] from the [await] on: the update it queues when the
    response has arrived; nothing when the handler returned at once or the
    awaited call threw. *)
Definition handleSend_resume (cur : State) : State :=
  if (trim (input s) =? "")%string then cur
  else
    match responseText with
    | Fulfilled response =>
        {| isOpen := isOpen cur;
           messages := messages cur ++ [botMsg response];
           input := input cur;
           loading := false |}
    | Thrown _ => cur
    end.

End Handlers.

End Assistant.

(* ================================================================= *)
(** ** Terms of the specification and sample values *)

Module CalendarTerms.

Import ESDate D3Time Types TimelineCalendar.

(** First day of the month of [d] and of the month after, as day numbers. *)
Definition monthStart {host : Host} (d : Date) : Z :=
  MakeDay (getFullYear d) (getMonth d) 1.
Definition monthEndExclusive {host : Host} (d : Date) : Z :=
  MakeDay (getFullYear d) (getMonth d + 1) 1.

(** The state of a month view anchored at [anchor]. *)
Definition monthView (anchor : Date) (hovered : option string) : State :=
  {| currentDate := anchor; viewMode := month; hoveredReminderId := hovered |}.

(** The time zones the closed examples are run in. *)
Definition zoneUTC : TimeZone := {| LocalTZA := 0 |}.
Definition zonePlus2 : TimeZone := {| LocalTZA := 7200000 |}.

(** A host that is four hours behind UTC until 2023-09-03T04:00:00Z and
    three hours behind from then on: its clocks go from midnight to 01:00
    on Sunday 2023-09-03, as those of America/Santiago do. *)
Definition midnightDST : Host :=
  {| LocalTZAat := fun t isUTC =>
       if isUTC
       then if t <? 1693713600000 then -14400000 else -10800000
       else if t <? 1693713600000 - 10800000 then -14400000
            else -10800000 |}.

(** A host that is five hours behind UTC until 2024-03-10T07:00:00Z and
    four hours behind from then on: its clocks go from 02:00 to 03:00 on
    Sunday 2024-03-10, as those of America/New_York do. *)
Definition springForward : Host :=
  {| LocalTZAat := fun t isUTC =>
       if isUTC
       then if t <? 1710054000000 then -18000000 else -14400000
       else if t <? 1710054000000 - 14400000 then -18000000
            else -14400000 |}.

(** A host that is ten hours behind UTC until 2011-12-30T10:00:00Z and
    fourteen hours ahead from then on: its clocks go from the end of
    2011-12-29 to the start of 2011-12-31, as those of Pacific/Apia did. *)
Definition skippedDay : Host :=
  {| LocalTZAat := fun t isUTC =>
       if isUTC
       then if t <? 1325239200000 then -36000000 else 50400000
       else if t <? 1325239200000 + 50400000 then -36000000
            else 50400000 |}.

(** A time value that is more than 40 days inside the range of time
    values. *)
Definition wellInside (t : Date) : Prop :=
  - maxTime + 40 * msPerDay <= t <= maxTime - 40 * msPerDay.

(** A reminder that is due at [d], for the closed examples. *)
Definition reminderAt (id_ : string) (d : Date) : Reminder :=
  {| id := id_; userId := "temp-user"; title := "Dentist"; description := "";
     date := d; type := ReminderType.Health;
     recurrence := RecurrenceType.None;
     method := CommunicationMethod.Notification;
     completed := false; createdAt := 0;
     recurrenceEndMode := Undefined; recurrenceEndValue := Undefined;
     contactInfo := Undefined |}.

(** The state of a week view anchored at [anchor]. *)
Definition weekView (anchor : Date) (hovered : option string) : State :=
  {| currentDate := anchor; viewMode := week; hoveredReminderId := hovered |}.

(** The first of the month after and of the month before month [m] of year
    [y], as day numbers; [MakeDay] carries the month into the year. *)
Definition nextMonthStart (y m : Z) : Z := MakeDay y (m + 1) 1.
Definition prevMonthStart (y m : Z) : Z := MakeDay y (m - 1) 1.

End CalendarTerms.

(** The comparator of a sort by a numeric key, and the order it gives. *)
Module SortTerms.

Definition byKey {A : Type} (key : A -> Z) (a b : A) : Z := key a - key b.

Definition keyLe {A : Type} (key : A -> Z) (a b : A) : Prop :=
  key a <= key b.

End SortTerms.

Module AppTerms.

Import Types App.

(** The state of the render that follows a handler, and the alerts shown. *)
Definition after (s : State) (h : Handler unit) : State := pending (run s h).
Definition alerted (s : State) (h : Handler unit) : list string :=
  alerts (run s h).

(** The state [s] with the pending-replace dialog in the given condition. *)
Definition withPending (s : State) (p : option ReminderData.t) (dialog : bool)
  : State :=
  {| user := user s; reminders := reminders s; showWidget := showWidget s;
     viewMode := viewMode s; searchQuery := searchQuery s;
     editingReminder := editingReminder s;
     initialWidgetDate := initialWidgetDate s;
     pendingReminderData := p;
     showReplaceDialog := dialog |}.

(** The state [s] with the given reminders and the widget closed. *)
Definition closedWith (s : State) (rs : list Reminder) : State :=
  {| user := user s; reminders := rs; showWidget := false;
     viewMode := viewMode s; searchQuery := searchQuery s;
     editingReminder := None;
     initialWidgetDate := None;
     pendingReminderData := pendingReminderData s;
     showReplaceDialog := showReplaceDialog s |}.

(** The update that an edit-submit applies to the collection. *)
Definition edited (editing : Reminder) (data : ReminderData.t)
  (rs : list Reminder) : list Reminder :=
  map (fun r => if (id r =? id editing)%string then spreadData r data else r)
    rs.

(** Sample values for the closed examples. *)
Definition sampleData (title_ : string) : ReminderData.t :=
  {| ReminderData.title := title_;
     ReminderData.description := "";
     ReminderData.date := 1710545400000;
     ReminderData.type := ReminderType.Standard;
     ReminderData.recurrence := RecurrenceType.None;
     ReminderData.method := CommunicationMethod.Notification;
     ReminderData.completed := false;
     ReminderData.recurrenceEndMode := Undefined;
     ReminderData.recurrenceEndValue := Undefined;
     ReminderData.contactInfo := Undefined |}.

Definition guestWithOne : State :=
  {| user := user initialState;
     reminders := [newReminderOf (sampleData "old") "id0" "temp-user" 1];
     showWidget := true;
     viewMode := grid;
     searchQuery := "";
     editingReminder := None;
     initialWidgetDate := None;
     pendingReminderData := None;
     showReplaceDialog := false |}.

Definition namedWithFifty : State :=
  {| user := {| User.id := "u1"; User.isTemp := false;
               User.name := "Ada" |};
     reminders := repeat (newReminderOf (sampleData "old") "id0" "u1" 1) 50;
     showWidget := true;
     viewMode := grid;
     searchQuery := "";
     editingReminder := None;
     initialWidgetDate := None;
     pendingReminderData := None;
     showReplaceDialog := false |}.

Definition guestEditing : State :=
  {| user := user guestWithOne;
     reminders := reminders guestWithOne;
     showWidget := true;
     viewMode := grid;
     searchQuery := "";
     editingReminder := hd_error (reminders guestWithOne);
     initialWidgetDate := None;
     pendingReminderData := None;
     showReplaceDialog := false |}.

Definition twoEntriesEditing : State :=
  {| user := {| User.id := "u1"; User.isTemp := false;
               User.name := "Ada" |};
     reminders := [newReminderOf (sampleData "first") "id0" "u1" 1;
                   newReminderOf (sampleData "second") "id1" "u1" 2];
     showWidget := true;
     viewMode := grid;
     searchQuery := "";
     editingReminder := Some (newReminderOf (sampleData "first") "id0" "u1" 1);
     initialWidgetDate := None;
     pendingReminderData := None;
     showReplaceDialog := false |}.

(** Whether the title or the description of [r] contains the search query
    of [s], both in lower case. *)
Definition matchesQuery (toLowerCase : string -> string) (s : State)
  (r : Reminder) : bool :=
  JSString.includes (toLowerCase (title r)) (toLowerCase (searchQuery s))
  || JSString.includes (toLowerCase (description r))
       (toLowerCase (searchQuery s)).

(** The reminders of a list that are due at [d], in their order. *)
Definition dueAt (d : ESDate.Date) (rs : list Reminder) : list Reminder :=
  filter (fun r => date r =? d) rs.

(** The number of entries an account may hold. *)
Definition quota (u : User.t) : nat := if User.isTemp u then 1 else 50.

Definition guest : User.t :=
  {| User.id := "temp-user"; User.isTemp := true; User.name := "Guest" |}.

(** One event of the user interface: a handler of [App] runs in the render
    of state [s] and leaves the state of the next render.  The buttons of
    the replace dialog exist while the dialog is shown, those of the
    profile menu as [UserProfile] renders them. *)
Inductive step : State -> State -> Prop :=
| step_save (s : State) (id_ : string) (now : Z) (data : ReminderData.t) :
    step s (after s (handleSaveReminder s id_ now data))
| step_confirm (s : State) (id_ : string) (now : Z) :
    showReplaceDialog s = true ->
    step s (after s (handleConfirmReplace s id_ now))
| step_cancel (s : State) :
    showReplaceDialog s = true ->
    step s (after s handleCancelReplace)
| step_open_create (s : State) (now : Z) (d : option ESDate.Date) :
    step s (after s (openCreateWidget now d))
| step_open_edit (s : State) (id_ : string) :
    step s (after s (openEditWidget s id_))
| step_close (s : State) :
    step s (after s closeWidget)
| step_delete (s : State) (id_ : string) :
    step s (after s (handleDeleteReminder s id_))
| step_toggle (s : State) (id_ : string) :
    step s (after s (handleToggleComplete id_))
| step_login (s : State) (p : UserProfile.State) (id_ name_ : string) :
    UserProfile.rendered (user s) UserProfile.CreateAccount = true ->
    fst (UserProfile.onClick UserProfile.CreateAccount p)
    = Some (UserProfile.onLogin name_) ->
    step s (after s (handleLogin id_ name_))
| step_logout (s : State) (p : UserProfile.State) :
    UserProfile.rendered (user s) UserProfile.Logout = true ->
    fst (UserProfile.onClick UserProfile.Logout p) = Some UserProfile.onLogout ->
    step s (after s handleLogout)
| step_view (s : State) (m : ListMode) :
    step s (after s (setViewMode m))
| step_search (s : State) (q : string) :
    step s (after s (setSearchQuery q)).

(** What holds of every state of a session (see [AppMore]). *)
Definition withinQuota (s : State) : Prop :=
  (List.length (reminders s) <= quota (user s))%nat.

Definition dialogTracksPending (s : State) : Prop :=
  (showReplaceDialog s = true -> exists data, pendingReminderData s = Some data)
  /\ (showReplaceDialog s = false -> pendingReminderData s = None).

Definition editTargetExists (s : State) : Prop :=
  forall editing : Reminder,
    editingReminder s = Some editing ->
    showWidget s = true
    /\ exists r : Reminder, In r (reminders s) /\ id r = id editing.

Definition identityKnown (s : State) : Prop :=
  (User.isTemp (user s) = true -> user s = guest)
  /\ (User.isTemp (user s) = false -> User.name (user s) <> ""%string).

Definition ownedOrMigrated (s : State) : Prop :=
  forall r : Reminder,
    In r (reminders s) ->
    userId r = "migrated"%string \/ userId r = User.id (user s).

(** The states of a session that starts without stored data. *)
Inductive reachable : State -> Prop :=
| reachable_initial : reachable initialState
| reachable_step (s s' : State) : reachable s -> step s s' -> reachable s'.

(** A short session: a guest adds an entry, then opens it for editing, or
    submits a second one, or logs in. *)
Definition session1 : State :=
  after initialState
    (handleSaveReminder initialState "id1" 1 (sampleData "first")).

Definition session2 : State := after session1 (openEditWidget session1 "id1").

Definition session3 : State :=
  after session1 (handleSaveReminder session1 "id2" 2 (sampleData "second")).

Definition session4 : State := after session1 (handleLogin "u9" "Ada").

End AppTerms.

Module ServiceTerms.

Import GeminiService.

(** Whether a string begins, or ends, with white space. *)
Definition startsWithSpace (s : string) : bool :=
  match s with
  | String c _ => isWhiteSpace c
  | EmptyString => false
  end.

Fixpoint endsWithSpace (s : string) : bool :=
  match s with
  | String c EmptyString => isWhiteSpace c
  | String _ s' => endsWithSpace s'
  | EmptyString => false
  end.

(** The no-break space, code unit 160. *)
Definition nbsp : string := String (ascii_of_nat 160) EmptyString.

(** A model that answers every request with [answer], one that answers
    without text, and one that is out of service. *)
Definition answering (answer : string)
  : string -> string -> Completion GenerateContentResponse :=
  fun _ _ => Fulfilled {| text := Some answer |}.

Definition silent : string -> string -> Completion GenerateContentResponse :=
  fun _ _ => Fulfilled {| text := None |}.

Definition outOfService
  : string -> string -> Completion GenerateContentResponse :=
  fun _ _ => Thrown "503 Service Unavailable".

(** A chat in which a question has been typed. *)
Definition chatWithQuestion : Assistant.State :=
  {| Assistant.isOpen := true;
     Assistant.messages := Assistant.messages (Assistant.initialState 1);
     Assistant.input := "How do I add a reminder?";
     Assistant.loading := false |}.

Definition sampleClock : Assistant.Clock :=
  {| Assistant.atUserId := 1710545400000;
     Assistant.atUserTimestamp := 1710545400000;
     Assistant.atBotId := 1710545401200;
     Assistant.atBotTimestamp := 1710545401200 |}.

End ServiceTerms.

Module WidgetTerms.

Import Types ReminderWidget.

(** An optional property is absent when reading it gives [undefined]; it is
    then left out of the stored JSON. *)
Definition absent {A : Type} (o : Optional A) : Prop := read o = None.

(** The optional fields of an entry follow the enumerations they depend on. *)
Definition optionalFieldsTrack (e : Reminder) : Prop :=
  (Types.recurrence e = RecurrenceType.None ->
   absent (Types.recurrenceEndMode e) /\ absent (Types.recurrenceEndValue e))
  /\ (read (Types.recurrenceEndMode e) = Some RecurrenceEndMode.never ->
      absent (Types.recurrenceEndValue e))
  /\ (Types.method e = CommunicationMethod.Notification ->
      absent (Types.contactInfo e)).

(** A form filled in for a weekly reminder that ends after 5 occurrences. *)
Definition weeklyForm : State :=
  {| title := "Gym"; description := ""; date := "2024-03-15"; time := "";
     type := ReminderType.Health; recurrence := RecurrenceType.Weekly;
     method := CommunicationMethod.Notification;
     recurrenceEndMode := RecurrenceEndMode.count;
     recurrenceEndValue := Num 5;
     contactInfo := "someone@example.org";
     isRefining := false |}.

Definition noProps : Props :=
  {| initialReminder := None; initialDate := None |}.

(** The strings [YYYY-MM-DD] and [HH:mm] of given fields. *)
Definition dateString (y m d : Z) : string :=
  (DateString.pad 4 y ++ "-" ++ DateString.pad 2 m ++ "-"
   ++ DateString.pad 2 d)%string.

Definition timeString (h mi : Z) : string :=
  (DateString.pad 2 h ++ ":" ++ DateString.pad 2 mi)%string.

(** A [Date] constructor that reads the strings of the form; 0 stands in
    for the invalid dates, which no statement below meets. *)
Definition newDateOf {host : ESDate.Host} (s : string) : ESDate.Date :=
  match DateString.parseLocalDateTime s with
  | Some t => t
  | None => 0
  end.

(** The props of the widget when it edits [r], and when it creates an
    entry for the day that was clicked. *)
Definition editing (r : Reminder) : Props :=
  {| initialReminder := Some r; initialDate := None |}.

Definition creatingOn (day : ESDate.Date) : Props :=
  {| initialReminder := None; initialDate := Some day |}.

(** The optional properties of [r] are as [handleSubmit] writes them, and
    no end value is the number 0, which the form would read as empty. *)
Definition asSubmitted (r : Reminder) : Prop :=
  (Types.recurrence r = RecurrenceType.None ->
   Types.recurrenceEndMode r = Undefined
   /\ Types.recurrenceEndValue r = Undefined)
  /\ (Types.recurrence r <> RecurrenceType.None ->
      exists m : RecurrenceEndMode.t,
        Types.recurrenceEndMode r = Value m
        /\ (m = RecurrenceEndMode.never ->
            Types.recurrenceEndValue r = Undefined)
        /\ (m <> RecurrenceEndMode.never ->
            exists v : StringOrNumber,
              Types.recurrenceEndValue r = Value v /\ v <> Num 0))
  /\ (Types.method r = CommunicationMethod.Notification ->
      Types.contactInfo r = Undefined)
  /\ (Types.method r <> CommunicationMethod.Notification ->
      exists c : string, Types.contactInfo r = Value c).

(** A weekly reminder with an end count, due at 23:30:00.123 UTC on
    2024-03-15, which is 01:30 on 2024-03-16 two hours east of UTC. *)
Definition lateReminder : Reminder :=
  {| Types.id := "id1"; Types.userId := "temp-user";
     Types.title := "Gym"; Types.description := "legs";
     Types.date := 1710545400123;
     Types.type := ReminderType.Health;
     Types.recurrence := RecurrenceType.Weekly;
     Types.method := CommunicationMethod.Email;
     Types.completed := true; Types.createdAt := 7;
     Types.recurrenceEndMode := Value RecurrenceEndMode.count;
     Types.recurrenceEndValue := Value (Num 5);
     Types.contactInfo := Value "someone@example.org"%string |}.

(** The same reminder due at 01:00 UTC on 2024-03-10, which is 20:00 on
    2024-03-09 five hours west of UTC. *)
Definition eveningReminder : Reminder :=
  {| Types.id := "id1"; Types.userId := "temp-user";
     Types.title := "Gym"; Types.description := "legs";
     Types.date := 1710032400000;
     Types.type := ReminderType.Health;
     Types.recurrence := RecurrenceType.Weekly;
     Types.method := CommunicationMethod.Email;
     Types.completed := true; Types.createdAt := 7;
     Types.recurrenceEndMode := Value RecurrenceEndMode.count;
     Types.recurrenceEndValue := Value (Num 5);
     Types.contactInfo := Value "someone@example.org"%string |}.

(** The same reminder due at 12:30 UTC, on a whole minute. *)
Definition noonReminder : Reminder :=
  {| Types.id := "id1"; Types.userId := "temp-user";
     Types.title := "Gym"; Types.description := "legs";
     Types.date := 1710505800000;
     Types.type := ReminderType.Health;
     Types.recurrence := RecurrenceType.Weekly;
     Types.method := CommunicationMethod.Email;
     Types.completed := true; Types.createdAt := 7;
     Types.recurrenceEndMode := Value RecurrenceEndMode.count;
     Types.recurrenceEndValue := Value (Num 5);
     Types.contactInfo := Value "someone@example.org"%string |}.

End WidgetTerms.

(* ================================================================= *)
(** * Properties *)

(** ** The calendar is consistent *)

Module ESDateFacts.

Import ESDate.

Lemma DayFromYear_succ (y : Z) :
  DayFromYear (y + 1) = DayFromYear y + DaysInYear y.
Proof.
  unfold DayFromYear, DaysInYear.
  destruct (Z.eqb_spec (y mod 4) 0), (Z.eqb_spec (y mod 100) 0),
    (Z.eqb_spec (y mod 400) 0); cbn [negb];
    Z.div_mod_to_equations; lia.
Qed.

Lemma DaysInYear_cases (y : Z) : DaysInYear y = 365 \/ DaysInYear y = 366.
Proof.
  unfold DaysInYear.
  destruct (y mod 4 =? 0), (y mod 100 =? 0), (y mod 400 =? 0); cbn; auto.
Qed.

Lemma DaysInYear_leap (y : Z) : DaysInYear y = 365 + LeapOfYear y.
Proof.
  unfold LeapOfYear.
  destruct (DaysInYear_cases y) as [E | E]; rewrite E; reflexivity.
Qed.

Lemma LeapOfYear_cases (y : Z) : LeapOfYear y = 0 \/ LeapOfYear y = 1.
Proof. unfold LeapOfYear. destruct (DaysInYear y =? 366); auto. Qed.

Lemma YearFromDay_spec (d : Z) :
  DayFromYear (YearFromDay d) <= d < DayFromYear (YearFromDay d + 1).
Proof.
  unfold YearFromDay.
  set (y0 := 1970 + 400 * d / 146097).
  assert (Hlo : DayFromYear (y0 - 1) <= d).
  { unfold DayFromYear, y0. Z.div_mod_to_equations. lia. }
  assert (Hhi : d < DayFromYear (y0 + 1 + 1)).
  { unfold DayFromYear, y0. Z.div_mod_to_equations. lia. }
  destruct (Z.ltb_spec d (DayFromYear y0)).
  - replace (y0 - 1 + 1) with y0 by lia. lia.
  - destruct (Z.leb_spec (DayFromYear (y0 + 1)) d); lia.
Qed.

Lemma DayFromYear_lt (y y' : Z) : y < y' -> DayFromYear y < DayFromYear y'.
Proof.
  intros H. unfold DayFromYear. Z.div_mod_to_equations. lia.
Qed.

Lemma DayFromYear_le (y y' : Z) : y <= y' -> DayFromYear y <= DayFromYear y'.
Proof.
  intros H. destruct (Z.eq_dec y y') as [-> | N]; [lia |].
  apply Z.lt_le_incl, DayFromYear_lt. lia.
Qed.

(** The year of a day is determined by the bracket it lies in. *)
Lemma YearFromDay_unique (y d : Z) :
  DayFromYear y <= d < DayFromYear (y + 1) -> YearFromDay d = y.
Proof.
  intros H. pose proof (YearFromDay_spec d) as S.
  destruct (Z.lt_trichotomy (YearFromDay d) y) as [L | [E | G]]; [| exact E |].
  - pose proof (DayFromYear_le (YearFromDay d + 1) y ltac:(lia)). lia.
  - pose proof (DayFromYear_le (y + 1) (YearFromDay d) ltac:(lia)). lia.
Qed.

Lemma Day_MakeDate (day time : Z) :
  0 <= time < msPerDay -> Day (MakeDate day time) = day.
Proof.
  intros H. unfold Day, MakeDate, msPerDay in *.
  Z.div_mod_to_equations. lia.
Qed.

Lemma TimeWithinDay_MakeDate (day time : Z) :
  0 <= time < msPerDay -> TimeWithinDay (MakeDate day time) = time.
Proof.
  intros H. unfold TimeWithinDay, MakeDate, msPerDay in *.
  Z.div_mod_to_equations. lia.
Qed.

Lemma TimeWithinDay_range (t : Z) : 0 <= TimeWithinDay t < msPerDay.
Proof. unfold TimeWithinDay, msPerDay. apply Z.mod_pos_bound. lia. Qed.

Lemma MakeDate_Day (t : Z) : MakeDate (Day t) (TimeWithinDay t) = t.
Proof.
  unfold MakeDate, Day, TimeWithinDay, msPerDay.
  Z.div_mod_to_equations. lia.
Qed.

Lemma DayWithinYear_range (t : Z) :
  0 <= DayWithinYear t < 365 + InLeapYear t.
Proof.
  unfold DayWithinYear, InLeapYear, YearFromTime.
  pose proof (YearFromDay_spec (Day t)) as S.
  rewrite DayFromYear_succ, DaysInYear_leap in S. lia.
Qed.

(** Evaluate [FirstDayOfMonth] at literal months, leaving the leap day
    symbolic. *)
Ltac fdm_norm :=
  repeat match goal with
         | |- context [FirstDayOfMonth (?a + 1) _] =>
             let v := eval vm_compute in (a + 1) in change (a + 1) with v
         | H : context [FirstDayOfMonth (?a + 1) _] |- _ =>
             let v := eval vm_compute in (a + 1) in
             change (a + 1) with v in H
         end;
  unfold FirstDayOfMonth in *.

Lemma MonthFromTime_range (t : Z) : 0 <= MonthFromTime t <= 11.
Proof.
  unfold MonthFromTime. cbv zeta.
  repeat match goal with |- context [if ?b then _ else _] => destruct b end;
    lia.
Qed.

(** A day lies between the first day of its month and the first day of the
    following one. *)
Lemma MonthFromTime_bracket (t : Z) :
  FirstDayOfMonth (MonthFromTime t) (InLeapYear t) <= DayWithinYear t
  < FirstDayOfMonth (MonthFromTime t + 1) (InLeapYear t).
Proof.
  pose proof (DayWithinYear_range t) as R.
  unfold MonthFromTime. cbv zeta.
  generalize dependent (DayWithinYear t).
  generalize dependent (InLeapYear t). intros leap d R.
  repeat match goal with
         | |- context [if ?a <? ?b then _ else _] =>
             destruct (Z.ltb_spec a b)
         end; fdm_norm; lia.
Qed.

Lemma MakeDay_in_range (y m dt : Z) :
  0 <= m <= 11 ->
  MakeDay y m dt = DayFromYear y + FirstDayOfMonth m (LeapOfYear y) + dt - 1.
Proof.
  intros H. unfold MakeDay.
  rewrite Z.div_small, Z.mod_small by lia.
  now rewrite Z.add_0_r.
Qed.

Lemma MakeDay_next_month (y m dt : Z) :
  0 <= m <= 11 ->
  MakeDay y (m + 1) dt =
  DayFromYear y + FirstDayOfMonth (m + 1) (LeapOfYear y) + dt - 1.
Proof.
  intros H. destruct (Z.eq_dec m 11) as [-> | N].
  - unfold MakeDay.
    change ((11 + 1) / 12) with 1. change ((11 + 1) mod 12) with 0.
    change (11 + 1) with 12.
    rewrite DayFromYear_succ, DaysInYear_leap.
    unfold FirstDayOfMonth. lia.
  - apply MakeDay_in_range. lia.
Qed.

Lemma MakeDay_shift (y m dt k : Z) : MakeDay y m (dt + k) = MakeDay y m dt + k.
Proof. unfold MakeDay. lia. Qed.

(** Composing a day from the fields of a time value gives its day back. *)
Lemma MakeDay_fields (t : Z) :
  MakeDay (YearFromTime t) (MonthFromTime t) (DateFromTime t) = Day t.
Proof.
  rewrite MakeDay_in_range by apply MonthFromTime_range.
  unfold DateFromTime, DayWithinYear, InLeapYear. lia.
Qed.

(** The fields of a day given by year, month and offset in the month. *)
Lemma fields_of_day (y m k t : Z) :
  0 <= m <= 11 ->
  0 <= k ->
  FirstDayOfMonth m (LeapOfYear y) + k
  < FirstDayOfMonth (m + 1) (LeapOfYear y) ->
  Day t = DayFromYear y + FirstDayOfMonth m (LeapOfYear y) + k ->
  YearFromTime t = y /\ MonthFromTime t = m /\ DateFromTime t = k + 1.
Proof.
  intros Hm Hk Hlt Hd.
  assert (C : m = 0 \/ m = 1 \/ m = 2 \/ m = 3 \/ m = 4 \/ m = 5 \/ m = 6
              \/ m = 7 \/ m = 8 \/ m = 9 \/ m = 10 \/ m = 11) by lia.
  pose proof (LeapOfYear_cases y) as L.
  assert (Hy : YearFromTime t = y).
  { unfold YearFromTime. apply YearFromDay_unique.
    rewrite DayFromYear_succ, DaysInYear_leap, Hd.
    generalize dependent (LeapOfYear y). generalize (DayFromYear y).
    intros dy leap Hlt L.
    repeat (destruct C as [-> | C]; [fdm_norm; lia |]).
    subst m. fdm_norm. lia. }
  assert (Hw : DayWithinYear t = FirstDayOfMonth m (LeapOfYear y) + k).
  { unfold DayWithinYear. rewrite Hy. lia. }
  assert (Hmo : MonthFromTime t = m).
  { unfold MonthFromTime, InLeapYear. cbv zeta. rewrite Hw, Hy.
    generalize dependent (LeapOfYear y). intros leap Hlt _ L _.
    repeat (destruct C as [-> | C]; [fdm_norm;
      repeat match goal with
             | |- context [if ?a <? ?b then _ else _] =>
                 destruct (Z.ltb_spec a b); try lia
             end |]).
    subst m. fdm_norm.
    repeat match goal with
           | |- context [if ?a <? ?b then _ else _] =>
               destruct (Z.ltb_spec a b); try lia
           end. }
  repeat split; trivial.
  unfold DateFromTime, InLeapYear. rewrite Hmo, Hw, Hy. lia.
Qed.

(** Two time values that agree on year, month and date lie on the same day. *)
Lemma same_fields_same_Day (t t' : Z) :
  YearFromTime t = YearFromTime t' ->
  MonthFromTime t = MonthFromTime t' ->
  DateFromTime t = DateFromTime t' ->
  Day t = Day t'.
Proof.
  intros Hy Hm Hd.
  rewrite <- (MakeDay_fields t), <- (MakeDay_fields t'). congruence.
Qed.

(** Known dates: the epoch was a Thursday; 2000-02-29, 1999-12-31 and
    1969-12-31 exist; months beyond December carry into the year. *)
Example WeekDay_epoch : WeekDay 0 = 4.
Proof. reflexivity. Qed.

Example MakeDate_2024_03_01 : MakeDate (MakeDay 2024 2 1) 0 = 1709251200000.
Proof. reflexivity. Qed.

Example fields_2000_02_29 :
  (YearFromTime 951782400000, MonthFromTime 951782400000,
   DateFromTime 951782400000) = (2000, 1, 29).
Proof. reflexivity. Qed.

Example fields_1999_12_31 :
  (YearFromTime 946684799999, MonthFromTime 946684799999,
   DateFromTime 946684799999) = (1999, 11, 31).
Proof. reflexivity. Qed.

Example fields_before_epoch :
  (YearFromTime (-1), MonthFromTime (-1), DateFromTime (-1), WeekDay (-1))
  = (1969, 11, 31, 3).
Proof. reflexivity. Qed.

Example MakeDay_carries :
  MakeDay 2024 12 1 = MakeDay 2025 0 1
  /\ MakeDay 2024 (-1) 1 = MakeDay 2023 11 1.
Proof. split; reflexivity. Qed.

Lemma WeekDay_range (t : Z) : 0 <= WeekDay t <= 6.
Proof. unfold WeekDay. pose proof (Z.mod_pos_bound (Day t + 4) 7). lia. Qed.

End ESDateFacts.

(** ** Total correctness of loops *)

Module LoopFacts.

Import Loop.

Section TotalCorrectness.

Context {S R : Type}.
Variable body : S -> S + R.
Variable Inv : S -> Prop.
Variable Post : R -> Prop.
Variable measure : S -> Z.

Hypothesis body_ok :
  forall s, Inv s ->
    match body s with
    | inl s' => Inv s' /\ measure s' + 1 <= measure s
    | inr r => Post r
    end.

Lemma do_while_rounds (depth : nat) (s : S) :
  Inv s ->
  match do_while depth body s with
  | inl s' => Inv s' /\ measure s' + 2 ^ Z.of_nat depth <= measure s
  | inr r => Post r
  end.
Proof.
  revert s. induction depth as [| depth IH]; intros s Hs.
  - cbn [do_while]. specialize (body_ok s Hs).
    destruct (body s); [change (2 ^ Z.of_nat 0) with 1 |]; exact body_ok.
  - cbn [do_while]. pose proof (IH s Hs) as H1.
    destruct (do_while depth body s) as [s1 | r]; [| exact H1].
    destruct H1 as [Hs1 Hm1]. pose proof (IH s1 Hs1) as H2.
    destruct (do_while depth body s1) as [s2 | r]; [| exact H2].
    destruct H2 as [Hs2 Hm2]. split; [exact Hs2 |].
    rewrite Nat2Z.inj_succ, Z.pow_succ_r by lia. lia.
Qed.

Hypothesis measure_nonneg : forall s, Inv s -> 0 <= measure s.

(** With enough rounds the loop leaves, in a state that satisfies [Post]. *)
Lemma do_while_total (depth : nat) (s : S) :
  Inv s -> measure s < 2 ^ Z.of_nat depth ->
  exists r, do_while depth body s = inr r /\ Post r.
Proof.
  intros Hs Hm. pose proof (do_while_rounds depth s Hs) as H.
  destruct (do_while depth body s) as [s' | r].
  - destruct H as [Hs' Hm']. specialize (measure_nonneg s' Hs'). lia.
  - now exists r.
Qed.

End TotalCorrectness.

End LoopFacts.

(** ** What the d3-time intervals compute, in terms of local day numbers *)

Module D3TimeFacts.

Import ESDate ESDateFacts D3Time.

(** *** Time values within and beyond the range *)

Lemma TimeClip_inRange (t : Z) : inRange t -> TimeClip t = Finite t.
Proof.
  unfold inRange, TimeClip. intros H.
  destruct (Z.leb_spec (Z.abs t) maxTime); [reflexivity | lia].
Qed.

Lemma TimeClip_cases (t : Z) :
  (inRange t /\ TimeClip t = Finite t) \/ TimeClip t = NaN.
Proof.
  unfold inRange, TimeClip.
  destruct (Z.leb_spec (Z.abs t) maxTime); [left | right; reflexivity].
  split; [lia | reflexivity].
Qed.

Lemma TimeClip_Finite (t r : Z) :
  TimeClip t = Finite r -> r = t /\ inRange t.
Proof.
  destruct (TimeClip_cases t) as [[R E] | E]; rewrite E; intros H.
  - injection H as <-. now split.
  - discriminate.
Qed.

Lemma ofValue_inRange (t : Z) :
  inRange t -> DateObject.ofValue (Finite t) = Finite t.
Proof. apply TimeClip_inRange. Qed.

Section Interval.

Variable I : TimeInterval.

(** The loop of [range] always leaves: every round moves [start] forward,
    and it stays below [stop]. *)
Lemma range_loop_leaves (start stop : Date) (step : Z) (acc : list Date) :
  start < stop ->
  exists range,
    Loop.do_while (Z.to_nat (Z.log2_up (stop - start)))
      (range_body I stop step) (start, acc) = inr range.
Proof.
  intros Hlt.
  destruct (LoopFacts.do_while_total (range_body I stop step)
              (fun st => fst st < stop) (fun _ => True)
              (fun st => stop - fst st - 1)) with
    (depth := Z.to_nat (Z.log2_up (stop - start))) (s := (start, acc))
    as [r [Hr _]].
  - intros [s a] Hs. cbn [range_body fst] in *.
    destruct (floori I (offseti I s step)) as [| s'];
      cbn [JSNum.ltb andb]; [exact Logic.I |].
    destruct (Z.ltb_spec s s'); cbn [andb]; [| exact Logic.I].
    destruct (Z.ltb_spec s' stop); [| exact Logic.I].
    cbn [fst]. lia.
  - intros [s a] Hs. cbn [fst] in *. lia.
  - exact Hlt.
  - cbn [fst]. rewrite Z2Nat.id by apply Z.log2_up_nonneg.
    pose proof (Z.log2_up_spec (stop - start)) as L.
    destruct (Z.eq_dec (stop - start) 1) as [E | N].
    + rewrite E. cbn. lia.
    + specialize (L ltac:(lia)). lia.
  - now exists r.
Qed.

(** Nothing is listed from or up to an Invalid Date. *)
Lemma range_stop_NaN (start : DateValue) : range I start NaN = [].
Proof.
  unfold range, range_step. destruct (ceil I start); reflexivity.
Qed.

End Interval.

Lemma log2_up_bound (n : Z) : 1 <= n -> n - 1 < 2 ^ Z.log2_up n.
Proof.
  intros H. destruct (Z.eq_dec n 1) as [-> | N]; [cbn; lia |].
  pose proof (Z.log2_up_spec n ltac:(lia)). lia.
Qed.

Lemma weekStart_sunday (n : Z) : (weekStart n + 4) mod 7 = 0.
Proof. unfold weekStart. Z.div_mod_to_equations. lia. Qed.

Lemma weekStart_bounds (n : Z) : n - 6 <= weekStart n <= n.
Proof. unfold weekStart. Z.div_mod_to_equations. lia. Qed.

Lemma weekStart_fixed (n : Z) : (n + 4) mod 7 = 0 -> weekStart n = n.
Proof. unfold weekStart. intros ->. lia. Qed.

Lemma weekCeil_sunday (n : Z) : (weekCeil n + 4) mod 7 = 0.
Proof. unfold weekCeil, weekStart. Z.div_mod_to_equations. lia. Qed.

Lemma weekCeil_bounds (n : Z) : n <= weekCeil n <= n + 6.
Proof. unfold weekCeil, weekStart. Z.div_mod_to_equations. lia. Qed.

Lemma Day_shift (t k : Z) : Day (t + k * msPerDay) = Day t + k.
Proof. unfold Day, msPerDay. Z.div_mod_to_equations. lia. Qed.

Lemma TimeWithinDay_shift (t k : Z) :
  TimeWithinDay (t + k * msPerDay) = TimeWithinDay t.
Proof. unfold TimeWithinDay, msPerDay. Z.div_mod_to_equations. lia. Qed.

Lemma Day_bounds (t : Z) : Day t * msPerDay <= t < Day t * msPerDay + msPerDay.
Proof. unfold Day, msPerDay. Z.div_mod_to_equations. lia. Qed.

(** *** The methods and the intervals, spelled out *)

Section Equations.

Context {host : Host}.

Lemma setDate_Finite (d dt : Z) :
  DateObject.setDate (Finite d) (Finite dt) = TimeClip (setDate_time d dt).
Proof. reflexivity. Qed.

Lemma setMonth_Finite (d m : Z) :
  DateObject.setMonth (Finite d) (Finite m) = TimeClip (setMonth_time d m).
Proof. reflexivity. Qed.

Lemma setHours_Finite (d h m s ms : Z) :
  DateObject.setHours (Finite d) h m s ms
  = TimeClip (setHours_time d h m s ms).
Proof. reflexivity. Qed.

Lemma setHours_NaN (h m s ms : Z) : DateObject.setHours NaN h m s ms = NaN.
Proof. reflexivity. Qed.

Lemma floori_timeDay_eq (x : DateValue) :
  floori timeDay x = DateObject.setHours x 0 0 0 0.
Proof. reflexivity. Qed.

Lemma offseti_timeDay_eq (x : DateValue) (k : Z) :
  offseti timeDay x k
  = DateObject.setDate x (DateObject.getDate x + k)%num.
Proof. reflexivity. Qed.

Lemma floori_timeWeek_eq (x : DateValue) :
  floori timeWeek x
  = DateObject.setHours
      (DateObject.setDate x
         (DateObject.getDate x
          - JSNum.rem (DateObject.getDay x + 7 - 0) 7)%num) 0 0 0 0.
Proof. reflexivity. Qed.

Lemma offseti_timeWeek_eq (x : DateValue) (k : Z) :
  offseti timeWeek x k
  = DateObject.setDate x (DateObject.getDate x + k * 7)%num.
Proof. reflexivity. Qed.

Lemma floori_timeMonth_eq (x : DateValue) :
  floori timeMonth x
  = DateObject.setHours (DateObject.setDate x 1) 0 0 0 0.
Proof. reflexivity. Qed.

Lemma offseti_timeMonth_eq (x : DateValue) (step : Z) :
  offseti timeMonth x step
  = DateObject.setMonth x (DateObject.getMonth x + step)%num.
Proof. reflexivity. Qed.

Lemma floor_eq (I : TimeInterval) (x : DateValue) :
  floor I x = floori I (DateObject.ofValue x).
Proof. reflexivity. Qed.

Lemma offset_eq (I : TimeInterval) (x : DateValue) (step : Z) :
  offset I x step = offseti I (DateObject.ofValue x) step.
Proof. reflexivity. Qed.

Lemma ceil_eq (I : TimeInterval) (x : DateValue) :
  ceil I x
  = floori I (offseti I (floori I (DateObject.ofValue (x - 1)%num)) 1).
Proof. reflexivity. Qed.

Lemma count_eq (I : TimeInterval) (a b : DateValue) :
  count I a b
  = counti I (floori I (DateObject.ofValue a))
      (floori I (DateObject.ofValue b)).
Proof. reflexivity. Qed.

Lemma ofValue_Finite (t : Z) : DateObject.ofValue (Finite t) = TimeClip t.
Proof. reflexivity. Qed.

Lemma ofValue_NaN : DateObject.ofValue NaN = NaN.
Proof. reflexivity. Qed.

(** Every method and every interval keeps an Invalid Date invalid. *)
Lemma floori_NaN :
  floori timeDay NaN = NaN /\ floori timeWeek NaN = NaN
  /\ floori timeMonth NaN = NaN.
Proof. repeat split. Qed.

Lemma offseti_NaN (k : Z) :
  offseti timeDay NaN k = NaN /\ offseti timeWeek NaN k = NaN
  /\ offseti timeMonth NaN k = NaN.
Proof. repeat split. Qed.

End Equations.

(** *** Zones with one offset *)

Section LocalZoneFacts.

Context {tz : TimeZone}.

Lemma LocalTime_eq (t : Z) : LocalTime t = t + LocalTZA.
Proof. reflexivity. Qed.

Lemma UTC_eq (t : Z) : UTC t = t - LocalTZA.
Proof. reflexivity. Qed.

Lemma LocalTime_UTC (t : Z) : LocalTime (UTC t) = t.
Proof. rewrite LocalTime_eq, UTC_eq. lia. Qed.

Lemma UTC_LocalTime (t : Z) : UTC (LocalTime t) = t.
Proof. rewrite LocalTime_eq, UTC_eq. lia. Qed.

Lemma localMidnight_eq (n : Z) : localMidnight n = n * msPerDay - LocalTZA.
Proof. unfold localMidnight, MakeDate. rewrite UTC_eq. lia. Qed.

Lemma localDay_localMidnight (n : Z) : Day (LocalTime (localMidnight n)) = n.
Proof.
  unfold localMidnight. rewrite LocalTime_UTC.
  apply Day_MakeDate. unfold msPerDay. lia.
Qed.

Lemma localMidnight_shift (n k : Z) :
  localMidnight n + k * msPerDay = localMidnight (n + k).
Proof. rewrite !localMidnight_eq. lia. Qed.

Lemma localMidnight_lt (a b : Z) :
  localMidnight a < localMidnight b <-> a < b.
Proof. rewrite !localMidnight_eq. unfold msPerDay. lia. Qed.

Lemma localMidnight_le (a b : Z) :
  localMidnight a <= localMidnight b <-> a <= b.
Proof. rewrite !localMidnight_eq. unfold msPerDay. lia. Qed.

Lemma localMidnight_pred (n : Z) :
  Day (LocalTime (localMidnight n - 1)) = n - 1.
Proof.
  rewrite LocalTime_eq, localMidnight_eq. unfold Day, msPerDay.
  Z.div_mod_to_equations. lia.
Qed.

(** The local midnight of the day of [d] is at most a day before [d]. *)
Lemma localMidnight_Day (d : Date) :
  localMidnight (Day (LocalTime d)) <= d
  < localMidnight (Day (LocalTime d)) + msPerDay.
Proof.
  rewrite localMidnight_eq. pose proof (Day_bounds (LocalTime d)) as B.
  rewrite LocalTime_eq in B. revert B. rewrite LocalTime_eq.
  generalize (Day (d + LocalTZA)). intros n B. lia.
Qed.

Lemma getDay_localMidnight (n : Z) : getDay (localMidnight n) = (n + 4) mod 7.
Proof. unfold getDay, WeekDay. now rewrite localDay_localMidnight. Qed.

Lemma setHours_zero (d : Date) :
  setHours_time d 0 0 0 0 = localMidnight (Day (LocalTime d)).
Proof. reflexivity. Qed.

Lemma setDate_shift (d : Date) (k : Z) :
  setDate_time d (getDate d + k) = d + k * msPerDay.
Proof.
  unfold setDate_time, getDate. rewrite MakeDay_shift, MakeDay_fields.
  unfold MakeDate. rewrite Z.mul_add_distr_r, <- Z.add_assoc.
  rewrite (Z.add_comm (k * msPerDay)), Z.add_assoc.
  fold (MakeDate (Day (LocalTime d)) (TimeWithinDay (LocalTime d))).
  rewrite MakeDate_Day. rewrite UTC_eq, LocalTime_eq. lia.
Qed.

(** *** The intervals, on a valid date *)

Lemma floori_timeDay (d : Date) :
  floori timeDay (Finite d) = TimeClip (localMidnight (Day (LocalTime d))).
Proof.
  rewrite floori_timeDay_eq, setHours_Finite. now rewrite setHours_zero.
Qed.

Lemma getDate_plus (d : Date) (k : Z) :
  (DateObject.getDate (Finite d) + k)%num = Finite (getDate d + k).
Proof. reflexivity. Qed.

Lemma offseti_timeDay (d : Date) (k : Z) :
  offseti timeDay (Finite d) k = TimeClip (d + k * msPerDay).
Proof.
  rewrite offseti_timeDay_eq, getDate_plus, setDate_Finite.
  now rewrite setDate_shift.
Qed.

(** The day of the week of [d], counted from Sunday. *)
Lemma getDay_rem (d : Date) :
  Z.rem (getDay d + 7 - 0) 7 = (Day (LocalTime d) + 4) mod 7.
Proof.
  unfold getDay, WeekDay.
  pose proof (Z.mod_pos_bound (Day (LocalTime d) + 4) 7 ltac:(lia)) as B.
  rewrite Z.rem_mod_nonneg by lia.
  revert B. generalize ((Day (LocalTime d) + 4) mod 7). intros w B.
  Z.div_mod_to_equations. lia.
Qed.

Lemma floori_timeWeek (d : Date) :
  floori timeWeek (Finite d)
  = floori timeDay
      (TimeClip (d - (Day (LocalTime d) + 4) mod 7 * msPerDay)).
Proof.
  rewrite floori_timeWeek_eq, floori_timeDay_eq.
  replace (DateObject.getDate (Finite d)
           - JSNum.rem (DateObject.getDay (Finite d) + 7 - 0) 7)%num
    with (Finite (getDate d + - ((Day (LocalTime d) + 4) mod 7))).
  - rewrite setDate_Finite, setDate_shift. do 2 f_equal. lia.
  - cbn [DateObject.getDate DateObject.getDay JSNum.add JSNum.sub JSNum.rem].
    rewrite getDay_rem. f_equal; lia.
Qed.

(** The Sunday of the week of [d], when the step back to it stays within
    the range. *)
Lemma floori_timeWeek_inRange (d : Date) :
  inRange (d - (Day (LocalTime d) + 4) mod 7 * msPerDay) ->
  floori timeWeek (Finite d)
  = TimeClip (localMidnight (weekStart (Day (LocalTime d)))).
Proof.
  intros R. rewrite floori_timeWeek, (TimeClip_inRange _ R), floori_timeDay.
  f_equal. f_equal. rewrite LocalTime_eq.
  replace (d - (Day (LocalTime d) + 4) mod 7 * msPerDay + LocalTZA)
    with (LocalTime d + - ((Day (LocalTime d) + 4) mod 7) * msPerDay)
    by (rewrite LocalTime_eq; lia).
  rewrite Day_shift. unfold weekStart. lia.
Qed.

Lemma offseti_timeWeek (d : Date) (k : Z) :
  offseti timeWeek (Finite d) k = TimeClip (d + (k * 7) * msPerDay).
Proof.
  rewrite offseti_timeWeek_eq.
  change (DateObject.getDate (Finite d) + k * 7)%num
    with (Finite (getDate d + k * 7)).
  rewrite setDate_Finite. now rewrite setDate_shift.
Qed.

Lemma floori_timeMonth (d : Date) :
  floori timeMonth (Finite d) = floori timeDay (TimeClip (setDate_time d 1)).
Proof.
  rewrite floori_timeMonth_eq, floori_timeDay_eq.
  change (DateObject.setDate (Finite d) 1)
    with (DateObject.setDate (Finite d) (Finite 1)).
  now rewrite setDate_Finite.
Qed.

Lemma setDate_first (d : Date) :
  Day (LocalTime (setDate_time d 1)) = MakeDay (getFullYear d) (getMonth d) 1.
Proof.
  unfold setDate_time. rewrite LocalTime_UTC.
  apply Day_MakeDate, TimeWithinDay_range.
Qed.

Lemma floori_timeMonth_inRange (d : Date) :
  inRange (setDate_time d 1) ->
  floori timeMonth (Finite d)
  = TimeClip (localMidnight (MakeDay (getFullYear d) (getMonth d) 1)).
Proof.
  intros R. rewrite floori_timeMonth, (TimeClip_inRange _ R), floori_timeDay.
  now rewrite setDate_first.
Qed.

Lemma offseti_timeMonth (d : Date) (step : Z) :
  offseti timeMonth (Finite d) step
  = TimeClip (setMonth_time d (getMonth d + step)).
Proof.
  rewrite offseti_timeMonth_eq.
  change (DateObject.getMonth (Finite d) + step)%num
    with (Finite (getMonth d + step)).
  now rewrite setMonth_Finite.
Qed.

Lemma FirstDayOfMonth_lt (m leap : Z) :
  0 <= m <= 11 -> 0 <= leap ->
  FirstDayOfMonth m leap + 28 <= FirstDayOfMonth (m + 1) leap.
Proof.
  intros Hm Hl.
  assert (C : m = 0 \/ m = 1 \/ m = 2 \/ m = 3 \/ m = 4 \/ m = 5 \/ m = 6
              \/ m = 7 \/ m = 8 \/ m = 9 \/ m = 10 \/ m = 11) by lia.
  repeat (destruct C as [-> | C]; [fdm_norm; lia |]).
  subst m. fdm_norm. lia.
Qed.

(** The first of month [m] of year [y] has these very fields. *)
Lemma fields_of_first (y m : Z) :
  0 <= m <= 11 ->
  let d := localMidnight (MakeDay y m 1) in
  getFullYear d = y /\ getMonth d = m /\ getDate d = 1.
Proof.
  intros Hm d. unfold getFullYear, getMonth, getDate.
  pose proof (LeapOfYear_cases y) as L.
  pose proof (FirstDayOfMonth_lt m (LeapOfYear y) Hm ltac:(lia)) as Hlt.
  apply (fields_of_day y m 0); [exact Hm | lia | lia |].
  subst d. rewrite localDay_localMidnight, MakeDay_in_range by exact Hm. lia.
Qed.

Lemma setMonth_time_eq (d : Date) (month : Z) :
  setMonth_time d month
  = UTC (MakeDate (MakeDay (getFullYear d) month (getDate d))
                  (TimeWithinDay (LocalTime d))).
Proof. reflexivity. Qed.

Lemma setMonth_first (y m : Z) :
  0 <= m <= 11 ->
  setMonth_time (localMidnight (MakeDay y m 1)) (m + 1)
  = localMidnight (MakeDay y (m + 1) 1).
Proof.
  intros Hm. destruct (fields_of_first y m Hm) as [Hy [Hmo Hd]].
  rewrite setMonth_time_eq, Hy, Hd.
  unfold localMidnight at 1. rewrite LocalTime_UTC.
  rewrite TimeWithinDay_MakeDate by (unfold msPerDay; lia). reflexivity.
Qed.

Lemma offseti_timeMonth_first (y m : Z) :
  0 <= m <= 11 ->
  offseti timeMonth (Finite (localMidnight (MakeDay y m 1))) 1
  = TimeClip (localMidnight (MakeDay y (m + 1) 1)).
Proof.
  intros Hm. destruct (fields_of_first y m Hm) as [_ [Hmo _]].
  rewrite offseti_timeMonth, Hmo. now rewrite setMonth_first.
Qed.

Lemma sub_Finite (a b : Z) : (Finite a - Finite b)%num = Finite (a - b).
Proof. reflexivity. Qed.

(** After the step back to Sunday the local day is the Sunday. *)
Lemma weekStart_Day (d : Date) :
  Day (LocalTime (d - (Day (LocalTime d) + 4) mod 7 * msPerDay))
  = weekStart (Day (LocalTime d)).
Proof.
  rewrite LocalTime_eq.
  replace (d - (Day (LocalTime d) + 4) mod 7 * msPerDay + LocalTZA)
    with (LocalTime d + - ((Day (LocalTime d) + 4) mod 7) * msPerDay)
    by (rewrite LocalTime_eq; lia).
  rewrite Day_shift. unfold weekStart. lia.
Qed.

(** From a local midnight the step back to Sunday is to a local midnight. *)
Lemma weekStart_localMidnight (n : Z) :
  localMidnight n - (Day (LocalTime (localMidnight n)) + 4) mod 7 * msPerDay
  = localMidnight (weekStart n).
Proof.
  rewrite localDay_localMidnight, !localMidnight_eq. unfold weekStart. lia.
Qed.

Lemma floor_timeDay_valid (d : Date) :
  inRange d ->
  inRange (localMidnight (Day (LocalTime d))) ->
  floor timeDay (Finite d) = Finite (localMidnight (Day (LocalTime d))).
Proof.
  intros Rd R. rewrite floor_eq, ofValue_Finite, (TimeClip_inRange _ Rd).
  now rewrite floori_timeDay, (TimeClip_inRange _ R).
Qed.

(** [floor] and [ceil] of the day interval fix a local midnight. *)
Lemma floori_timeDay_localMidnight (n : Z) :
  floori timeDay (Finite (localMidnight n)) = TimeClip (localMidnight n).
Proof. now rewrite floori_timeDay, localDay_localMidnight. Qed.

Lemma ceil_timeDay_localMidnight (n : Z) :
  inRange (localMidnight (n - 1)) ->
  inRange (localMidnight n) ->
  ceil timeDay (Finite (localMidnight n)) = Finite (localMidnight n).
Proof.
  intros R1 R.
  assert (R0 : inRange (localMidnight n - 1)).
  { unfold inRange in *. rewrite localMidnight_eq in *.
    unfold msPerDay in *. lia. }
  rewrite ceil_eq.
  change (Finite (localMidnight n) - 1)%num
    with (Finite (localMidnight n) - Finite 1)%num.
  rewrite sub_Finite, ofValue_Finite, (TimeClip_inRange _ R0).
  rewrite floori_timeDay, localMidnight_pred, (TimeClip_inRange _ R1).
  rewrite offseti_timeDay, localMidnight_shift.
  replace (n - 1 + 1) with n by lia.
  rewrite (TimeClip_inRange _ R), floori_timeDay_localMidnight.
  exact (TimeClip_inRange _ R).
Qed.

Lemma ceil_timeDay_cases (n : Z) :
  ceil timeDay (Finite (localMidnight n)) = NaN
  \/ ceil timeDay (Finite (localMidnight n)) = Finite (localMidnight n).
Proof.
  rewrite ceil_eq.
  change (Finite (localMidnight n) - 1)%num
    with (Finite (localMidnight n) - Finite 1)%num.
  rewrite sub_Finite, ofValue_Finite.
  destruct (TimeClip_cases (localMidnight n - 1)) as [[R0 E] | E]; rewrite E;
    [| left; reflexivity].
  rewrite floori_timeDay, localMidnight_pred.
  destruct (TimeClip_cases (localMidnight (n - 1))) as [[R1 E1] | E1];
    rewrite E1; [| left; reflexivity].
  rewrite offseti_timeDay, localMidnight_shift.
  replace (n - 1 + 1) with n by lia.
  destruct (TimeClip_cases (localMidnight n)) as [[R E2] | E2];
    rewrite E2; [| left; reflexivity].
  rewrite floori_timeDay_localMidnight, E2. now right.
Qed.

(** [floor] of the week interval. *)
Lemma floor_timeWeek_valid (d : Date) :
  inRange d ->
  inRange (d - (Day (LocalTime d) + 4) mod 7 * msPerDay) ->
  inRange (localMidnight (weekStart (Day (LocalTime d)))) ->
  floor timeWeek (Finite d)
  = Finite (localMidnight (weekStart (Day (LocalTime d)))).
Proof.
  intros Rd R1 R. rewrite floor_eq, ofValue_Finite, (TimeClip_inRange _ Rd).
  rewrite floori_timeWeek, (TimeClip_inRange _ R1), floori_timeDay.
  now rewrite weekStart_Day, (TimeClip_inRange _ R).
Qed.

Lemma floor_timeWeek_cases (d : Date) :
  floor timeWeek (Finite d) = NaN
  \/ (inRange (localMidnight (weekStart (Day (LocalTime d))))
      /\ floor timeWeek (Finite d)
         = Finite (localMidnight (weekStart (Day (LocalTime d))))).
Proof.
  rewrite floor_eq, ofValue_Finite.
  destruct (TimeClip_cases d) as [[Rd E] | E]; rewrite E;
    [| left; reflexivity].
  rewrite floori_timeWeek.
  destruct (TimeClip_cases (d - (Day (LocalTime d) + 4) mod 7 * msPerDay))
    as [[R1 E1] | E1]; rewrite E1; [| left; reflexivity].
  rewrite floori_timeDay, weekStart_Day.
  destruct (TimeClip_cases (localMidnight (weekStart (Day (LocalTime d)))))
    as [[R E2] | E2]; rewrite E2; [right; now split | now left].
Qed.

Lemma floori_timeWeek_localMidnight (n : Z) :
  (n + 4) mod 7 = 0 ->
  floori timeWeek (Finite (localMidnight n)) = TimeClip (localMidnight n).
Proof.
  intros Hs. rewrite floori_timeWeek, weekStart_localMidnight.
  rewrite (weekStart_fixed n Hs).
  destruct (TimeClip_cases (localMidnight n)) as [[R E] | E]; rewrite E;
    [| reflexivity].
  now rewrite floori_timeDay_localMidnight.
Qed.

Lemma offseti_timeWeek_localMidnight (n k : Z) :
  offseti timeWeek (Finite (localMidnight n)) k
  = TimeClip (localMidnight (n + k * 7)).
Proof. now rewrite offseti_timeWeek, localMidnight_shift. Qed.

(** [ceil] of the week interval, at a local midnight. *)
Lemma ceil_timeWeek_steps (n : Z) :
  ceil timeWeek (Finite (localMidnight n))
  = match TimeClip (localMidnight n - 1) with
    | Finite _ =>
        match TimeClip (localMidnight (weekStart (n - 1)) + (msPerDay - 1))
        with
        | Finite _ =>
            match TimeClip (localMidnight (weekStart (n - 1))) with
            | Finite _ => TimeClip (localMidnight (weekCeil n))
            | NaN => NaN
            end
        | NaN => NaN
        end
    | NaN => NaN
    end.
Proof.
  rewrite ceil_eq.
  change (Finite (localMidnight n) - 1)%num
    with (Finite (localMidnight n) - Finite 1)%num.
  rewrite sub_Finite, ofValue_Finite.
  destruct (TimeClip_cases (localMidnight n - 1)) as [[R0 E] | E]; rewrite E;
    [| reflexivity].
  rewrite floori_timeWeek, localMidnight_pred.
  replace (localMidnight n - 1 - (n - 1 + 4) mod 7 * msPerDay)
    with (localMidnight (weekStart (n - 1)) + (msPerDay - 1))
    by (rewrite !localMidnight_eq; unfold weekStart; lia).
  destruct (TimeClip_cases
              (localMidnight (weekStart (n - 1)) + (msPerDay - 1)))
    as [[R1 E1] | E1]; rewrite E1; [| reflexivity].
  rewrite floori_timeDay.
  replace (Day (LocalTime (localMidnight (weekStart (n - 1))
                           + (msPerDay - 1))))
    with (weekStart (n - 1)).
  2:{ rewrite LocalTime_eq, localMidnight_eq. unfold Day, msPerDay.
      generalize (weekStart (n - 1)). intros w.
      Z.div_mod_to_equations. lia. }
  destruct (TimeClip_cases (localMidnight (weekStart (n - 1))))
    as [[R2 E2] | E2]; rewrite E2; [| reflexivity].
  rewrite offseti_timeWeek_localMidnight.
  replace (weekStart (n - 1) + 1 * 7) with (weekCeil n)
    by (unfold weekCeil; lia).
  destruct (TimeClip_cases (localMidnight (weekCeil n)))
    as [[R3 E3] | E3]; rewrite E3; [| reflexivity].
  rewrite floori_timeWeek_localMidnight by apply weekCeil_sunday.
  exact E3.
Qed.

Lemma ceil_timeWeek_localMidnight (n : Z) :
  inRange (localMidnight (weekStart (n - 1))) ->
  inRange (localMidnight (weekCeil n)) ->
  ceil timeWeek (Finite (localMidnight n))
  = Finite (localMidnight (weekCeil n)).
Proof.
  intros R1 R2. rewrite ceil_timeWeek_steps.
  pose proof (weekStart_bounds (n - 1)) as B.
  pose proof (weekCeil_bounds n) as C.
  assert (Ra : inRange (localMidnight n - 1)).
  { unfold inRange in *. rewrite !localMidnight_eq in *.
    unfold msPerDay in *. lia. }
  assert (Rb : inRange (localMidnight (weekStart (n - 1))
                        + (msPerDay - 1))).
  { unfold inRange in *. rewrite !localMidnight_eq in *.
    unfold msPerDay in *. lia. }
  now rewrite (TimeClip_inRange _ Ra), (TimeClip_inRange _ Rb),
    (TimeClip_inRange _ R1), (TimeClip_inRange _ R2).
Qed.

Lemma ceil_timeWeek_cases (n : Z) :
  ceil timeWeek (Finite (localMidnight n)) = NaN
  \/ (inRange (localMidnight (weekCeil n))
      /\ ceil timeWeek (Finite (localMidnight n))
         = Finite (localMidnight (weekCeil n))).
Proof.
  rewrite ceil_timeWeek_steps.
  destruct (TimeClip (localMidnight n - 1)); [now left |].
  destruct (TimeClip (localMidnight (weekStart (n - 1)) + (msPerDay - 1)));
    [now left |].
  destruct (TimeClip (localMidnight (weekStart (n - 1)))); [now left |].
  destruct (TimeClip_cases (localMidnight (weekCeil n)))
    as [[R E] | E]; rewrite E; [right; now split | now left].
Qed.

(** [floor] and [offset] of the month interval. *)
Lemma floor_timeMonth_valid (d : Date) :
  inRange d ->
  inRange (setDate_time d 1) ->
  inRange (localMidnight (MakeDay (getFullYear d) (getMonth d) 1)) ->
  floor timeMonth (Finite d)
  = Finite (localMidnight (MakeDay (getFullYear d) (getMonth d) 1)).
Proof.
  intros Rd R1 R. rewrite floor_eq, ofValue_Finite, (TimeClip_inRange _ Rd).
  now rewrite (floori_timeMonth_inRange d R1), (TimeClip_inRange _ R).
Qed.

Lemma floor_timeMonth_cases (d : Date) :
  floor timeMonth (Finite d) = NaN
  \/ (inRange (localMidnight (MakeDay (getFullYear d) (getMonth d) 1))
      /\ floor timeMonth (Finite d)
         = Finite (localMidnight (MakeDay (getFullYear d) (getMonth d) 1))).
Proof.
  rewrite floor_eq, ofValue_Finite.
  destruct (TimeClip_cases d) as [[Rd E] | E]; rewrite E;
    [| left; reflexivity].
  rewrite floori_timeMonth.
  destruct (TimeClip_cases (setDate_time d 1)) as [[R1 E1] | E1];
    rewrite E1; [| left; reflexivity].
  rewrite floori_timeDay, setDate_first.
  destruct (TimeClip_cases
              (localMidnight (MakeDay (getFullYear d) (getMonth d) 1)))
    as [[R E2] | E2]; rewrite E2; [right; now split | now left].
Qed.

Lemma offset_timeMonth_first (y m : Z) :
  0 <= m <= 11 ->
  inRange (localMidnight (MakeDay y m 1)) ->
  offset timeMonth (Finite (localMidnight (MakeDay y m 1))) 1
  = TimeClip (localMidnight (MakeDay y (m + 1) 1)).
Proof.
  intros Hm R. rewrite offset_eq, ofValue_Finite, (TimeClip_inRange _ R).
  now apply offseti_timeMonth_first.
Qed.

Lemma offset_timeWeek_localMidnight (n k : Z) :
  inRange (localMidnight n) ->
  offset timeWeek (Finite (localMidnight n)) k
  = TimeClip (localMidnight (n + k * 7)).
Proof.
  intros R. rewrite offset_eq, ofValue_Finite, (TimeClip_inRange _ R).
  apply offseti_timeWeek_localMidnight.
Qed.

(** [count] of the day interval is the difference of the local day
    numbers, when the local midnights of both days are within the range. *)
Lemma count_timeDay (start end_ : Date) :
  inRange start -> inRange end_ ->
  inRange (localMidnight (Day (LocalTime start))) ->
  inRange (localMidnight (Day (LocalTime end_))) ->
  count timeDay (Finite start) (Finite end_)
  = Finite (Day (LocalTime end_) - Day (LocalTime start)).
Proof.
  intros Rs Re Ra Rb. rewrite count_eq, !ofValue_Finite.
  rewrite (TimeClip_inRange _ Rs), (TimeClip_inRange _ Re), !floori_timeDay.
  rewrite (TimeClip_inRange _ Ra), (TimeClip_inRange _ Rb).
  generalize (Day (LocalTime end_)) (Day (LocalTime start)). intros a b.
  cbn [counti timeDay DateObject.getTimezoneOffset JSNum.sub JSNum.mul
       JSNum.floorDiv].
  f_equal. unfold getTimezoneOffset.
  rewrite !LocalTime_eq, !localMidnight_eq.
  unfold durationMinute, durationDay, msPerMinute, msPerDay.
  Z.div_mod_to_equations. lia.
Qed.

(** When either local midnight is beyond the range, [count] is NaN. *)
Lemma count_timeDay_cases (start end_ : Date) :
  count timeDay (Finite start) (Finite end_) = NaN
  \/ count timeDay (Finite start) (Finite end_)
     = Finite (Day (LocalTime end_) - Day (LocalTime start)).
Proof.
  rewrite count_eq, !ofValue_Finite.
  destruct (TimeClip_cases start) as [[Rs E] | E]; rewrite E.
  2:{ left. destruct (floori timeDay (TimeClip end_)); reflexivity. }
  destruct (TimeClip_cases end_) as [[Re E1] | E1]; rewrite E1.
  2:{ left. destruct (floori timeDay (Finite start)); reflexivity. }
  destruct (TimeClip_cases (localMidnight (Day (LocalTime start))))
    as [[Ra E2] | E2].
  2:{ left. rewrite !floori_timeDay, E2.
      destruct (TimeClip (localMidnight (Day (LocalTime end_))));
        reflexivity. }
  destruct (TimeClip_cases (localMidnight (Day (LocalTime end_))))
    as [[Rb E3] | E3].
  2:{ left. rewrite !floori_timeDay, E3.
      destruct (TimeClip (localMidnight (Day (LocalTime start))));
        reflexivity. }
  right. rewrite <- E, <- E1, <- !ofValue_Finite, <- count_eq.
  now apply count_timeDay.
Qed.

Lemma midnights_snoc (a : Z) (n : nat) :
  midnights a (S n) = midnights a n ++ [localMidnight (a + Z.of_nat n)].
Proof. unfold midnights. now rewrite seq_S, map_app. Qed.

(** [timeDay.range] between two local midnights lists every day from the
    first, inclusive, to the second, exclusive, once [ceil] has found the
    first. *)
Lemma range_timeDay_from (a b : Z) :
  inRange (localMidnight a) ->
  inRange (localMidnight b) ->
  ceil timeDay (Finite (localMidnight a)) = Finite (localMidnight a) ->
  range timeDay (Finite (localMidnight a)) (Finite (localMidnight b))
  = midnights a (Z.to_nat (b - a)).
Proof.
  intros Ra Rb Hceil. unfold range, range_step. rewrite Hceil.
  change (0 <? 1) with true. cbn [negb orb JSNum.ltb].
  rewrite Bool.orb_false_r.
  destruct (Z.ltb_spec (localMidnight a) (localMidnight b)) as [Hlt | Hge];
    cbn [negb].
  2:{ rewrite localMidnight_le in Hge.
      replace (Z.to_nat (b - a)) with O by lia. reflexivity. }
  pose proof Hlt as Hab. rewrite localMidnight_lt in Hab.
  destruct (LoopFacts.do_while_total
    (range_body timeDay (Finite (localMidnight b)) 1)
    (fun st => exists k : nat,
       a + Z.of_nat k < b /\ fst st = localMidnight (a + Z.of_nat k)
       /\ snd st = midnights a k)
    (fun r => r = midnights a (Z.to_nat (b - a)))
    (fun st => localMidnight b - fst st - 1))
    with (depth := Z.to_nat (Z.log2_up (localMidnight b - localMidnight a)))
         (s := (localMidnight a, @nil Date)) as [r [Hr Hpost]].
  - intros [s acc] [k [Hk [Hs Hacc]]]. cbn [fst snd] in Hs, Hacc. subst s acc.
    cbn [range_body fst snd]. rewrite offseti_timeDay, localMidnight_shift.
    assert (R : inRange (localMidnight (a + Z.of_nat k + 1))).
    { unfold inRange in *. rewrite !localMidnight_eq in *.
      unfold msPerDay in *. lia. }
    rewrite (TimeClip_inRange _ R), floori_timeDay_localMidnight.
    rewrite (TimeClip_inRange _ R). cbn [JSNum.ltb].
    destruct (Z.ltb_spec (localMidnight (a + Z.of_nat k))
                (localMidnight (a + Z.of_nat k + 1))) as [_ | Hbad];
      [| rewrite localMidnight_le in Hbad; lia ].
    cbn [andb].
    destruct (Z.ltb_spec (localMidnight (a + Z.of_nat k + 1))
                (localMidnight b)) as [Hc | Hc];
      [rewrite localMidnight_lt in Hc | rewrite localMidnight_le in Hc].
    + split.
      * exists (S k). rewrite Nat2Z.inj_succ. cbn [fst snd].
        repeat split; [lia | f_equal; lia |].
        now rewrite midnights_snoc.
      * cbn [fst]. rewrite !localMidnight_eq. unfold msPerDay. lia.
    + replace (Z.to_nat (b - a)) with (S k) by lia.
      now rewrite midnights_snoc.
  - intros [s acc] [k [Hk [Hs _]]]. cbn [fst] in *. subst s.
    rewrite <- localMidnight_lt in Hk. lia.
  - exists O. cbn [fst snd Z.of_nat]. rewrite Z.add_0_r.
    repeat split; trivial.
  - cbn [fst]. rewrite Z2Nat.id by apply Z.log2_up_nonneg.
    apply log2_up_bound. lia.
  - unfold Date in *. now rewrite Hr.
Qed.

Lemma range_timeDay_localMidnight (a b : Z) :
  inRange (localMidnight (a - 1)) ->
  inRange (localMidnight a) ->
  inRange (localMidnight b) ->
  range timeDay (Finite (localMidnight a)) (Finite (localMidnight b))
  = midnights a (Z.to_nat (b - a)).
Proof.
  intros R1 Ra Rb. apply range_timeDay_from; trivial.
  now apply ceil_timeDay_localMidnight.
Qed.

Lemma range_timeDay_cases (a b : Z) :
  inRange (localMidnight a) ->
  inRange (localMidnight b) ->
  range timeDay (Finite (localMidnight a)) (Finite (localMidnight b)) = []
  \/ range timeDay (Finite (localMidnight a)) (Finite (localMidnight b))
     = midnights a (Z.to_nat (b - a)).
Proof.
  intros Ra Rb. destruct (ceil_timeDay_cases a) as [E | E].
  - left. unfold range, range_step. now rewrite E.
  - right. now apply range_timeDay_from.
Qed.

End LocalZoneFacts.

End D3TimeFacts.

(** ** Sorting *)

Module JSArrayFacts.

Import JSArray.

Section Sort.

Context {A : Type}.
Variable compareFn : A -> A -> Z.

Lemma In_insert (x y : A) (l : list A) :
  In y (insert compareFn x l) <-> y = x \/ In y l.
Proof.
  induction l as [| z l IH]; cbn [insert In].
  - intuition congruence.
  - destruct (compareFn x z <=? 0); cbn [In]; rewrite ?IH; intuition congruence.
Qed.

Lemma In_sort (y : A) (l : list A) : In y (sort compareFn l) <-> In y l.
Proof.
  induction l as [| x l IH]; cbn [sort fold_right In]; [tauto |].
  fold (sort compareFn l). rewrite In_insert, IH. intuition congruence.
Qed.

End Sort.

Section SortByKey.

Context {A : Type}.
Variable key : A -> Z.

(** Sorting with [(a, b) => key(a) - key(b)] puts a least key first. *)
Lemma hd_insert_least (x : A) (l : list A) (m : A) :
  (forall y, In y l -> match hd_error l with
                       | Some h => key h <= key y
                       | None => True
                       end) ->
  hd_error (insert (fun a b => key a - key b) x l) = Some m ->
  key m <= key x /\ forall y, In y l -> key m <= key y.
Proof.
  destruct l as [| h l]; cbn [insert hd_error In]; intros Hl Hm.
  - injection Hm as <-. split; [lia | tauto].
  - destruct (Z.leb_spec (key x - key h) 0) as [Hle | Hgt];
      cbn [hd_error] in Hm; injection Hm as <-.
    + split; [lia |]. intros y Hy. specialize (Hl y Hy). lia.
    + split; [lia |]. intros y Hy. exact (Hl y Hy).
Qed.

Lemma hd_sort_least (l : list A) (m : A) :
  hd_error (sort (fun a b => key a - key b) l) = Some m ->
  In m l /\ forall y, In y l -> key m <= key y.
Proof.
  revert m. induction l as [| x l IH]; intros m Hm; [discriminate |].
  split.
  - apply (In_sort (fun a b => key a - key b)).
    destruct (sort (fun a b => key a - key b) (x :: l)); [discriminate |].
    injection Hm as ->. now left.
  - cbn [sort fold_right] in Hm. fold (sort (fun a b => key a - key b) l) in Hm.
    apply hd_insert_least in Hm.
    + destruct Hm as [Hx Hl]. intros y [<- | Hy]; [exact Hx |].
      apply Hl. now apply In_sort.
    + intros y Hy.
      destruct (hd_error (sort (fun a b => key a - key b) l)) as [h |] eqn:E;
        [| exact I].
      destruct (IH h eq_refl) as [_ Hmin]. apply Hmin.
      now apply In_sort in Hy.
Qed.

Lemma sort_nonempty (l : list A) :
  l <> [] -> hd_error (sort (fun a b => key a - key b) l) <> None.
Proof.
  destruct l as [| x l]; [congruence |]. intros _.
  cbn [sort fold_right].
  destruct (fold_right (insert (fun a b => key a - key b)) [] l) as [| y l'];
    cbn [insert]; [discriminate |].
  destruct (key x - key y <=? 0); discriminate.
Qed.

End SortByKey.

End JSArrayFacts.

(* ================================================================= *)
(** ** The calendar grid *)

Module TimelineCalendarSpec.

Import ESDate ESDateFacts D3Time D3TimeFacts Types TimelineCalendar.
Import CalendarTerms.

Section Grid.

Context {tz : TimeZone}.

Lemma getMonth_range (d : Date) : 0 <= getMonth d <= 11.
Proof. apply MonthFromTime_range. Qed.

(** A day lies in its own month. *)
Lemma month_bracket (d : Date) :
  monthStart d <= Day (LocalTime d) < monthEndExclusive d.
Proof.
  unfold monthStart, monthEndExclusive.
  rewrite MakeDay_in_range, MakeDay_next_month by apply getMonth_range.
  pose proof (MonthFromTime_bracket (LocalTime d)) as B.
  unfold getFullYear, getMonth, DayWithinYear, InLeapYear in *.
  revert B.
  generalize (FirstDayOfMonth (MonthFromTime (LocalTime d) + 1)
                (LeapOfYear (YearFromTime (LocalTime d)))).
  generalize (FirstDayOfMonth (MonthFromTime (LocalTime d))
                (LeapOfYear (YearFromTime (LocalTime d)))).
  generalize (DayFromYear (YearFromTime (LocalTime d))).
  generalize (Day (LocalTime d)). intros n y0 f0 f1 B. lia.
Qed.

Lemma month_length (d : Date) : monthStart d + 28 <= monthEndExclusive d.
Proof.
  unfold monthStart, monthEndExclusive.
  rewrite MakeDay_in_range, MakeDay_next_month by apply getMonth_range.
  assert (L : 0 <= LeapOfYear (getFullYear d))
    by (destruct (LeapOfYear_cases (getFullYear d)) as [E | E]; rewrite E; lia).
  pose proof (FirstDayOfMonth_lt (getMonth d) (LeapOfYear (getFullYear d))
                (getMonth_range d) L) as F.
  revert F.
  generalize (FirstDayOfMonth (getMonth d + 1) (LeapOfYear (getFullYear d))).
  generalize (FirstDayOfMonth (getMonth d) (LeapOfYear (getFullYear d))).
  generalize (DayFromYear (getFullYear d)). intros y0 f0 f1 F. lia.
Qed.

Lemma month_length_le (d : Date) : monthEndExclusive d <= monthStart d + 31.
Proof.
  unfold monthStart, monthEndExclusive.
  rewrite MakeDay_next_month, MakeDay_in_range by apply getMonth_range.
  pose proof (getMonth_range d) as Hm.
  pose proof (LeapOfYear_cases (getFullYear d)) as L.
  revert Hm L. generalize (LeapOfYear (getFullYear d)).
  generalize (DayFromYear (getFullYear d)). generalize (getMonth d).
  intros m y0 leap Hm L.
  assert (C : m = 0 \/ m = 1 \/ m = 2 \/ m = 3 \/ m = 4 \/ m = 5 \/ m = 6
              \/ m = 7 \/ m = 8 \/ m = 9 \/ m = 10 \/ m = 11) by lia.
  repeat (destruct C as [-> | C]; [fdm_norm; lia |]).
  subst m. fdm_norm. lia.
Qed.

(** Local midnights between two that are within the range are within it,
    and so is every time of the days between them. *)
Lemma inRange_between (lo hi n : Z) :
  inRange (localMidnight lo) -> inRange (localMidnight hi) ->
  lo <= n <= hi -> inRange (localMidnight n).
Proof.
  unfold inRange. rewrite !localMidnight_eq. unfold msPerDay. lia.
Qed.

Lemma inRange_day (lo hi : Z) (t : Date) :
  inRange (localMidnight lo) -> inRange (localMidnight hi) ->
  lo <= Day (LocalTime t) < hi -> inRange t.
Proof.
  pose proof (localMidnight_Day t) as B. revert B.
  generalize (Day (LocalTime t)). intros n B.
  unfold inRange. rewrite !localMidnight_eq in *. unfold msPerDay in *. lia.
Qed.

(** A local midnight is within the range when a time of its day or of the
    day before is. *)
Lemma inRange_localMidnight_near (t : Date) (n : Z) :
  - maxTime + 2 * msPerDay <= t <= maxTime - 2 * msPerDay ->
  Day (LocalTime t) - 1 <= n <= Day (LocalTime t) + 1 ->
  inRange (localMidnight n).
Proof.
  pose proof (localMidnight_Day t) as B. revert B.
  generalize (Day (LocalTime t)). intros k B.
  unfold inRange. rewrite !localMidnight_eq in *. unfold msPerDay in *. lia.
Qed.

Lemma monthStart_eq (d : Date) :
  monthStart d = MakeDay (getFullYear d) (getMonth d) 1.
Proof. reflexivity. Qed.

Lemma monthEndExclusive_eq (d : Date) :
  monthEndExclusive d = MakeDay (getFullYear d) (getMonth d + 1) 1.
Proof. reflexivity. Qed.

Lemma getDays_month_eq (d : DateValue) (hovered : option string) :
  getDays {| currentDate := d; viewMode := month;
             hoveredReminderId := hovered |}
  = range timeDay (floor timeWeek (floor timeMonth d))
      (ceil timeWeek (offset timeMonth (floor timeMonth d) 1)).
Proof. reflexivity. Qed.

Lemma getDays_week_eq (d : DateValue) (hovered : option string) :
  getDays {| currentDate := d; viewMode := week;
             hoveredReminderId := hovered |}
  = range timeDay (floor timeWeek (floor timeWeek d))
      (offset timeWeek (floor timeWeek (floor timeWeek d)) 1).
Proof. reflexivity. Qed.

Lemma range_start_NaN (stop : DateValue) : range timeDay NaN stop = [].
Proof. reflexivity. Qed.

Lemma floor_NaN :
  floor timeWeek NaN = NaN /\ floor timeMonth NaN = NaN
  /\ floor timeDay NaN = NaN.
Proof. repeat split. Qed.

Lemma ceil_timeWeek_NaN : ceil timeWeek NaN = NaN.
Proof. reflexivity. Qed.

Lemma offset_NaN (k : Z) :
  offset timeWeek NaN k = NaN /\ offset timeMonth NaN k = NaN.
Proof. split; reflexivity. Qed.

(** The grid of month mode: the days from the Sunday on or before the first
    of the month up to the first Sunday on or after the first of the next,
    when the day before the first cell and the end of the grid are within
    the range of time values. *)
Lemma getDays_month (anchor : Date) (hovered : option string) :
  inRange (localMidnight (weekStart (monthStart anchor) - 1)) ->
  inRange (localMidnight (weekCeil (monthEndExclusive anchor))) ->
  getDays {| currentDate := anchor; viewMode := month;
             hoveredReminderId := hovered |}
  = midnights (weekStart (monthStart anchor))
      (Z.to_nat (weekCeil (monthEndExclusive anchor)
                 - weekStart (monthStart anchor))).
Proof.
  intros Rlo Rhi.
  pose proof (month_bracket anchor) as MB.
  pose proof (month_length anchor) as ML.
  pose proof (weekStart_bounds (monthStart anchor)) as SB.
  pose proof (weekCeil_bounds (monthEndExclusive anchor)) as CB.
  pose proof (weekStart_bounds (monthEndExclusive anchor - 1)) as SB1.
  pose proof (getMonth_range anchor) as Hm.
  assert (Rin : forall n,
             weekStart (monthStart anchor) - 1 <= n
             <= weekCeil (monthEndExclusive anchor) ->
             inRange (localMidnight n))
    by (intros n Hn; exact (inRange_between _ _ n Rlo Rhi Hn)).
  assert (Ranchor : inRange anchor)
    by (apply (inRange_day _ _ anchor Rlo Rhi); lia).
  assert (Rset : inRange (setDate_time anchor 1)).
  { apply (inRange_day _ _ _ Rlo Rhi).
    rewrite setDate_first, <- monthStart_eq. lia. }
  assert (R0 : inRange (localMidnight (monthStart anchor)))
    by (apply Rin; lia).
  assert (R1 : inRange (localMidnight (monthEndExclusive anchor)))
    by (apply Rin; lia).
  assert (R2 : inRange (localMidnight (weekStart (monthStart anchor))))
    by (apply Rin; lia).
  assert (R3 : inRange (localMidnight
                          (weekStart (monthEndExclusive anchor - 1))))
    by (apply Rin; lia).
  rewrite getDays_month_eq.
  rewrite monthStart_eq in R0. rewrite monthEndExclusive_eq in R1.
  rewrite (floor_timeMonth_valid anchor Ranchor Rset R0).
  rewrite (offset_timeMonth_first _ _ Hm R0), (TimeClip_inRange _ R1).
  rewrite <- monthStart_eq, <- monthEndExclusive_eq in *.
  rewrite (floor_timeWeek_valid (localMidnight (monthStart anchor)) R0).
  - rewrite localDay_localMidnight.
    rewrite (ceil_timeWeek_localMidnight _ R3 Rhi).
    exact (range_timeDay_localMidnight _ _ Rlo R2 Rhi).
  - rewrite weekStart_localMidnight. exact R2.
  - rewrite localDay_localMidnight. exact R2.
Qed.

(** Beyond that the grid is empty. *)
Lemma getDays_month_cases (anchor : Date) (hovered : option string) :
  getDays {| currentDate := anchor; viewMode := month;
             hoveredReminderId := hovered |} = []
  \/ (inRange (localMidnight (weekStart (monthStart anchor)))
      /\ inRange (localMidnight (weekCeil (monthEndExclusive anchor)))
      /\ getDays {| currentDate := anchor; viewMode := month;
                    hoveredReminderId := hovered |}
         = midnights (weekStart (monthStart anchor))
             (Z.to_nat (weekCeil (monthEndExclusive anchor)
                        - weekStart (monthStart anchor)))).
Proof.
  pose proof (getMonth_range anchor) as Hm.
  rewrite getDays_month_eq.
  destruct (floor_timeMonth_cases anchor) as [E | [R0 E]]; rewrite E.
  { left. destruct floor_NaN as [-> _]. apply range_start_NaN. }
  rewrite (offset_timeMonth_first _ _ Hm R0).
  rewrite <- monthStart_eq, <- monthEndExclusive_eq in *.
  destruct (TimeClip_cases (localMidnight (monthEndExclusive anchor)))
    as [[R1 E1] | E1]; rewrite E1.
  2:{ left. rewrite ceil_timeWeek_NaN. apply range_stop_NaN. }
  destruct (floor_timeWeek_cases (localMidnight (monthStart anchor)))
    as [E2 | [R2 E2]]; rewrite E2.
  { left. apply range_start_NaN. }
  rewrite localDay_localMidnight in *.
  destruct (ceil_timeWeek_cases (monthEndExclusive anchor))
    as [E3 | [R3 E3]]; rewrite E3.
  { left. apply range_stop_NaN. }
  destruct (range_timeDay_cases _ _ R2 R3) as [E4 | E4]; rewrite E4.
  - now left.
  - right. split; [exact R2 |]. split; [exact R3 | reflexivity].
Qed.

(** The grid of week mode: the seven days from the Sunday on or before the
    anchor, when the day before that Sunday and the Sunday after it are
    within the range of time values. *)
Lemma getDays_week (anchor : Date) (hovered : option string) :
  inRange (localMidnight (weekStart (Day (LocalTime anchor)) - 1)) ->
  inRange (localMidnight (weekStart (Day (LocalTime anchor)) + 7)) ->
  getDays {| currentDate := anchor; viewMode := week;
             hoveredReminderId := hovered |}
  = midnights (weekStart (Day (LocalTime anchor))) 7.
Proof.
  intros Rlo Rhi.
  pose proof (weekStart_bounds (Day (LocalTime anchor))) as SB.
  assert (Rin : forall n,
             weekStart (Day (LocalTime anchor)) - 1 <= n
             <= weekStart (Day (LocalTime anchor)) + 7 ->
             inRange (localMidnight n))
    by (intros n Hn; exact (inRange_between _ _ n Rlo Rhi Hn)).
  assert (Ranchor : inRange anchor)
    by (apply (inRange_day _ _ anchor Rlo Rhi); lia).
  assert (Rstep : inRange (anchor - (Day (LocalTime anchor) + 4) mod 7
                                    * msPerDay)).
  { apply (inRange_day _ _ _ Rlo Rhi). rewrite weekStart_Day. lia. }
  assert (R0 : inRange (localMidnight (weekStart (Day (LocalTime anchor)))))
    by (apply Rin; lia).
  assert (R1 : inRange (localMidnight
                          (weekStart (Day (LocalTime anchor)) + 1 * 7)))
    by (apply Rin; lia).
  pose proof (weekStart_fixed (weekStart (Day (LocalTime anchor)))
                (weekStart_sunday _)) as Hfix.
  rewrite getDays_week_eq.
  rewrite (floor_timeWeek_valid anchor Ranchor Rstep R0).
  rewrite (floor_timeWeek_valid _ R0).
  - rewrite localDay_localMidnight, Hfix.
    rewrite (offset_timeWeek_localMidnight _ _ R0), (TimeClip_inRange _ R1).
    rewrite (range_timeDay_localMidnight _ _ Rlo R0 R1).
    f_equal. lia.
  - rewrite weekStart_localMidnight, Hfix. exact R0.
  - rewrite localDay_localMidnight, Hfix. exact R0.
Qed.

Lemma getDays_week_cases (anchor : Date) (hovered : option string) :
  getDays {| currentDate := anchor; viewMode := week;
             hoveredReminderId := hovered |} = []
  \/ (inRange (localMidnight (weekStart (Day (LocalTime anchor))))
      /\ inRange (localMidnight (weekStart (Day (LocalTime anchor)) + 7))
      /\ getDays {| currentDate := anchor; viewMode := week;
                    hoveredReminderId := hovered |}
         = midnights (weekStart (Day (LocalTime anchor))) 7).
Proof.
  pose proof (weekStart_fixed (weekStart (Day (LocalTime anchor)))
                (weekStart_sunday _)) as Hfix.
  rewrite getDays_week_eq.
  destruct (floor_timeWeek_cases anchor) as [E | [R0 E]]; rewrite E.
  { left. destruct floor_NaN as [-> _]. apply range_start_NaN. }
  destruct (floor_timeWeek_cases
              (localMidnight (weekStart (Day (LocalTime anchor)))))
    as [E1 | [R1 E1]]; rewrite E1.
  { left. apply range_start_NaN. }
  rewrite localDay_localMidnight, Hfix.
  rewrite (offset_timeWeek_localMidnight _ _ R0).
  destruct (TimeClip_cases
              (localMidnight (weekStart (Day (LocalTime anchor)) + 1 * 7)))
    as [[R2 E2] | E2]; rewrite E2.
  2:{ left. apply range_stop_NaN. }
  destruct (range_timeDay_cases _ _ R0 R2) as [E3 | E3]; rewrite E3.
  - now left.
  - right. split; [exact R0 |]. split; [exact R2 |]. f_equal. lia.
Qed.

(** An anchor that is well inside the range has its whole grid, and the day
    before it, within the range. *)
Lemma wellInside_month (anchor : Date) :
  wellInside anchor ->
  inRange (localMidnight (weekStart (monthStart anchor) - 1))
  /\ inRange (localMidnight (weekCeil (monthEndExclusive anchor))).
Proof.
  intros W.
  pose proof (month_bracket anchor) as MB.
  pose proof (month_length_le anchor) as ML.
  pose proof (weekStart_bounds (monthStart anchor)) as SB.
  pose proof (weekCeil_bounds (monthEndExclusive anchor)) as CB.
  pose proof (localMidnight_Day anchor) as B.
  revert MB ML SB CB B.
  generalize (weekCeil (monthEndExclusive anchor)).
  generalize (weekStart (monthStart anchor)).
  generalize (monthEndExclusive anchor) (monthStart anchor).
  generalize (Day (LocalTime anchor)).
  intros n a1 a0 ws wc MB ML SB CB B.
  unfold wellInside, inRange in *. rewrite !localMidnight_eq in *.
  unfold msPerDay, maxTime in *. lia.
Qed.

Lemma wellInside_week (anchor : Date) :
  wellInside anchor ->
  inRange (localMidnight (weekStart (Day (LocalTime anchor)) - 1))
  /\ inRange (localMidnight (weekStart (Day (LocalTime anchor)) + 7)).
Proof.
  intros W.
  pose proof (weekStart_bounds (Day (LocalTime anchor))) as SB.
  pose proof (localMidnight_Day anchor) as B.
  revert SB B.
  generalize (weekStart (Day (LocalTime anchor))).
  generalize (Day (LocalTime anchor)). intros n ws SB B.
  unfold wellInside, inRange in *. rewrite !localMidnight_eq in *.
  unfold msPerDay, maxTime in *. lia.
Qed.

Lemma In_midnights (a n : Z) (k : nat) :
  a <= n < a + Z.of_nat k -> In (localMidnight n) (midnights a k).
Proof.
  intros H. unfold midnights. apply in_map_iff.
  exists (Z.to_nat (n - a)). split; [f_equal; lia |].
  apply in_seq. lia.
Qed.

Lemma length_midnights (a : Z) (k : nat) : List.length (midnights a k) = k.
Proof. unfold midnights. now rewrite length_map, length_seq. Qed.

Lemma fields_of_Day (t t' : Z) :
  Day t = Day t' ->
  YearFromTime t = YearFromTime t' /\ MonthFromTime t = MonthFromTime t'
  /\ DateFromTime t = DateFromTime t'.
Proof.
  intros E.
  assert (Hy : YearFromTime t = YearFromTime t')
    by (unfold YearFromTime; now rewrite E).
  assert (Hm : MonthFromTime t = MonthFromTime t')
    by (unfold MonthFromTime, DayWithinYear, InLeapYear; now rewrite E, Hy).
  repeat split; trivial.
  unfold DateFromTime, DayWithinYear, InLeapYear. now rewrite E, Hy, Hm.
Qed.

(** Two days are the same local calendar date exactly when they have the
    same local day number. *)
Lemma same_date_same_Day (day rDate : Date) :
  Day (LocalTime rDate) = Day (LocalTime day) <->
  getFullYear rDate = getFullYear day /\ getMonth rDate = getMonth day
  /\ getDate rDate = getDate day.
Proof.
  unfold getFullYear, getMonth, getDate. split.
  - intros E. now apply fields_of_Day.
  - intros [Hy [Hm Hd]]. exact (same_fields_same_Day _ _ Hy Hm Hd).
Qed.

(** Two dates are on the same local calendar day exactly when the day
    interval counts no day between them, as long as the local midnights
    of both days are within the range. *)
Lemma count_zero_same_date (day rDate : Date) :
  inRange day -> inRange rDate ->
  inRange (localMidnight (Day (LocalTime day))) ->
  inRange (localMidnight (Day (LocalTime rDate))) ->
  JSNum.strictEq (count timeDay day rDate) 0 = true <->
  getFullYear rDate = getFullYear day /\ getMonth rDate = getMonth day
  /\ getDate rDate = getDate day.
Proof.
  intros R1 R2 R3 R4. rewrite (count_timeDay day rDate R1 R2 R3 R4).
  cbn [JSNum.strictEq]. rewrite Z.eqb_eq, <- same_date_same_Day. lia.
Qed.

Lemma localDate_midnight (y m d : Z) :
  localDate y m d 0 0 0 0 = localMidnight (MakeDay y m d).
Proof. reflexivity. Qed.

Lemma localDay_localDate (y m d h mi sec ms : Z) :
  0 <= MakeTime h mi sec ms < msPerDay ->
  Day (LocalTime (localDate y m d h mi sec ms)) = MakeDay y m d.
Proof.
  intros H. unfold localDate. rewrite LocalTime_UTC. now apply Day_MakeDate.
Qed.

(** Every day of the month of the anchor is a cell of the month grid. *)
Lemma month_days_in_grid (anchor : Date) (hovered : option string) (t : Date) :
  wellInside anchor ->
  getFullYear t = getFullYear anchor ->
  getMonth t = getMonth anchor ->
  floor timeDay t = Finite (localMidnight (Day (LocalTime t)))
  /\ In (localMidnight (Day (LocalTime t)))
       (getDays (monthView anchor hovered)).
Proof.
  intros W Hy Hm. destruct (wellInside_month anchor W) as [Rlo Rhi].
  unfold monthView. rewrite (getDays_month anchor hovered Rlo Rhi).
  pose proof (month_bracket t) as B. pose proof (month_length anchor) as ML.
  pose proof (weekStart_bounds (monthStart anchor)) as SB.
  pose proof (weekCeil_bounds (monthEndExclusive anchor)) as CB.
  rewrite monthStart_eq, monthEndExclusive_eq, Hy, Hm in B.
  rewrite <- monthStart_eq, <- monthEndExclusive_eq in B.
  split.
  - apply floor_timeDay_valid.
    + apply (inRange_day _ _ t Rlo Rhi). lia.
    + apply (inRange_between _ _ _ Rlo Rhi). lia.
  - apply In_midnights. lia.
Qed.


End Grid.


(** C1 as stated also fails at the end of the range of time values: for the
    last time value, in UTC, the first of the next month is no date and the
    grid is empty, so it holds no day of the month of the anchor. *)
Lemma getDays_empty_at_range_end :
  getDays (host := fixedOffset (tz := zoneUTC)) (monthView maxTime None) = []
  /\ getDays (host := fixedOffset (tz := zoneUTC)) (weekView maxTime None)
     = [].
Proof. vm_compute. split; reflexivity. Qed.

(** Nor does C1 hold on every host: where the clocks skip a whole day the
    grid of that month is a day short, 34 cells for December 2011, and the
    cell of the 29th is followed by that of the 31st. *)
Lemma getDays_month_skippedDay :
  let grid := getDays (host := skippedDay) (monthView 1323950400000 None) in
  List.length grid = 34%nat
  /\ map (getDate (host := skippedDay)) (skipn 32 grid) = [29; 31].
Proof. vm_compute. split; reflexivity. Qed.

(** Where the clocks change in the small hours the grid is as elsewhere:
    March 2024 has its 42 cells from Sunday 2024-02-25 on, the cell of
    2024-03-10 being 23 hours before the next. *)
Example getDays_month_springForward :
  let grid := getDays (host := springForward) (monthView 1710003600000 None) in
  List.length grid = 42%nat
  /\ map (getDate (host := springForward)) (firstn 2 grid) = [25; 26]
  /\ map (getDay (host := springForward)) (firstn 2 grid) = [0; 1]
  /\ nth_error grid 14 = Some 1710046800000
  /\ nth_error grid 15 = Some (1710046800000 + 23 * msPerHour).
Proof. vm_compute. repeat split; reflexivity. Qed.

(** C4 fails on a host whose clocks skip the hour after midnight.  On
    2023-09-03 the day starts at 01:00 there, 23 hours before the next
    midnight, and [count] takes the floor of 23 / 24: a reminder at noon of
    2023-09-04 is listed in the cell of 2023-09-03 and in the cell of
    2023-09-04, both cells of the grid of September 2023. *)
Lemma dayReminders_two_cells_midnightDST :
  let r := reminderAt "a" 1693839600000 in
  let grid := getDays (host := midnightDST) (monthView 1693839600000 None) in
  getDate (host := midnightDST) (date r) = 4
  /\ In 1693713600000 grid
  /\ getDate (host := midnightDST) 1693713600000 = 3
  /\ In r (dayReminders (host := midnightDST) [r] 1693713600000)
  /\ In 1693796400000 grid
  /\ getDate (host := midnightDST) 1693796400000 = 4
  /\ In r (dayReminders (host := midnightDST) [r] 1693796400000).
Proof.
  vm_compute. repeat split; try (left; reflexivity).
  - do 7 right. left. reflexivity.
  - do 8 right. left. reflexivity.
Qed.

Section GridDays.

Context {tz : TimeZone}.

(** X27.  On a host whose zone has one offset, the cell of [day] lists
    exactly the reminders whose timestamp is on the local calendar date of
    [day], whatever its time of day, for days and timestamps more than 40
    days inside the range of time values. *)
Theorem dayReminders_same_local_date (reminders : list Reminder)
  (day : Date) (r : Reminder) :
  wellInside day -> wellInside (date r) ->
  In r (dayReminders reminders day) <->
  In r reminders
  /\ getFullYear (date r) = getFullYear day
  /\ getMonth (date r) = getMonth day
  /\ getDate (date r) = getDate day.
Proof.
  intros Wd Wr. unfold dayReminders. rewrite filter_In. cbv zeta.
  rewrite count_zero_same_date; [reflexivity | | | |].
  - unfold wellInside, inRange, msPerDay in *. lia.
  - unfold wellInside, inRange, msPerDay in *. lia.
  - apply (inRange_localMidnight_near day);
      [unfold wellInside, msPerDay in *; lia | lia].
  - apply (inRange_localMidnight_near (date r));
      [unfold wellInside, msPerDay in *; lia | lia].
Qed.

End GridDays.

(** Month navigation is calendar arithmetic: a month after 2024-01-31 is
    2024-03-02, February having 29 days. *)
Example handleNav_next_month :
  currentDate
    (handleNav (host := fixedOffset (tz := zonePlus2)) next
       (monthView
          (localDate (host := fixedOffset (tz := zonePlus2)) 2024 0 31 9 0 0 0)
          None))
  = localDate (host := fixedOffset (tz := zonePlus2)) 2024 2 2 9 0 0 0.
Proof. reflexivity. Qed.

Lemma dayReminders_same_local_date_witness :
  let r := reminderAt "a"
             (localDate (host := fixedOffset (tz := zonePlus2))
                2024 2 15 23 30 0 0) in
  In r (dayReminders (host := fixedOffset (tz := zonePlus2)) [r]
          (localDate (host := fixedOffset (tz := zonePlus2))
             2024 2 15 0 0 0 0))
  /\ ~ In r (dayReminders (host := fixedOffset (tz := zonePlus2)) [r]
               (localDate (host := fixedOffset (tz := zonePlus2))
                  2024 2 16 0 0 0 0)).
Proof.
  intros r. split.
  - apply (dayReminders_same_local_date (tz := zonePlus2) [r]).
    + vm_compute. split; discriminate.
    + vm_compute. split; discriminate.
    + split; [left; reflexivity |]. repeat split.
  - intros H.
    apply (dayReminders_same_local_date (tz := zonePlus2) [r]) in H.
    + destruct H as [_ [_ [_ H]]]. vm_compute in H. discriminate.
    + vm_compute. split; discriminate.
    + vm_compute. split; discriminate.
Defined.


Section Reset.

Variable reminders : list Reminder.

Lemma some_upcoming (now : Date) :
  JSArray.some (fun r => now <? date r) reminders = true <->
  exists r, In r reminders /\ now < date r.
Proof.
  unfold JSArray.some. rewrite existsb_exists.
  split; intros [r [Hr Hlt]]; exists r; split; trivial;
    now apply Z.ltb_lt.
Qed.

(** C6.  [resetView] always switches to the month view.  When some
    reminder is due at or after the current instant, the anchor becomes the
    timestamp of one that is due soonest among them; otherwise it becomes
    the current instant. *)
Theorem resetView_anchor (now : Date) (s : State) :
  viewMode (resetView reminders now s) = month
  /\ ((exists r, In r reminders /\ now <= date r) ->
      exists upcoming,
        In upcoming reminders
        /\ now <= date upcoming
        /\ (forall r, In r reminders -> now <= date r ->
                      date upcoming <= date r)
        /\ currentDate (resetView reminders now s) = date upcoming)
  /\ ((forall r, In r reminders -> date r < now) ->
      currentDate (resetView reminders now s) = now).
Proof.
  split; [reflexivity |].
  unfold resetView.
  destruct (JSArray.some (fun r => now <? date r) reminders) eqn:Esome.
  - (* a reminder is due after [now] *)
    pose proof Esome as Hex. apply some_upcoming in Hex.
    destruct Hex as [r0 [Hr0 Hlt0]].
    assert (Hlen : (0 <? Z.of_nat (List.length reminders)) = true).
    { apply Z.ltb_lt. destruct reminders; [contradiction | cbn; lia]. }
    rewrite Hlen. cbn [andb].
    set (due := filter (fun r => now <=? date r) reminders).
    assert (Hdue : forall r, In r due <-> In r reminders /\ now <= date r).
    { intro r. unfold due. rewrite filter_In, Z.leb_le. reflexivity. }
    assert (Hne : due <> []).
    { intros E. assert (In r0 due) by (apply Hdue; split; [trivial | lia]).
      rewrite E in H. contradiction. }
    pose proof (JSArrayFacts.sort_nonempty (fun r => getTime (date r)) due Hne)
      as Hhd.
    destruct (hd_error
                (JSArray.sort (fun a b => getTime (date a) - getTime (date b))
                   due)) as [upcoming |] eqn:Ehd; [| congruence].
    apply (JSArrayFacts.hd_sort_least (fun r => getTime (date r))) in Ehd.
    destruct Ehd as [Hin Hleast]. apply Hdue in Hin. destruct Hin as [Hin Hge].
    split.
    + intros _. exists upcoming. repeat split; trivial.
      intros r Hr Hrge. apply (Hleast r). apply Hdue. now split.
    + intros Hall. specialize (Hall r0 Hr0). lia.
  - (* no reminder is due after [now] *)
    rewrite Bool.andb_false_r.
    cbn [setViewMode setCurrentDate currentDate].
    split; [| reflexivity].
    intros [r [Hr Hge]].
    assert (Hle : date r <= now).
    { destruct (Z.le_gt_cases (date r) now) as [L | G]; [exact L |].
      assert (JSArray.some (fun r => now <? date r) reminders = true)
        by (apply some_upcoming; exists r; split; trivial; lia).
      congruence. }
    exists r. repeat split; trivial; [| f_equal; lia].
    intros r' _ Hr'. lia.
Qed.

End Reset.

Lemma resetView_anchor_witness :
  let rs := [reminderAt "a" 100; reminderAt "b" 700; reminderAt "c" 400] in
  exists upcoming,
    In upcoming rs /\ 250 <= date upcoming
    /\ (forall r, In r rs -> 250 <= date r -> date upcoming <= date r)
    /\ currentDate (resetView rs 250 (monthView 0 None)) = date upcoming.
Proof.
  intros rs.
  destruct (resetView_anchor rs 250 (monthView 0 None)) as [_ [H _]].
  apply H. exists (reminderAt "b" 700). split.
  - right. left. reflexivity.
  - cbn. lia.
Defined.

End TimelineCalendarSpec.

(* ================================================================= *)
(** ** The entry store and the account gate *)

Module AppSpec.

Import Types App AppTerms.

(** C2.  A guest at capacity who submits a new entry gets the replace
    dialog: the entries are untouched, nothing is alerted and the submitted
    data are held.  Confirming leaves exactly one entry in the store, the
    new one: it has the generated id, the id of the user, the time of
    creation and every field of the held data; the dialog and the widget
    are closed.  Cancelling drops the held data and leaves the entries as
    they were. *)
Theorem guest_replace_flow (s : State) (data : ReminderData.t)
  (id1 : string) (now1 : Z) :
  User.isTemp (user s) = true ->
  (1 <= List.length (reminders s))%nat ->
  editingReminder s = None ->
  after s (handleSaveReminder s id1 now1 data) = withPending s (Some data) true
  /\ reminders (after s (handleSaveReminder s id1 now1 data)) = reminders s
  /\ alerted s (handleSaveReminder s id1 now1 data) = []
  /\ (forall (id2 : string) (now2 : Z),
        exists r' : Reminder,
          after (withPending s (Some data) true)
            (handleConfirmReplace (withPending s (Some data) true) id2 now2)
          = closedWith (withPending s None false) [r']
          /\ reminders
               (after (withPending s (Some data) true)
                  (handleConfirmReplace (withPending s (Some data) true)
                     id2 now2))
             = [r']
          /\ id r' = id2
          /\ userId r' = User.id (user s)
          /\ createdAt r' = now2
          /\ title r' = ReminderData.title data
          /\ description r' = ReminderData.description data
          /\ date r' = ReminderData.date data
          /\ type r' = ReminderData.type data
          /\ recurrence r' = ReminderData.recurrence data
          /\ method r' = ReminderData.method data
          /\ completed r' = ReminderData.completed data
          /\ recurrenceEndMode r' = ReminderData.recurrenceEndMode data
          /\ recurrenceEndValue r' = ReminderData.recurrenceEndValue data
          /\ contactInfo r' = ReminderData.contactInfo data)
  /\ after (withPending s (Some data) true) handleCancelReplace
     = withPending s None false
  /\ reminders (after (withPending s (Some data) true) handleCancelReplace)
     = reminders s.
Proof.
  intros Htemp Hlen Hedit.
  unfold after, alerted, run, handleSaveReminder, handleConfirmReplace,
    handleCancelReplace.
  rewrite Hedit, Htemp.
  assert (Hcap : (1 <=? Z.of_nat (List.length (reminders s))) = true)
    by (apply Z.leb_le; lia).
  rewrite Hcap. cbn [andb].
  destruct s; cbn in *.
  split; [reflexivity |]. split; [reflexivity |]. split; [reflexivity |].
  split; [| split; reflexivity].
  intros id2 now2. eexists. split; [reflexivity |]. cbn. repeat split.
Qed.

Lemma guest_replace_flow_witness :
  after guestWithOne
    (handleSaveReminder guestWithOne "id1" 2 (sampleData "new"))
  = withPending guestWithOne (Some (sampleData "new")) true
  /\ exists r' : Reminder,
       reminders
         (after (withPending guestWithOne (Some (sampleData "new")) true)
            (handleConfirmReplace
               (withPending guestWithOne (Some (sampleData "new")) true)
               "id2" 3))
       = [r']
       /\ id r' = "id2"%string /\ userId r' = "temp-user"%string
       /\ createdAt r' = 3 /\ title r' = "new"%string.
Proof.
  destruct (guest_replace_flow guestWithOne (sampleData "new") "id1" 2)
    as [Hsub [_ [_ [Hconfirm _]]]].
  - reflexivity.
  - cbn. lia.
  - reflexivity.
  - split; [exact Hsub |].
    destruct (Hconfirm "id2"%string 3)
      as [r' [_ [E [Hid [Hu [Hc [Ht _]]]]]]].
    exists r'. repeat split; assumption.
Defined.

(** C3.  A named account with 50 entries or more that submits a new entry
    gets the limit notice and nothing else: the state, and with it the
    collection of entries, is the one before. *)
Theorem named_account_limit (s : State) (data : ReminderData.t)
  (id1 : string) (now1 : Z) :
  User.isTemp (user s) = false ->
  (50 <= List.length (reminders s))%nat ->
  editingReminder s = None ->
  after s (handleSaveReminder s id1 now1 data) = s
  /\ alerted s (handleSaveReminder s id1 now1 data) = [limitMessage].
Proof.
  intros Htemp Hlen Hedit.
  unfold after, alerted, run, handleSaveReminder.
  rewrite Hedit, Htemp.
  assert (Hcap : (50 <=? Z.of_nat (List.length (reminders s))) = true)
    by (apply Z.leb_le; lia).
  rewrite Hcap. cbn [andb negb].
  destruct s; split; reflexivity.
Qed.

Lemma named_account_limit_witness :
  List.length
    (reminders
       (after namedWithFifty
          (handleSaveReminder namedWithFifty "id1" 2 (sampleData "new"))))
  = 50%nat
  /\ alerted namedWithFifty
       (handleSaveReminder namedWithFifty "id1" 2 (sampleData "new"))
     = [limitMessage].
Proof.
  destruct (named_account_limit namedWithFifty (sampleData "new") "id1" 2)
    as [Hs Ha].
  - reflexivity.
  - cbn. lia.
  - reflexivity.
  - split; [now rewrite Hs | exact Ha].
Defined.

Lemma handleSaveReminder_edit (s : State) (data : ReminderData.t)
  (id1 : string) (now1 : Z) (editing : Reminder) :
  editingReminder s = Some editing ->
  run s (handleSaveReminder s id1 now1 data)
  = {| pending := closedWith s (edited editing data (reminders s));
       alerts := [] |}.
Proof.
  intros Hedit. unfold run, handleSaveReminder. rewrite Hedit.
  destruct s; reflexivity.
Qed.

(** C8.  An edit-submit is applied whatever the account and however many
    entries there are: the collection keeps its length and order, every
    entry with the id of the edited one takes each field of the submitted
    data (an optional field that the data lack stays as it was) and keeps
    its [id], [userId] and [createdAt], every other entry is as before, the
    widget closes and nothing is alerted.  And [createReminder], once
    called, appends the new entry to whatever the collection is by then: it
    has the generated id, the id of the user, the time of creation and
    every field of the data. *)
Theorem edit_bypasses_capacity (s : State) (data : ReminderData.t)
  (id1 : string) (now1 : Z) :
  (forall editing : Reminder,
     editingReminder s = Some editing ->
     (exists rs : list Reminder,
        after s (handleSaveReminder s id1 now1 data) = closedWith s rs
        /\ reminders (after s (handleSaveReminder s id1 now1 data)) = rs
        /\ List.length rs = List.length (reminders s)
        /\ forall (i : nat) (r : Reminder),
             nth_error (reminders s) i = Some r ->
             exists r' : Reminder,
               nth_error rs i = Some r'
               /\ (id r <> id editing -> r' = r)
               /\ (id r = id editing ->
                   id r' = id r
                   /\ userId r' = userId r
                   /\ createdAt r' = createdAt r
                   /\ title r' = ReminderData.title data
                   /\ description r' = ReminderData.description data
                   /\ date r' = ReminderData.date data
                   /\ type r' = ReminderData.type data
                   /\ recurrence r' = ReminderData.recurrence data
                   /\ method r' = ReminderData.method data
                   /\ completed r' = ReminderData.completed data
                   /\ recurrenceEndMode r'
                      = match ReminderData.recurrenceEndMode data with
                        | Missing => recurrenceEndMode r
                        | given => given
                        end
                   /\ recurrenceEndValue r'
                      = match ReminderData.recurrenceEndValue data with
                        | Missing => recurrenceEndValue r
                        | given => given
                        end
                   /\ contactInfo r'
                      = match ReminderData.contactInfo data with
                        | Missing => contactInfo r
                        | given => given
                        end))
     /\ showWidget (after s (handleSaveReminder s id1 now1 data)) = false
     /\ alerted s (handleSaveReminder s id1 now1 data) = [])
  /\ (forall w : Effects,
        exists r' : Reminder,
          reminders (pending (snd (createReminder s id1 now1 data w)))
          = reminders (pending w) ++ [r']
          /\ alerts (snd (createReminder s id1 now1 data w)) = alerts w
          /\ id r' = id1
          /\ userId r' = User.id (user s)
          /\ createdAt r' = now1
          /\ title r' = ReminderData.title data
          /\ description r' = ReminderData.description data
          /\ date r' = ReminderData.date data
          /\ type r' = ReminderData.type data
          /\ recurrence r' = ReminderData.recurrence data
          /\ method r' = ReminderData.method data
          /\ completed r' = ReminderData.completed data
          /\ recurrenceEndMode r' = ReminderData.recurrenceEndMode data
          /\ recurrenceEndValue r' = ReminderData.recurrenceEndValue data
          /\ contactInfo r' = ReminderData.contactInfo data).
Proof.
  split.
  - intros editing Hedit. unfold after, alerted.
    rewrite (handleSaveReminder_edit s data id1 now1 editing Hedit).
    cbn [pending alerts closedWith reminders showWidget].
    split; [| split; reflexivity].
    exists (edited editing data (reminders s)).
    split; [reflexivity |]. split; [reflexivity |]. unfold edited. split.
    + apply length_map.
    + intros i r Hi. rewrite nth_error_map, Hi. cbn [option_map].
      destruct (String.eqb_spec (id r) (id editing)) as [E | N].
      * exists (spreadData r data). split; [reflexivity |].
        split; [contradiction |]. intros _. cbn.
        repeat split;
          match goal with
          | |- spreadOptional _ ?o = _ => destruct o; reflexivity
          end.
      * exists r. split; [reflexivity |]. split; [reflexivity |].
        contradiction.
  - intros w. eexists. split; [reflexivity |]. cbn. repeat split.
Qed.

Lemma edit_bypasses_capacity_witness :
  exists r' : Reminder,
    reminders
      (after guestEditing
         (handleSaveReminder guestEditing "id1" 2 (sampleData "new")))
    = [r']
    /\ title r' = "new"%string /\ id r' = "id0"%string /\ createdAt r' = 1.
Proof.
  destruct (edit_bypasses_capacity guestEditing (sampleData "new") "id1" 2)
    as [Hedit _].
  destruct (Hedit (newReminderOf (sampleData "old") "id0" "temp-user" 1)
              eq_refl) as [[rs [_ [E [Hlen H]]]] _].
  destruct (H 0%nat (newReminderOf (sampleData "old") "id0" "temp-user" 1)
              eq_refl) as [r' [Hn [_ Hf]]].
  destruct (Hf eq_refl) as [Hid [_ [Hc [Ht _]]]].
  exists r'. split.
  - rewrite E. destruct rs as [| r0 [| r1 rs]]; try discriminate Hlen.
    now injection Hn as ->.
  - repeat split; assumption.
Defined.

(** C10.  An edit-submit keeps the collection's length and order; every
    entry keeps its [id], [userId] and [createdAt], and every entry whose
    id is not the edited one is left as it was. *)
Theorem edit_preserves_identity (s : State) (data : ReminderData.t)
  (id1 : string) (now1 : Z) (editing : Reminder) :
  editingReminder s = Some editing ->
  List.length (reminders (after s (handleSaveReminder s id1 now1 data)))
  = List.length (reminders s)
  /\ forall (i : nat) (r : Reminder),
       nth_error (reminders s) i = Some r ->
       exists r' : Reminder,
         nth_error (reminders (after s (handleSaveReminder s id1 now1 data))) i
         = Some r'
         /\ id r' = id r /\ userId r' = userId r /\ createdAt r' = createdAt r
         /\ (id r = id editing -> r' = spreadData r data)
         /\ (id r <> id editing -> r' = r).
Proof.
  intros Hedit. unfold after.
  rewrite (handleSaveReminder_edit s data id1 now1 editing Hedit).
  cbn [pending closedWith reminders]. unfold edited. split.
  - apply length_map.
  - intros i r Hi. rewrite nth_error_map, Hi. cbn [option_map].
    destruct (String.eqb_spec (id r) (id editing)) as [E | N].
    + exists (spreadData r data). repeat split; trivial. contradiction.
    + exists r. repeat split; trivial. contradiction.
Qed.

Lemma edit_preserves_identity_witness :
  exists r' : Reminder,
    nth_error
      (reminders
         (after twoEntriesEditing
            (handleSaveReminder twoEntriesEditing "x" 9 (sampleData "new")))) 1
    = Some r'
    /\ r' = newReminderOf (sampleData "second") "id1" "u1" 2.
Proof.
  destruct (edit_preserves_identity twoEntriesEditing (sampleData "new") "x" 9
              (newReminderOf (sampleData "first") "id0" "u1" 1) eq_refl)
    as [_ H].
  destruct (H 1%nat (newReminderOf (sampleData "second") "id1" "u1" 2) eq_refl)
    as [r' [Hn [_ [_ [_ [_ Hsame]]]]]].
  exists r'. split; [exact Hn |]. apply Hsame. cbn. discriminate.
Defined.

(** C7.  Logging in installs a non-temporary user with the supplied name and
    keeps every entry in its place; each entry has its [userId] set to the
    constant ["migrated"], whatever the id of the new user, and all its
    other fields as before. *)
Theorem login_stamps_entries (s : State) (newId name_ : string) :
  user (after s (handleLogin newId name_))
  = {| User.id := newId; User.isTemp := false; User.name := name_ |}
  /\ List.length (reminders (after s (handleLogin newId name_)))
     = List.length (reminders s)
  /\ forall (i : nat) (r : Reminder),
       nth_error (reminders s) i = Some r ->
       exists r' : Reminder,
         nth_error (reminders (after s (handleLogin newId name_))) i = Some r'
         /\ userId r' = "migrated"%string
         /\ id r' = id r /\ title r' = title r
         /\ description r' = description r /\ date r' = date r
         /\ type r' = type r /\ recurrence r' = recurrence r
         /\ method r' = method r /\ completed r' = completed r
         /\ createdAt r' = createdAt r
         /\ recurrenceEndMode r' = recurrenceEndMode r
         /\ recurrenceEndValue r' = recurrenceEndValue r
         /\ contactInfo r' = contactInfo r.
Proof.
  unfold after, run, handleLogin. cbn. split; [reflexivity |]. split.
  - apply length_map.
  - intros i r Hi. exists (withUserId r "migrated").
    rewrite nth_error_map, Hi. cbn. repeat split.
Qed.

Lemma login_stamps_entries_witness :
  exists r' : Reminder,
    nth_error (reminders (after guestWithOne (handleLogin "u7" "Ada"))) 0
    = Some r'
    /\ userId r' = "migrated"%string /\ id r' = "id0"%string.
Proof.
  destruct (login_stamps_entries guestWithOne "u7" "Ada") as [_ [_ H]].
  destruct (H 0%nat (newReminderOf (sampleData "old") "id0" "temp-user" 1)
              eq_refl) as [r' [Hn [Hu [Hid _]]]].
  exists r'. repeat split; trivial.
Defined.

End AppSpec.

(* ================================================================= *)
(** ** The optional fields of a submitted entry *)

Module ReminderWidgetSpec.

Import Types ReminderWidget WidgetTerms.

Section Submit.

Variable newDate : string -> ESDate.Date.

(** What [handleSubmit] passes to [onAdd], field by field. *)
Lemma handleSubmit_fields (props : Props) (s : State) (data : ReminderData.t) :
  handleSubmit newDate props s = Some data ->
  ReminderData.recurrence data = recurrence s
  /\ ReminderData.method data = method s
  /\ ReminderData.recurrenceEndMode data
     = (if RecurrenceType.eqb (recurrence s) RecurrenceType.None
        then Undefined else Value (recurrenceEndMode s))
  /\ ReminderData.recurrenceEndValue data
     = (if RecurrenceType.eqb (recurrence s) RecurrenceType.None
           || RecurrenceEndMode.eqb (recurrenceEndMode s)
                RecurrenceEndMode.never
        then Undefined else Value (recurrenceEndValue s))
  /\ ReminderData.contactInfo data
     = (if CommunicationMethod.eqb (method s)
             CommunicationMethod.Notification
        then Undefined else Value (contactInfo s)).
Proof.
  unfold handleSubmit.
  destruct ((title s =? "")%string || (date s =? "")%string); [discriminate |].
  intros H. injection H as <-. cbn. repeat split.
Qed.

(** C5.  Whatever the form holds, the entry that a submit produces, created
    from the submitted data or an existing entry overwritten with them, has
    no recurrence end mode or value when it does not recur, no end value
    when the end mode is [never], and no contact info when the method is
    [Notification].  A form with recurrence [Weekly], end mode [count] and
    value 5 gives an entry with exactly that end mode and value. *)
Theorem submit_optional_fields (props : Props) (s : State)
  (data : ReminderData.t) :
  handleSubmit newDate props s = Some data ->
  (forall (id_ userId_ : string) (createdAt_ : Z),
     optionalFieldsTrack (App.newReminderOf data id_ userId_ createdAt_))
  /\ (forall r : Reminder, optionalFieldsTrack (App.spreadData r data))
  /\ (recurrence s = RecurrenceType.Weekly ->
      recurrenceEndMode s = RecurrenceEndMode.count ->
      recurrenceEndValue s = Num 5 ->
      (forall (id_ userId_ : string) (createdAt_ : Z),
         Types.recurrenceEndMode (App.newReminderOf data id_ userId_ createdAt_)
         = Value RecurrenceEndMode.count
         /\ Types.recurrenceEndValue
              (App.newReminderOf data id_ userId_ createdAt_)
            = Value (Num 5))
      /\ (forall r : Reminder,
            Types.recurrenceEndMode (App.spreadData r data)
            = Value RecurrenceEndMode.count
            /\ Types.recurrenceEndValue (App.spreadData r data)
               = Value (Num 5))).
Proof.
  intros H. apply handleSubmit_fields in H.
  destruct H as [Hrec [Hmeth [Hmode [Hval Hcontact]]]].
  unfold optionalFieldsTrack, absent.
  cbn [App.newReminderOf App.spreadData Types.recurrence Types.method
       Types.recurrenceEndMode Types.recurrenceEndValue Types.contactInfo].
  rewrite Hrec, Hmeth, Hmode, Hval, Hcontact.
  split; [| split].
  - intros _ _ _.
    destruct (recurrence s), (recurrenceEndMode s), (method s); cbn;
      repeat split; intros; congruence.
  - intros r.
    destruct (recurrence s), (recurrenceEndMode s), (method s); cbn;
      repeat split; intros; congruence.
  - intros -> -> ->. cbn. repeat split.
Qed.

End Submit.

Lemma submit_optional_fields_witness :
  exists data : ReminderData.t,
    handleSubmit (fun _ => 1710489600000) noProps weeklyForm = Some data
    /\ (forall r : Reminder,
          Types.recurrenceEndMode (App.spreadData r data)
          = Value RecurrenceEndMode.count
          /\ Types.recurrenceEndValue (App.spreadData r data) = Value (Num 5))
    /\ (forall r : Reminder,
          absent (Types.contactInfo (App.spreadData r data))).
Proof.
  eexists. split; [reflexivity |].
  destruct (submit_optional_fields (fun _ => 1710489600000) noProps weeklyForm
              _ eq_refl) as [_ [Htrack Hweekly]].
  split.
  - apply Hweekly; reflexivity.
  - intros r. apply (Htrack r). reflexivity.
Defined.

End ReminderWidgetSpec.

(* ================================================================= *)
(** ** The text-refinement service *)

Module GeminiServiceSpec.

Import GeminiService.

(** C9.  [refineReminderText] always returns a string and never throws;
    when the call to the model fails it returns its input unchanged. *)
Theorem refine_failure_returns_input
  (generateContent : string -> string -> Completion GenerateContentResponse)
  (text_ : string) :
  (exists out : string,
     refineReminderText generateContent text_ = Fulfilled out)
  /\ (forall error : string,
        generateContent model (refinePrompt text_) = Thrown error ->
        refineReminderText generateContent text_ = Fulfilled text_).
Proof.
  unfold refineReminderText. split.
  - destruct (generateContent model (refinePrompt text_)); eexists;
      reflexivity.
  - intros error ->. reflexivity.
Qed.

Example refine_success :
  refineReminderText
    (fun _ _ =>
       Fulfilled {| text := Some "  Call the dentist tomorrow. "%string |})
    "call   the dentist tmrw  "
  = Fulfilled "Call the dentist tomorrow."%string.
Proof. reflexivity. Qed.

Example refine_blank_answer :
  refineReminderText
    (fun _ _ => Fulfilled {| text := Some "   "%string |}) "note"
  = Fulfilled "note"%string.
Proof. reflexivity. Qed.

Lemma refine_failure_returns_input_witness :
  refineReminderText (fun _ _ => Thrown "503 Service Unavailable")
    "call   the dentist tmrw  "
  = Fulfilled "call   the dentist tmrw  "%string.
Proof.
  destruct (refine_failure_returns_input
              (fun _ _ => Thrown "503 Service Unavailable")
              "call   the dentist tmrw  ") as [_ H].
  apply (H "503 Service Unavailable"%string). reflexivity.
Defined.

End GeminiServiceSpec.
(* ================================================================= *)
(** ** More on the calendar: week view, navigation, cells *)

Module TimelineCalendarMore.

Import ESDate ESDateFacts D3Time D3TimeFacts Types TimelineCalendar.
Import CalendarTerms TimelineCalendarSpec.

(** On a host whose clocks skip the hour after midnight the week grid of
    the week that starts with the short day has eight cells: its first
    cell is at 01:00, and so is the end of the grid a week later, which
    lets the midnight of the next Sunday in. *)
Lemma getDays_week_eight_cells_midnightDST :
  List.length (getDays (host := midnightDST) (weekView 1694016000000 None))
  = 8%nat.
Proof. vm_compute. reflexivity. Qed.

Section Cells.

Context {tz : TimeZone}.

Lemma localMidnight_inj (a b : Z) : localMidnight a = localMidnight b -> a = b.
Proof. rewrite !localMidnight_eq. unfold msPerDay. lia. Qed.

Lemma In_midnights_iff (a : Z) (n : nat) (d : Date) :
  In d (midnights a n) <->
  exists k : Z, a <= k < a + Z.of_nat n /\ d = localMidnight k.
Proof.
  unfold midnights. rewrite in_map_iff. split.
  - intros [i [<- Hi]]. apply in_seq in Hi.
    exists (a + Z.of_nat i). split; [lia | reflexivity].
  - intros [k [Hk ->]]. exists (Z.to_nat (k - a)). split.
    + f_equal. lia.
    + apply in_seq. lia.
Qed.

Lemma NoDup_midnights (a : Z) (n : nat) : NoDup (midnights a n).
Proof.
  unfold midnights. apply NoDup_map_NoDup_ForallPairs.
  - intros i j _ _ E. apply localMidnight_inj in E. lia.
  - apply seq_NoDup.
Qed.

(** With an Invalid Date for anchor the grid is empty. *)
Lemma getDays_NaN (mode : ViewMode) (hovered : option string) :
  getDays {| currentDate := NaN; viewMode := mode;
             hoveredReminderId := hovered |} = [].
Proof. destruct mode; reflexivity. Qed.

(** Whatever the mode, the cells of the grid are distinct local midnights
    within the range of time values. *)
Lemma getDays_cells (s : State) :
  NoDup (getDays s)
  /\ forall day, In day (getDays s) ->
       exists k, day = localMidnight k /\ inRange (localMidnight k).
Proof.
  destruct s as [[| anchor] mode hovered].
  { rewrite getDays_NaN. split; [constructor | contradiction]. }
  destruct mode.
  - destruct (getDays_month_cases anchor hovered) as [E | [R0 [R1 E]]];
      rewrite E; [split; [constructor | contradiction] |].
    split; [apply NoDup_midnights |].
    intros day H. apply In_midnights_iff in H.
    destruct H as [k [Hk ->]]. exists k. split; [reflexivity |].
    apply (inRange_between _ _ k R0 R1). lia.
  - destruct (getDays_week_cases anchor hovered) as [E | [R0 [R1 E]]];
      rewrite E; [split; [constructor | contradiction] |].
    split; [apply NoDup_midnights |].
    intros day H. apply In_midnights_iff in H.
    destruct H as [k [Hk ->]]. exists k. split; [reflexivity |].
    apply (inRange_between _ _ k R0 R1). lia.
Qed.

(** [floor] of the day interval, and [count] through it. *)
Lemma floor_timeDay_cases (x : Date) :
  floor timeDay (Finite x) = NaN
  \/ (inRange (localMidnight (Day (LocalTime x)))
      /\ floor timeDay (Finite x)
         = Finite (localMidnight (Day (LocalTime x)))).
Proof.
  rewrite floor_eq, ofValue_Finite.
  destruct (TimeClip_cases x) as [[R E] | E]; rewrite E;
    [| left; reflexivity].
  rewrite floori_timeDay.
  destruct (TimeClip_cases (localMidnight (Day (LocalTime x))))
    as [[R1 E1] | E1]; rewrite E1; [right; now split | now left].
Qed.

Lemma floor_timeDay_cell (k : Z) :
  inRange (localMidnight k) ->
  floor timeDay (Finite (localMidnight k)) = Finite (localMidnight k).
Proof.
  intros R. rewrite (floor_timeDay_valid _ R); rewrite localDay_localMidnight;
    [reflexivity | exact R].
Qed.

Lemma counti_timeDay_localMidnight (a b : Z) :
  counti timeDay (Finite (localMidnight a)) (Finite (localMidnight b))
  = Finite (b - a).
Proof.
  cbn [counti timeDay DateObject.getTimezoneOffset JSNum.sub JSNum.mul
       JSNum.floorDiv].
  f_equal. unfold getTimezoneOffset.
  rewrite !LocalTime_eq, !localMidnight_eq.
  unfold durationMinute, durationDay, msPerMinute, msPerDay.
  Z.div_mod_to_equations. lia.
Qed.

Lemma count_timeDay_floors (x y : Date) :
  count timeDay (Finite x) (Finite y)
  = match floor timeDay (Finite x), floor timeDay (Finite y) with
    | Finite _, Finite _ => Finite (Day (LocalTime y) - Day (LocalTime x))
    | _, _ => NaN
    end.
Proof.
  rewrite count_eq, <- !floor_eq.
  destruct (floor_timeDay_cases x) as [E | [R E]]; rewrite E.
  { destruct (floor timeDay (Finite y)); reflexivity. }
  destruct (floor_timeDay_cases y) as [E1 | [R1 E1]]; rewrite E1;
    [reflexivity |].
  apply counti_timeDay_localMidnight.
Qed.

(** Counting from a cell, and to a cell. *)
Lemma count_from_cell (k : Z) (x : Date) :
  inRange (localMidnight k) ->
  JSNum.strictEq (count timeDay (Finite (localMidnight k)) (Finite x)) 0
  = true
  <-> floor timeDay (Finite x) = Finite (localMidnight k).
Proof.
  intros R. rewrite count_timeDay_floors, (floor_timeDay_cell k R).
  rewrite localDay_localMidnight.
  destruct (floor_timeDay_cases x) as [E | [R1 E]]; rewrite E.
  - cbn [JSNum.strictEq]. split; discriminate.
  - cbn [JSNum.strictEq]. rewrite Z.eqb_eq. split.
    + intros H. do 2 f_equal. lia.
    + intros H. injection H as H. apply localMidnight_inj in H. lia.
Qed.

Lemma count_to_cell (k : Z) (x : Date) :
  inRange (localMidnight k) ->
  JSNum.strictEq (count timeDay (Finite x) (Finite (localMidnight k))) 0
  = true
  <-> floor timeDay (Finite x) = Finite (localMidnight k).
Proof.
  intros R. rewrite count_timeDay_floors, (floor_timeDay_cell k R).
  rewrite localDay_localMidnight.
  destruct (floor_timeDay_cases x) as [E | [R1 E]]; rewrite E.
  - cbn [JSNum.strictEq]. split; discriminate.
  - cbn [JSNum.strictEq]. rewrite Z.eqb_eq. split.
    + intros H. do 2 f_equal. lia.
    + intros H. injection H as H. apply localMidnight_inj in H. lia.
Qed.

(** X1.  On a host whose zone has one offset, and for an anchor that is
    more than 40 days inside the range of time values, [getDays] in week
    mode returns exactly seven consecutive local days, the first a Sunday,
    and the day of the anchor is one of them. *)
Theorem getDays_week_grid (anchor : Date) (hovered : option string) :
  wellInside anchor ->
  List.length (getDays (weekView anchor hovered)) = 7%nat
  /\ (exists first : Z,
        first <= Day (LocalTime anchor) <= first + 6
        /\ getDays (weekView anchor hovered)
           = map (fun i => localMidnight (first + Z.of_nat i)) (seq 0 7))
  /\ (exists d : Date,
        hd_error (getDays (weekView anchor hovered)) = Some d
        /\ getDay d = 0 /\ d <= anchor)
  /\ (exists day : Date,
        floor timeDay anchor = Finite day
        /\ In day (getDays (weekView anchor hovered))).
Proof.
  intros W. destruct (wellInside_week anchor W) as [Rlo Rhi].
  unfold weekView. rewrite (getDays_week anchor hovered Rlo Rhi).
  pose proof (weekStart_bounds (Day (LocalTime anchor))) as B.
  pose proof (weekStart_sunday (Day (LocalTime anchor))) as S.
  pose proof (localMidnight_Day anchor) as LD.
  set (first := weekStart (Day (LocalTime anchor))) in *.
  split; [apply length_midnights |]. split; [| split].
  - exists first. split; [lia | reflexivity].
  - exists (localMidnight first). split; [| split].
    + unfold midnights. cbn [seq map hd_error Z.of_nat].
      now rewrite Z.add_0_r.
    + now rewrite getDay_localMidnight.
    + revert LD. rewrite !localMidnight_eq. unfold msPerDay. lia.
  - exists (localMidnight (Day (LocalTime anchor))). split.
    + apply floor_timeDay_valid.
      * apply (inRange_day _ _ anchor Rlo Rhi). lia.
      * apply (inRange_between _ _ _ Rlo Rhi). lia.
    + apply In_midnights. lia.
Qed.

Lemma weekStart_shift (n k : Z) : weekStart (n + k * 7) = weekStart n + k * 7.
Proof. unfold weekStart. Z.div_mod_to_equations. lia. Qed.

Lemma handleNav_week_eq (dir : Direction) (d : DateValue)
  (hovered : option string) :
  handleNav dir {| currentDate := d; viewMode := week;
                   hoveredReminderId := hovered |}
  = {| currentDate :=
         offset timeWeek d (match dir with prev => -1 | next => 1 end);
       viewMode := week; hoveredReminderId := hovered |}.
Proof. destruct dir; reflexivity. Qed.

Lemma handleNav_month_eq (dir : Direction) (d : DateValue)
  (hovered : option string) :
  handleNav dir {| currentDate := d; viewMode := month;
                   hoveredReminderId := hovered |}
  = {| currentDate :=
         offset timeMonth d (match dir with prev => -1 | next => 1 end);
       viewMode := month; hoveredReminderId := hovered |}.
Proof. destruct dir; reflexivity. Qed.

Lemma offset_timeWeek_valid (d : Date) (k : Z) :
  inRange d -> inRange (d + (k * 7) * msPerDay) ->
  offset timeWeek (Finite d) k = Finite (d + (k * 7) * msPerDay).
Proof.
  intros R R1. rewrite offset_eq, ofValue_Finite, (TimeClip_inRange _ R).
  now rewrite offseti_timeWeek, (TimeClip_inRange _ R1).
Qed.

(** X2.  On a host whose zone has one offset, and for an anchor that is
    more than 40 days inside the range of time values, week navigation
    moves the anchor by exactly seven days, keeps the mode, and shifts
    every cell of the grid by seven days; going forward and then back, or
    back and then forward, restores the state. *)
Theorem handleNav_week (anchor : Date) (hovered : option string) :
  wellInside anchor ->
  handleNav next (weekView anchor hovered)
  = weekView (anchor + 7 * msPerDay) hovered
  /\ handleNav prev (weekView anchor hovered)
     = weekView (anchor - 7 * msPerDay) hovered
  /\ handleNav prev (handleNav next (weekView anchor hovered))
     = weekView anchor hovered
  /\ handleNav next (handleNav prev (weekView anchor hovered))
     = weekView anchor hovered
  /\ getDays (handleNav next (weekView anchor hovered))
     = map (fun d => d + 7 * msPerDay) (getDays (weekView anchor hovered)).
Proof.
  intros W.
  assert (Hnav : forall (dir : Direction) (a : Date),
            - maxTime + 20 * msPerDay <= a <= maxTime - 20 * msPerDay ->
            handleNav dir (weekView a hovered)
            = weekView (a + match dir with prev => -7 | next => 7 end
                             * msPerDay) hovered).
  { intros dir a Ha. unfold weekView. rewrite handleNav_week_eq.
    rewrite offset_timeWeek_valid.
    - do 2 f_equal. destruct dir; unfold msPerDay; lia.
    - unfold inRange, msPerDay in *. lia.
    - unfold inRange, msPerDay in *. destruct dir; lia. }
  assert (Wa : - maxTime + 20 * msPerDay <= anchor
               <= maxTime - 20 * msPerDay)
    by (unfold wellInside, msPerDay in *; lia).
  pose proof (Hnav next anchor Wa) as Hn.
  pose proof (Hnav prev anchor Wa) as Hp.
  replace (anchor + -7 * msPerDay) with (anchor - 7 * msPerDay) in Hp by lia.
  split; [exact Hn |]. split; [exact Hp |]. split; [| split].
  - rewrite Hn, (Hnav prev)
      by (unfold wellInside, msPerDay in *; lia).
    do 2 f_equal. lia.
  - rewrite Hp, (Hnav next)
      by (unfold wellInside, msPerDay in *; lia).
    do 2 f_equal. lia.
  - rewrite Hn. unfold weekView.
    destruct (wellInside_week anchor W) as [Rlo Rhi].
    pose proof (localMidnight_Day anchor) as LD.
    pose proof (weekStart_bounds (Day (LocalTime anchor))) as SB.
    replace (LocalTime (anchor + 7 * msPerDay))
      with (LocalTime anchor + 1 * 7 * msPerDay) in *
      by (rewrite !LocalTime_eq; lia).
    rewrite (getDays_week anchor hovered Rlo Rhi).
    rewrite getDays_week.
    + replace (LocalTime (anchor + 7 * msPerDay))
        with (LocalTime anchor + 1 * 7 * msPerDay)
        by (rewrite !LocalTime_eq; lia).
      rewrite Day_shift, (weekStart_shift _ 1).
      unfold midnights. rewrite map_map. apply map_ext. intros i.
      rewrite localMidnight_shift. f_equal. lia.
    + replace (LocalTime (anchor + 7 * msPerDay))
        with (LocalTime anchor + 1 * 7 * msPerDay)
        by (rewrite !LocalTime_eq; lia).
      rewrite Day_shift, (weekStart_shift _ 1).
      revert SB LD. generalize (weekStart (Day (LocalTime anchor))).
      generalize (Day (LocalTime anchor)). intros n w SB LD.
      unfold wellInside, inRange in *. rewrite !localMidnight_eq in *.
      unfold msPerDay, maxTime in *. lia.
    + replace (LocalTime (anchor + 7 * msPerDay))
        with (LocalTime anchor + 1 * 7 * msPerDay)
        by (rewrite !LocalTime_eq; lia).
      rewrite Day_shift, (weekStart_shift _ 1).
      revert SB LD. generalize (weekStart (Day (LocalTime anchor))).
      generalize (Day (LocalTime anchor)). intros n w SB LD.
      unfold wellInside, inRange in *. rewrite !localMidnight_eq in *.
      unfold msPerDay, maxTime in *. lia.
Qed.

Lemma MakeDay_months (y m y' m' dt : Z) :
  12 * y + m = 12 * y' + m' -> MakeDay y m dt = MakeDay y' m' dt.
Proof.
  intros H. unfold MakeDay.
  assert (Hy : y + m / 12 = y' + m' / 12)
    by (Z.div_mod_to_equations; lia).
  assert (Hm : m mod 12 = m' mod 12) by (Z.div_mod_to_equations; lia).
  now rewrite Hy, Hm.
Qed.

Lemma DateFromTime_pos (t : Z) : 1 <= DateFromTime t.
Proof.
  pose proof (MonthFromTime_bracket t) as B. unfold DateFromTime.
  revert B.
  generalize (FirstDayOfMonth (MonthFromTime t + 1) (InLeapYear t)).
  generalize (FirstDayOfMonth (MonthFromTime t) (InLeapYear t)).
  generalize (DayWithinYear t). intros w f0 f1 B. lia.
Qed.

(** The fields of a date composed from a year, any month number and a date
    that every month has. *)
Lemma fields_of_MakeDay (y m dt t : Z) :
  1 <= dt <= 28 ->
  Day t = MakeDay y m dt ->
  YearFromTime t = y + m / 12 /\ MonthFromTime t = m mod 12
  /\ DateFromTime t = dt.
Proof.
  intros Hdt Hd.
  assert (Hm : 0 <= m mod 12 <= 11)
    by (pose proof (Z.mod_pos_bound m 12); lia).
  assert (L : 0 <= LeapOfYear (y + m / 12))
    by (destruct (LeapOfYear_cases (y + m / 12)) as [E | E]; rewrite E; lia).
  pose proof (FirstDayOfMonth_lt (m mod 12) (LeapOfYear (y + m / 12)) Hm L)
    as F.
  destruct (fields_of_day (y + m / 12) (m mod 12) (dt - 1) t) as [Hy [Hmo Hda]].
  - exact Hm.
  - lia.
  - revert F.
    generalize (FirstDayOfMonth (m mod 12 + 1) (LeapOfYear (y + m / 12))).
    generalize (FirstDayOfMonth (m mod 12) (LeapOfYear (y + m / 12))).
    intros f0 f1 F. lia.
  - rewrite Hd. unfold MakeDay.
    generalize (FirstDayOfMonth (m mod 12) (LeapOfYear (y + m / 12))).
    generalize (DayFromYear (y + m / 12)). intros dy f0. lia.
  - repeat split; trivial. lia.
Qed.

Lemma MakeDay_getters (d : Date) :
  MakeDay (getFullYear d) (getMonth d) (getDate d) = Day (LocalTime d).
Proof. apply MakeDay_fields. Qed.

Lemma setMonth_fields (d : Date) (k : Z) :
  getDate d <= 28 ->
  getFullYear (setMonth_time d (getMonth d + k))
  = getFullYear d + (getMonth d + k) / 12
  /\ getMonth (setMonth_time d (getMonth d + k)) = (getMonth d + k) mod 12
  /\ getDate (setMonth_time d (getMonth d + k)) = getDate d
  /\ TimeWithinDay (LocalTime (setMonth_time d (getMonth d + k)))
     = TimeWithinDay (LocalTime d).
Proof.
  intros H28. pose proof (DateFromTime_pos (LocalTime d)) as H1.
  pose proof (TimeWithinDay_range (LocalTime d)) as Ht.
  unfold getFullYear, getMonth, getDate, setMonth_time in *.
  rewrite LocalTime_UTC.
  destruct (fields_of_MakeDay (YearFromTime (LocalTime d))
              (MonthFromTime (LocalTime d) + k) (DateFromTime (LocalTime d))
              (MakeDate (MakeDay (YearFromTime (LocalTime d))
                           (MonthFromTime (LocalTime d) + k)
                           (DateFromTime (LocalTime d)))
                        (TimeWithinDay (LocalTime d))))
    as [Hy [Hm Hd]].
  - lia.
  - now apply Day_MakeDate.
  - repeat split; trivial. now apply TimeWithinDay_MakeDate.
Qed.

Lemma setMonth_back (d : Date) (k : Z) :
  getDate d <= 28 ->
  setMonth_time (setMonth_time d (getMonth d + k))
    (getMonth (setMonth_time d (getMonth d + k)) - k) = d.
Proof.
  intros H28. destruct (setMonth_fields d k H28) as [Hy [Hm [Hd Ht]]].
  rewrite (setMonth_time_eq (setMonth_time d (getMonth d + k))).
  rewrite Hy, Hd, Ht.
  rewrite (MakeDay_months _ _ (getFullYear d) (getMonth d))
    by (rewrite Hm; Z.div_mod_to_equations; lia).
  rewrite MakeDay_getters, MakeDate_Day. apply UTC_LocalTime.
Qed.

Lemma MakeDay_month_length (y m : Z) :
  0 <= m <= 11 -> MakeDay y m 1 + 28 <= MakeDay y (m + 1) 1.
Proof.
  intros Hm. rewrite MakeDay_in_range, MakeDay_next_month by exact Hm.
  assert (L : 0 <= LeapOfYear y)
    by (destruct (LeapOfYear_cases y) as [E | E]; rewrite E; lia).
  pose proof (FirstDayOfMonth_lt m (LeapOfYear y) Hm L) as F. revert F.
  generalize (FirstDayOfMonth (m + 1) (LeapOfYear y)).
  generalize (FirstDayOfMonth m (LeapOfYear y)).
  generalize (DayFromYear y). intros dy f0 f1 F. lia.
Qed.

Lemma MakeDay_month_length_le (y m : Z) :
  0 <= m <= 11 -> MakeDay y (m + 1) 1 <= MakeDay y m 1 + 31.
Proof.
  intros Hm. rewrite MakeDay_next_month, MakeDay_in_range by exact Hm.
  pose proof (LeapOfYear_cases y) as L. revert L.
  generalize (LeapOfYear y) (DayFromYear y). intros leap dy L.
  assert (C : m = 0 \/ m = 1 \/ m = 2 \/ m = 3 \/ m = 4 \/ m = 5 \/ m = 6
              \/ m = 7 \/ m = 8 \/ m = 9 \/ m = 10 \/ m = 11) by lia.
  repeat (destruct C as [-> | C]; [fdm_norm; lia |]).
  subst m. fdm_norm. lia.
Qed.

Lemma month_step_days (y m dt k : Z) :
  -1 <= k <= 1 -> 0 <= m <= 11 ->
  -31 <= MakeDay y (m + k) dt - MakeDay y m dt <= 31.
Proof.
  intros Hk Rm.
  pose proof (MakeDay_shift y (m + k) 1 (dt - 1)) as S1.
  pose proof (MakeDay_shift y m 1 (dt - 1)) as S0.
  replace (1 + (dt - 1)) with dt in S1, S0 by lia.
  rewrite S1, S0.
  assert (C : k = -1 \/ k = 0 \/ k = 1) by lia.
  destruct C as [-> | [-> | ->]].
  - assert (Hp : 0 <= (m - 1) mod 12 <= 11)
      by (pose proof (Z.mod_pos_bound (m - 1) 12); lia).
    pose proof (MakeDay_month_length (y + (m - 1) / 12) ((m - 1) mod 12) Hp)
      as PL.
    pose proof (MakeDay_month_length_le (y + (m - 1) / 12)
                  ((m - 1) mod 12) Hp) as PU.
    rewrite (MakeDay_months (y + (m - 1) / 12) ((m - 1) mod 12) y (m - 1))
      in PL, PU by (Z.div_mod_to_equations; lia).
    rewrite (MakeDay_months (y + (m - 1) / 12) ((m - 1) mod 12 + 1) y m)
      in PL, PU by (Z.div_mod_to_equations; lia).
    replace (m + -1) with (m - 1) by lia. lia.
  - replace (m + 0) with m by lia. lia.
  - pose proof (MakeDay_month_length y m Rm).
    pose proof (MakeDay_month_length_le y m Rm). lia.
Qed.

Lemma same_TimeWithinDay (a b : Z) :
  TimeWithinDay a = TimeWithinDay b ->
  a - Day a * msPerDay = b - Day b * msPerDay.
Proof.
  unfold TimeWithinDay, Day, msPerDay. intros H.
  Z.div_mod_to_equations. lia.
Qed.

(** [setMonth] by one month moves a date by 31 days at most. *)
Lemma setMonth_near (d : Date) (k : Z) :
  -1 <= k <= 1 ->
  getDate d <= 28 ->
  d - 31 * msPerDay <= setMonth_time d (getMonth d + k)
  <= d + 31 * msPerDay.
Proof.
  intros Hk H28. destruct (setMonth_fields d k H28) as [Hy [Hm [Hd Ht]]].
  pose proof (getMonth_range d) as Rm.
  revert Hy Hm Hd Ht. generalize (setMonth_time d (getMonth d + k)).
  intros d' Hy Hm Hd Ht.
  pose proof (MakeDay_getters d') as G. rewrite Hy, Hd in G.
  rewrite (MakeDay_months _ _ (getFullYear d) (getMonth d + k)) in G
    by (rewrite Hm; Z.div_mod_to_equations; lia).
  pose proof (MakeDay_getters d) as G0.
  pose proof (month_step_days (getFullYear d) (getMonth d) (getDate d) k
                Hk Rm) as S.
  rewrite G, G0 in S.
  apply same_TimeWithinDay in Ht.
  revert S Ht. rewrite !LocalTime_eq.
  generalize (Day (d' + LocalTZA)) (Day (d + LocalTZA)). intros n' n.
  unfold msPerDay. lia.
Qed.

Lemma offset_timeMonth_valid (d : Date) (k : Z) :
  inRange d -> inRange (setMonth_time d (getMonth d + k)) ->
  offset timeMonth (Finite d) k
  = Finite (setMonth_time d (getMonth d + k)).
Proof.
  intros R R1. rewrite offset_eq, ofValue_Finite, (TimeClip_inRange _ R).
  now rewrite offseti_timeMonth, (TimeClip_inRange _ R1).
Qed.

(** X3.  On a host whose zone has one offset, and for an anchor that is
    more than 40 days inside the range of time values: month navigation
    from a date that every month has (the 28th at the latest) lands on the
    same date and time of day in the adjacent month, carrying into the
    year; going forward and then back, or back and then forward, restores
    the state. *)
Theorem handleNav_month (anchor : Date) (hovered : option string) :
  wellInside anchor ->
  getDate anchor <= 28 ->
  (exists after : Date,
     handleNav next (monthView anchor hovered) = monthView after hovered
     /\ getFullYear after = getFullYear anchor + (getMonth anchor + 1) / 12
     /\ getMonth after = (getMonth anchor + 1) mod 12
     /\ getDate after = getDate anchor
     /\ TimeWithinDay (LocalTime after) = TimeWithinDay (LocalTime anchor)
     /\ handleNav prev (monthView after hovered)
        = monthView anchor hovered)
  /\ (exists before : Date,
        handleNav prev (monthView anchor hovered) = monthView before hovered
        /\ getFullYear before
           = getFullYear anchor + (getMonth anchor - 1) / 12
        /\ getMonth before = (getMonth anchor - 1) mod 12
        /\ getDate before = getDate anchor
        /\ handleNav next (monthView before hovered)
           = monthView anchor hovered).
Proof.
  intros W H28.
  assert (Ra : inRange anchor)
    by (unfold wellInside, inRange, msPerDay in *; lia).
  assert (Hnav : forall (dir : Direction),
            handleNav dir (monthView anchor hovered)
            = monthView
                (setMonth_time anchor
                   (getMonth anchor
                    + match dir with prev => -1 | next => 1 end))
                hovered).
  { intros dir. unfold monthView. rewrite handleNav_month_eq.
    rewrite offset_timeMonth_valid; [reflexivity | exact Ra |].
    pose proof (setMonth_near anchor
                  (match dir with prev => -1 | next => 1 end)
                  ltac:(destruct dir; lia) H28) as N.
    unfold wellInside, inRange, msPerDay in *. lia. }
  pose proof (setMonth_fields anchor 1 H28) as [Hy [Hm [Hd Ht]]].
  pose proof (setMonth_fields anchor (-1) H28) as [Hy' [Hm' [Hd' _]]].
  pose proof (setMonth_near anchor 1 ltac:(lia) H28) as N1.
  pose proof (setMonth_near anchor (-1) ltac:(lia) H28) as N2.
  split.
  - exists (setMonth_time anchor (getMonth anchor + 1)).
    split; [exact (Hnav next) |].
    split; [exact Hy |]. split; [exact Hm |]. split; [exact Hd |].
    split; [exact Ht |].
    unfold monthView. rewrite handleNav_month_eq.
    rewrite offset_timeMonth_valid.
    + do 2 f_equal.
      replace (getMonth (setMonth_time anchor (getMonth anchor + 1)) + -1)
        with (getMonth (setMonth_time anchor (getMonth anchor + 1)) - 1)
        by lia.
      now apply setMonth_back.
    + unfold wellInside, inRange, msPerDay in *. lia.
    + replace (getMonth (setMonth_time anchor (getMonth anchor + 1)) + -1)
        with (getMonth (setMonth_time anchor (getMonth anchor + 1)) - 1)
        by lia.
      rewrite setMonth_back by exact H28. exact Ra.
  - exists (setMonth_time anchor (getMonth anchor + -1)).
    split; [exact (Hnav prev) |].
    replace (getMonth anchor - 1) with (getMonth anchor + -1) by lia.
    split; [exact Hy' |]. split; [exact Hm' |]. split; [exact Hd' |].
    unfold monthView. rewrite handleNav_month_eq.
    rewrite offset_timeMonth_valid.
    + do 2 f_equal.
      replace (getMonth (setMonth_time anchor (getMonth anchor + -1)) + 1)
        with (getMonth (setMonth_time anchor (getMonth anchor + -1)) - -1)
        by lia.
      now apply setMonth_back.
    + unfold wellInside, inRange, msPerDay in *. lia.
    + replace (getMonth (setMonth_time anchor (getMonth anchor + -1)) + 1)
        with (getMonth (setMonth_time anchor (getMonth anchor + -1)) - -1)
        by lia.
      rewrite setMonth_back by exact H28. exact Ra.
Qed.

End Cells.

Section Marks.

Context {tz : TimeZone}.

Lemma isToday_eq (now day : Date) :
  isToday now day
  = JSNum.strictEq (count timeDay (Finite now) (Finite day)) 0.
Proof. reflexivity. Qed.

Lemma dayReminders_eq (reminders : list Reminder) (day : Date) :
  dayReminders reminders day
  = filter (fun r =>
              JSNum.strictEq
                (count timeDay (Finite day) (Finite (date r))) 0)
      reminders.
Proof. reflexivity. Qed.

(** X4.  On a host whose zone has one offset: among the cells of the grid,
    in either mode, the one marked as today is the local midnight of the
    current day and no other; the cells are distinct, so at most one is
    marked, and in a month view of the current month, anchored more than
    40 days inside the range of time values, one is. *)
Theorem isToday_marks_one_cell (s : State) (now : Date) :
  NoDup (getDays s)
  /\ (forall day : Date,
        In day (getDays s) ->
        (isToday now day = true <-> floor timeDay now = Finite day))
  /\ (forall anchor : Date,
        currentDate s = Finite anchor ->
        viewMode s = month ->
        wellInside anchor ->
        getFullYear now = getFullYear anchor ->
        getMonth now = getMonth anchor ->
        exists day : Date, In day (getDays s) /\ isToday now day = true).
Proof.
  destruct (getDays_cells s) as [Hnd Hcells].
  assert (Hiff : forall day : Date,
            In day (getDays s) ->
            (isToday now day = true <-> floor timeDay now = Finite day)).
  { intros day Hday. destruct (Hcells day Hday) as [k [-> R]].
    rewrite isToday_eq. now apply count_to_cell. }
  split; [exact Hnd |]. split; [exact Hiff |].
  intros anchor Ha Hmode W Hy Hm.
  exists (localMidnight (Day (LocalTime now))).
  destruct s as [d mode hovered].
  cbn [TimelineCalendar.viewMode currentDate] in Ha, Hmode. subst d mode.
  destruct (month_days_in_grid anchor hovered now W Hy Hm) as [F Hin].
  split; [exact Hin |]. apply (Hiff _ Hin). exact F.
Qed.

(** X6.  On a host whose zone has one offset: among the cells of the grid
    a reminder is listed in the cell of the local day of its timestamp and
    in no other, so never twice; in a month view anchored more than 40
    days inside the range of time values every reminder of that month is
    listed. *)
Theorem dayReminders_one_cell (reminders : list Reminder) (s : State)
  (r : Reminder) :
  (forall day : Date,
     In day (getDays s) ->
     (In r (dayReminders reminders day) <->
      In r reminders /\ floor timeDay (date r) = Finite day))
  /\ (forall day1 day2 : Date,
        In day1 (getDays s) -> In day2 (getDays s) ->
        In r (dayReminders reminders day1) ->
        In r (dayReminders reminders day2) ->
        day1 = day2)
  /\ (forall anchor : Date,
        currentDate s = Finite anchor ->
        viewMode s = month ->
        wellInside anchor ->
        In r reminders ->
        getFullYear (date r) = getFullYear anchor ->
        getMonth (date r) = getMonth anchor ->
        exists day : Date,
          In day (getDays s) /\ In r (dayReminders reminders day)).
Proof.
  destruct (getDays_cells s) as [_ Hcells].
  assert (Hiff : forall day : Date,
            In day (getDays s) ->
            (In r (dayReminders reminders day) <->
             In r reminders /\ floor timeDay (date r) = Finite day)).
  { intros day Hday. destruct (Hcells day Hday) as [k [-> R]].
    rewrite dayReminders_eq, filter_In.
    now rewrite (count_from_cell k (date r) R). }
  split; [exact Hiff |]. split.
  - intros day1 day2 H1 H2 R1 R2.
    apply (Hiff day1 H1) in R1. apply (Hiff day2 H2) in R2.
    destruct R1 as [_ E1]. destruct R2 as [_ E2].
    rewrite E1 in E2. now injection E2.
  - intros anchor Ha Hmode W Hr Hy Hm.
    exists (localMidnight (Day (LocalTime (date r)))).
    destruct s as [d mode hovered].
    cbn [TimelineCalendar.viewMode currentDate] in Ha, Hmode. subst d mode.
    destruct (month_days_in_grid anchor hovered (date r) W Hy Hm)
      as [F Hin].
    split; [exact Hin |]. apply (Hiff _ Hin). split; [exact Hr | exact F].
Qed.

(** A day between the first of a month and the first of the next is in
    that month. *)
Lemma fields_in_month (y m t : Z) :
  0 <= m <= 11 ->
  MakeDay y m 1 <= Day t < MakeDay y (m + 1) 1 ->
  YearFromTime t = y /\ MonthFromTime t = m.
Proof.
  intros Hm. rewrite MakeDay_in_range, MakeDay_next_month by exact Hm.
  intros B.
  destruct (fields_of_day y m
              (Day t - (DayFromYear y + FirstDayOfMonth m (LeapOfYear y))) t)
    as [Hy [Hmo _]]; trivial.
  - revert B. generalize (FirstDayOfMonth m (LeapOfYear y)).
    generalize (FirstDayOfMonth (m + 1) (LeapOfYear y)).
    generalize (DayFromYear y). intros dy f1 f0 B. lia.
  - revert B. generalize (FirstDayOfMonth m (LeapOfYear y)).
    generalize (FirstDayOfMonth (m + 1) (LeapOfYear y)).
    generalize (DayFromYear y). intros dy f1 f0 B. lia.
  - generalize (FirstDayOfMonth m (LeapOfYear y)).
    generalize (DayFromYear y). intros dy f0. lia.
  - now split.
Qed.

(** The months adjacent to month [m] of year [y], with the year carried. *)
Lemma fields_in_adjacent_month (y m k t : Z) :
  0 <= m <= 11 ->
  MakeDay y (m + k) 1 <= Day t < MakeDay y (m + k + 1) 1 ->
  YearFromTime t = y + (m + k) / 12 /\ MonthFromTime t = (m + k) mod 12.
Proof.
  intros Hm B. apply fields_in_month.
  - pose proof (Z.mod_pos_bound (m + k) 12). lia.
  - rewrite (MakeDay_months (y + (m + k) / 12) ((m + k) mod 12) y (m + k))
      by (Z.div_mod_to_equations; lia).
    rewrite (MakeDay_months (y + (m + k) / 12) ((m + k) mod 12 + 1)
               y (m + k + 1))
      by (Z.div_mod_to_equations; lia).
    exact B.
Qed.

(** On the month grid the month number of a day tells its year: the
    padding days are of the adjacent months. *)
Lemma year_of_grid_day (y m k t : Z) :
  0 <= m <= 11 ->
  weekStart (MakeDay y m 1) <= k < weekCeil (MakeDay y (m + 1) 1) ->
  Day t = k ->
  MonthFromTime t = m ->
  YearFromTime t = y.
Proof.
  intros Hm Hk Dk Hmonth.
  pose proof (weekStart_bounds (MakeDay y m 1)) as SB.
  pose proof (weekCeil_bounds (MakeDay y (m + 1) 1)) as CB.
  destruct (Z.lt_ge_cases k (MakeDay y m 1)) as [Hlo | Hlo].
  - (* a padding day before the month *)
    exfalso.
    assert (Hp : 0 <= (m - 1) mod 12 <= 11)
      by (pose proof (Z.mod_pos_bound (m - 1) 12); lia).
    pose proof (MakeDay_month_length (y + (m - 1) / 12) ((m - 1) mod 12) Hp)
      as PL.
    rewrite (MakeDay_months (y + (m - 1) / 12) ((m - 1) mod 12) y (m - 1))
      in PL by (Z.div_mod_to_equations; lia).
    rewrite (MakeDay_months (y + (m - 1) / 12) ((m - 1) mod 12 + 1) y m)
      in PL by (Z.div_mod_to_equations; lia).
    destruct (fields_in_adjacent_month y m (-1) t) as [_ Hmo];
      [exact Hm | |].
    + rewrite Dk. replace (m + -1) with (m - 1) by lia.
      replace (m - 1 + 1) with m by lia. lia.
    + rewrite Hmo in Hmonth. revert Hmonth. clear.
      Z.div_mod_to_equations. lia.
  - destruct (Z.lt_ge_cases k (MakeDay y (m + 1) 1)) as [Hhi | Hhi].
    + (* a day of the month *)
      destruct (fields_in_month y m t) as [Hy _];
        [exact Hm | rewrite Dk; lia | exact Hy].
    + (* a padding day after the month *)
      exfalso.
      assert (Hn : 0 <= (m + 1) mod 12 <= 11)
        by (pose proof (Z.mod_pos_bound (m + 1) 12); lia).
      pose proof (MakeDay_month_length (y + (m + 1) / 12) ((m + 1) mod 12) Hn)
        as NL.
      rewrite (MakeDay_months (y + (m + 1) / 12) ((m + 1) mod 12) y (m + 1))
        in NL by (Z.div_mod_to_equations; lia).
      rewrite (MakeDay_months (y + (m + 1) / 12) ((m + 1) mod 12 + 1)
                 y (m + 1 + 1))
        in NL by (Z.div_mod_to_equations; lia).
      destruct (fields_in_adjacent_month y m 1 t) as [_ Hmo];
        [exact Hm | |].
      * rewrite Dk. lia.
      * rewrite Hmo in Hmonth. revert Hmonth. clear.
        Z.div_mod_to_equations. lia.
Qed.

Lemma isCurrentMonth_monthView (anchor : Date) (hovered : option string)
  (day : Date) :
  isCurrentMonth (monthView anchor hovered) day
  = (getMonth day =? getMonth anchor).
Proof. reflexivity. Qed.


End Marks.

Section Jump.

Context {tz : TimeZone}.
Variable reminders : list Reminder.

(** The state that [resetView] leaves: a month view, anchored at a
    reminder due soonest at or after [now] or, failing one, at [now]. *)
Lemma resetView_result (now : Date) (s : State) :
  exists anchor : Date,
    resetView reminders now s = monthView anchor (hoveredReminderId s)
    /\ ((exists upcoming,
           In upcoming reminders /\ now <= date upcoming
           /\ (forall r, In r reminders -> now <= date r ->
                         date upcoming <= date r)
           /\ anchor = date upcoming)
        \/ ((forall r, In r reminders -> date r < now) /\ anchor = now)).
Proof.
  unfold resetView.
  destruct (JSArray.some (fun r => now <? date r) reminders) eqn:Esome.
  - apply some_upcoming in Esome. destruct Esome as [r0 [Hr0 Hlt0]].
    assert (Hlen : (0 <? Z.of_nat (List.length reminders)) = true).
    { apply Z.ltb_lt. destruct reminders; [contradiction | cbn; lia]. }
    rewrite Hlen. cbn [andb].
    set (due := filter (fun r => now <=? date r) reminders).
    assert (Hdue : forall r, In r due <-> In r reminders /\ now <= date r).
    { intro r. unfold due. rewrite filter_In, Z.leb_le. reflexivity. }
    assert (Hne : due <> []).
    { intros E. assert (H : In r0 due) by (apply Hdue; split; [trivial | lia]).
      rewrite E in H. contradiction. }
    pose proof (JSArrayFacts.sort_nonempty (fun r => getTime (date r)) due Hne)
      as Hhd.
    destruct (hd_error
                (JSArray.sort (fun a b => getTime (date a) - getTime (date b))
                   due)) as [upcoming |] eqn:Ehd; [| congruence].
    apply (JSArrayFacts.hd_sort_least (fun r => getTime (date r))) in Ehd.
    destruct Ehd as [Hin Hleast]. apply Hdue in Hin. destruct Hin as [Hin Hge].
    exists (date upcoming). split; [reflexivity |]. left.
    exists upcoming. repeat split; trivial.
    intros r Hr Hrge. apply (Hleast r). apply Hdue. now split.
  - rewrite Bool.andb_false_r. exists now. split; [reflexivity |].
    destruct (existsb (fun r => now <=? date r) reminders) eqn:Eat.
    + apply existsb_exists in Eat. destruct Eat as [r [Hr Hge]].
      apply Z.leb_le in Hge. left. exists r.
      assert (Hle : date r <= now).
      { destruct (Z.le_gt_cases (date r) now) as [L | G]; [exact L |].
        assert (JSArray.some (fun r => now <? date r) reminders = true)
          by (apply some_upcoming; exists r; split; trivial; lia).
        congruence. }
      repeat split; trivial; [| lia]. intros r' _ Hr'. lia.
    + right. split; [| reflexivity]. intros r Hr.
      destruct (Z.lt_ge_cases (date r) now) as [L | G]; [exact L |].
      assert (existsb (fun r => now <=? date r) reminders = true)
        by (apply existsb_exists; exists r; split; trivial;
            now apply Z.leb_le).
      congruence.
Qed.

(** X7.  On a host whose zone has one offset, with reminders that are
    due more than 40 days inside the range of time values: after
    [resetView], when a reminder is due at or after the current instant,
    one that is due soonest has its cell in the grid.  The cell counts it
    among its reminders and, when it has no more than four, lists it. *)
Theorem resetView_shows_upcoming (now : Date) (s : State) :
  (forall r, In r reminders -> wellInside (date r)) ->
  (exists r, In r reminders /\ now <= date r) ->
  exists (upcoming : Reminder) (day : Date),
    In upcoming reminders
    /\ now <= date upcoming
    /\ (forall r, In r reminders -> now <= date r ->
                  date upcoming <= date r)
    /\ In day (getDays (resetView reminders now s))
    /\ In upcoming (dayReminders reminders day)
    /\ ((List.length (dayReminders reminders day) <= 4)%nat ->
        In upcoming (shownReminders reminders day)).
Proof.
  intros Hwell [r0 [Hr0 Hge0]].
  destruct (resetView_result now s) as [anchor [-> [H | [Hnone _]]]].
  - destruct H as [upcoming [Hin [Hge [Hleast ->]]]].
    exists upcoming, (localMidnight (Day (LocalTime (date upcoming)))).
    split; [exact Hin |]. split; [exact Hge |]. split; [exact Hleast |].
    destruct (month_days_in_grid (date upcoming) (hoveredReminderId s)
                (date upcoming) (Hwell _ Hin) eq_refl eq_refl) as [F Hcell].
    split; [exact Hcell |].
    assert (Hlisted : In upcoming
                        (dayReminders reminders
                           (localMidnight
                              (Day (LocalTime (date upcoming)))))).
    { rewrite dayReminders_eq. apply filter_In. split; [exact Hin |].
      apply count_from_cell; [| exact F].
      destruct (getDays_cells
                  (monthView (date upcoming) (hoveredReminderId s)))
        as [_ Hcells].
      destruct (Hcells _ Hcell) as [k [Ek Rk]]. now rewrite Ek. }
    split; [exact Hlisted |].
    intros Hfew. unfold shownReminders, JSArray.slice.
    cbn [skipn Nat.sub]. now rewrite firstn_all2.
  - specialize (Hnone r0 Hr0). lia.
Qed.

End Jump.

(** Where the clocks are put forward, a week later is an hour less than
    seven days later: from noon of 2024-03-09 to noon of 2024-03-16. *)
Example handleNav_week_springForward :
  handleNav (host := springForward) next (weekView 1710003600000 None)
  = weekView (1710003600000 + 7 * msPerDay - msPerHour) None.
Proof. reflexivity. Qed.

Lemma getDays_week_grid_witness :
  List.length
    (getDays (host := fixedOffset (tz := zonePlus2))
       (weekView 1710545400000 None)) = 7%nat.
Proof.
  destruct (getDays_week_grid (tz := zonePlus2) 1710545400000 None)
    as [H _].
  - vm_compute. split; discriminate.
  - exact H.
Defined.

Lemma handleNav_week_witness :
  handleNav (host := fixedOffset (tz := zonePlus2)) prev
    (handleNav (host := fixedOffset (tz := zonePlus2)) next
       (weekView 1710545400000 None))
  = weekView 1710545400000 None.
Proof.
  destruct (handleNav_week (tz := zonePlus2) 1710545400000 None)
    as [_ [_ [H _]]].
  - vm_compute. split; discriminate.
  - exact H.
Defined.

Lemma resetView_shows_upcoming_witness :
  let rs := [reminderAt "a" 100; reminderAt "b" 1710545400000;
             reminderAt "c" 1710000000000] in
  exists (upcoming : Reminder) (day : Date),
    In upcoming rs
    /\ In day (getDays (host := fixedOffset (tz := zonePlus2))
                 (resetView rs 1700000000000 (weekView 0 None)))
    /\ In upcoming
         (shownReminders (host := fixedOffset (tz := zonePlus2)) rs day).
Proof.
  intros rs.
  destruct (resetView_shows_upcoming (tz := zonePlus2) rs 1700000000000
              (weekView 0 None))
    as [u [day [H1 [_ [_ [H2 [H3 H4]]]]]]].
  - intros r [<- | [<- | [<- | []]]]; vm_compute; split; discriminate.
  - exists (reminderAt "c" 1710000000000). split.
    + right. right. left. reflexivity.
    + cbn. lia.
  - exists u, day. split; [exact H1 |]. split; [exact H2 |].
    apply H4.
    apply (Nat.le_trans _ (List.length rs)); [| cbn; lia].
    rewrite dayReminders_eq. apply filter_length_le.
Defined.

Lemma isToday_marks_one_cell_witness :
  exists day : Date,
    In day (getDays (host := fixedOffset (tz := zonePlus2))
              (monthView
                 (localDate (host := fixedOffset (tz := zonePlus2))
                    2024 2 1 9 0 0 0) None))
    /\ isToday (host := fixedOffset (tz := zonePlus2))
         (localDate (host := fixedOffset (tz := zonePlus2))
            2024 2 15 23 30 0 0) day = true.
Proof.
  destruct (isToday_marks_one_cell (tz := zonePlus2)
              (monthView
                 (localDate (host := fixedOffset (tz := zonePlus2))
                    2024 2 1 9 0 0 0) None)
              (localDate (host := fixedOffset (tz := zonePlus2))
                 2024 2 15 23 30 0 0))
    as [_ [_ H]].
  apply (H (localDate (host := fixedOffset (tz := zonePlus2))
              2024 2 1 9 0 0 0)).
  - reflexivity.
  - reflexivity.
  - vm_compute. split; discriminate.
  - reflexivity.
  - reflexivity.
Defined.

Lemma dayReminders_one_cell_witness :
  let r := reminderAt "a"
             (localDate (host := fixedOffset (tz := zonePlus2))
                2024 2 15 23 30 0 0) in
  exists day : Date,
    In day (getDays (host := fixedOffset (tz := zonePlus2))
              (monthView
                 (localDate (host := fixedOffset (tz := zonePlus2))
                    2024 2 1 9 0 0 0) None))
    /\ In r (dayReminders (host := fixedOffset (tz := zonePlus2)) [r] day).
Proof.
  intros r.
  destruct (dayReminders_one_cell (tz := zonePlus2) [r]
              (monthView
                 (localDate (host := fixedOffset (tz := zonePlus2))
                    2024 2 1 9 0 0 0) None)
              r) as [_ [_ H]].
  apply (H (localDate (host := fixedOffset (tz := zonePlus2))
              2024 2 1 9 0 0 0)).
  - reflexivity.
  - reflexivity.
  - vm_compute. split; discriminate.
  - left. reflexivity.
  - reflexivity.
  - reflexivity.
Defined.


Lemma handleNav_month_witness :
  handleNav (host := fixedOffset (tz := zonePlus2)) prev
    (handleNav (host := fixedOffset (tz := zonePlus2)) next
       (monthView
          (localDate (host := fixedOffset (tz := zonePlus2))
             2024 11 15 9 30 0 0) None))
  = monthView
      (localDate (host := fixedOffset (tz := zonePlus2)) 2024 11 15 9 30 0 0)
      None.
Proof.
  destruct (handleNav_month (tz := zonePlus2)
              (localDate (host := fixedOffset (tz := zonePlus2))
                 2024 11 15 9 30 0 0) None)
    as [[after [E [_ [_ [_ [_ H]]]]]] _].
  - vm_compute. split; discriminate.
  - vm_compute. discriminate.
  - rewrite E. exact H.
Defined.

End TimelineCalendarMore.

(* ================================================================= *)
(** ** More on the entry store: the other handlers, sessions *)

Module AppMore.

Import Types App AppTerms AppSpec.

(** Unfold a handler run in a state given field by field. *)
Ltac run_handler :=
  unfold after, alerted, run, handleSaveReminder, handleConfirmReplace,
    handleCancelReplace, openCreateWidget, openEditWidget, closeWidget,
    handleDeleteReminder, handleToggleComplete, handleLogin, handleLogout,
    createReminder, setViewMode, setSearchQuery in *;
  cbn [bind ret update alert pending alerts snd fst
       setUser setReminders setShowWidget setEditingReminder
       setInitialWidgetDate setPendingReminderData setShowReplaceDialog
       user reminders showWidget viewMode searchQuery editingReminder
       initialWidgetDate pendingReminderData showReplaceDialog] in *.

Lemma reachable_invariant (P : State -> Prop) :
  P initialState ->
  (forall s s', P s -> step s s' -> P s') ->
  forall s, reachable s -> P s.
Proof.
  intros Hinit Hstep s Hs. induction Hs as [| s s' _ IH Hss'].
  - exact Hinit.
  - exact (Hstep s s' IH Hss').
Qed.

Lemma withinQuota_step (s s' : State) :
  withinQuota s -> step s s' -> withinQuota s'.
Proof.
  unfold withinQuota, quota. intros H Hstep.
  destruct Hstep; destruct s as [u rs sw vm sq ed iw pd dl]; run_handler.
  - (* save *)
    destruct ed as [e |]; run_handler.
    + now rewrite length_map.
    + destruct (User.isTemp u) eqn:Et; cbn [andb negb].
      * destruct (Z.leb_spec 1 (Z.of_nat (List.length rs))); run_handler;
          rewrite ?Et, ?length_app; cbn [List.length]; lia.
      * destruct (Z.leb_spec 50 (Z.of_nat (List.length rs))); run_handler;
          rewrite ?Et, ?length_app; cbn [List.length]; lia.
  - (* confirm *)
    destruct pd as [d |]; run_handler; [| exact H].
    cbn. destruct (User.isTemp u); lia.
  - exact H.
  - exact H.
  - destruct (find _ rs); run_handler; exact H.
  - exact H.
  - (* delete *)
    assert (L : (List.length (filter (fun r => negb (id r =? id_)%string) rs)
                 <= List.length rs)%nat) by apply filter_length_le.
    destruct ed as [e |]; [destruct (id e =? id_)%string |];
      run_handler; exact (Nat.le_trans _ _ _ L H).
  - now rewrite length_map.
  - (* login *)
    rewrite length_map. cbn [User.isTemp]. destruct (User.isTemp u); lia.
  - cbn. lia.
  - exact H.
  - exact H.
Qed.

(** X13.  In every state of a session the number of entries is within the
    quota of the account: at most 1 for a guest, at most 50 otherwise. *)
Theorem reachable_withinQuota (s : State) :
  reachable s ->
  (List.length (reminders s) <= if User.isTemp (user s) then 1 else 50)%nat.
Proof.
  intros Hs.
  apply (reachable_invariant withinQuota); trivial.
  - unfold withinQuota. vm_compute. lia.
  - apply withinQuota_step.
Qed.

Lemma dialogTracksPending_step (s s' : State) :
  dialogTracksPending s -> step s s' -> dialogTracksPending s'.
Proof.
  unfold dialogTracksPending. intros [Hshown Hhidden] Hstep.
  destruct Hstep; destruct s as [u rs sw vm sq ed iw pd dl]; run_handler;
    try (split; assumption).
  - (* save *)
    destruct ed as [e |]; run_handler; [split; assumption |].
    destruct (User.isTemp u); cbn [andb negb].
    + destruct (1 <=? Z.of_nat (List.length rs)); run_handler;
        [| split; assumption].
      split; [intros _; now exists data | discriminate].
    + destruct (50 <=? Z.of_nat (List.length rs)); run_handler;
        split; assumption.
  - (* confirm *)
    destruct pd as [d |]; run_handler; [| split; assumption].
    split; [discriminate | reflexivity].
  - split; [discriminate | reflexivity].
  - destruct (find _ rs); run_handler; split; assumption.
  - destruct ed as [e |]; [destruct (id e =? id_)%string |];
      run_handler; split; assumption.
Qed.

(** X14.  In every state of a session the replace dialog is shown exactly
    when submitted data are held for it. *)
Theorem reachable_dialogTracksPending (s : State) :
  reachable s ->
  (showReplaceDialog s = true <-> pendingReminderData s <> None).
Proof.
  intros Hs.
  assert (H : dialogTracksPending s).
  { apply (reachable_invariant dialogTracksPending); trivial.
    - split; [discriminate | reflexivity].
    - apply dialogTracksPending_step. }
  destruct H as [Hshown Hhidden]. split.
  - intros E. destruct (Hshown E) as [data ->]. discriminate.
  - intros N. destruct (showReplaceDialog s); [reflexivity |].
    now specialize (Hhidden eq_refl).
Qed.

Lemma editTargetExists_step (s s' : State) :
  editTargetExists s -> step s s' -> editTargetExists s'.
Proof.
  unfold editTargetExists. intros H Hstep.
  destruct Hstep; destruct s as [u rs sw vm sq ed iw pd dl]; run_handler;
    try exact H; try discriminate.
  - (* save *)
    destruct ed as [e |]; run_handler; [discriminate |].
    destruct (User.isTemp u); cbn [andb negb].
    + destruct (1 <=? Z.of_nat (List.length rs)); run_handler;
        [exact H | discriminate].
    + destruct (50 <=? Z.of_nat (List.length rs)); run_handler;
        [exact H | discriminate].
  - (* confirm *)
    destruct pd as [d |]; run_handler; [discriminate | exact H].
  - (* open edit *)
    destruct (find (fun r => (id r =? id_)%string) rs) as [r |] eqn:F;
      run_handler; [| exact H].
    intros editing E. injection E as <-. split; [reflexivity |].
    apply find_some in F. exists r. split; [apply F | reflexivity].
  - (* delete *)
    destruct ed as [e |]; [| run_handler; discriminate].
    destruct (String.eqb_spec (id e) id_) as [E | N]; run_handler;
      [discriminate |].
    intros editing Ee. injection Ee as <-.
    destruct (H e eq_refl) as [Hsw [r [Hr Hid]]].
    split; [exact Hsw |]. exists r. split; [| exact Hid].
    apply filter_In. split; [exact Hr |].
    rewrite Hid. apply Bool.negb_true_iff. now apply String.eqb_neq.
  - (* toggle *)
    intros editing E. destruct (H editing E) as [Hsw [r [Hr Hid]]].
    split; [exact Hsw |].
    exists (if (id r =? id_)%string
            then withCompleted r (negb (completed r)) else r).
    split.
    + apply in_map_iff. exists r. now split.
    + destruct (id r =? id_)%string; exact Hid.
  - (* login *)
    intros editing E. destruct (H editing E) as [Hsw [r [Hr Hid]]].
    split; [exact Hsw |]. exists (withUserId r "migrated"). split.
    + apply in_map_iff. exists r. now split.
    + exact Hid.
Qed.

(** X15.  In every state of a session, while an entry is being edited the
    widget is open and the collection holds an entry with the id of the
    edited one: an edit-submit never misses its target. *)
Theorem reachable_editTargetExists (s : State) (editing : Reminder) :
  reachable s ->
  editingReminder s = Some editing ->
  showWidget s = true
  /\ exists r : Reminder, In r (reminders s) /\ id r = id editing.
Proof.
  intros Hs. revert editing.
  apply (reachable_invariant editTargetExists); trivial.
  - intros editing. discriminate.
  - apply editTargetExists_step.
Qed.

Lemma onClick_CreateAccount_name (p : UserProfile.State) (name_ : string) :
  fst (UserProfile.onClick UserProfile.CreateAccount p)
  = Some (UserProfile.onLogin name_) ->
  name_ <> ""%string.
Proof.
  unfold UserProfile.onClick.
  destruct (String.eqb_spec (UserProfile.tempName p) "") as [E | N];
    cbn [fst]; [discriminate |].
  intros H. injection H as <-. exact N.
Qed.

Lemma identityKnown_step (s s' : State) :
  identityKnown s -> step s s' -> identityKnown s'.
Proof.
  unfold identityKnown. intros H Hstep.
  destruct Hstep; destruct s as [u rs sw vm sq ed iw pd dl]; run_handler;
    try exact H.
  - destruct ed as [e |]; run_handler; [exact H |].
    destruct (User.isTemp u && (1 <=? Z.of_nat (List.length rs)));
      [| destruct (negb (User.isTemp u)
                   && (50 <=? Z.of_nat (List.length rs)))];
      run_handler; exact H.
  - destruct pd as [d |]; run_handler; exact H.
  - destruct (find _ rs); run_handler; exact H.
  - destruct ed as [e |]; [destruct (id e =? id_)%string |];
      run_handler; exact H.
  - (* login *)
    cbn. split; [discriminate |]. intros _.
    now apply (onClick_CreateAccount_name p).
  - (* logout *)
    cbn. split; [reflexivity | discriminate].
Qed.

(** X16.  In every state of a session a temporary user is the fixed guest
    identity, and any other user has a name that is not empty: the profile
    menu never logs in under an empty name. *)
Theorem reachable_identityKnown (s : State) :
  reachable s ->
  (User.isTemp (user s) = true -> user s = guest)
  /\ (User.isTemp (user s) = false -> User.name (user s) <> ""%string).
Proof.
  intros Hs.
  apply (reachable_invariant identityKnown); trivial.
  - split; [reflexivity | discriminate].
  - apply identityKnown_step.
Qed.

Lemma ownedOrMigrated_step (s s' : State) :
  ownedOrMigrated s -> step s s' -> ownedOrMigrated s'.
Proof.
  unfold ownedOrMigrated. intros H Hstep.
  destruct Hstep; destruct s as [u rs sw vm sq ed iw pd dl]; run_handler;
    try exact H.
  - (* save *)
    destruct ed as [e |]; run_handler.
    + intros r Hr. apply in_map_iff in Hr. destruct Hr as [r0 [<- Hr0]].
      destruct (id r0 =? id e)%string; [cbn |]; now apply H.
    + destruct (User.isTemp u); cbn [andb negb].
      * destruct (1 <=? Z.of_nat (List.length rs)); run_handler;
          [exact H |].
        intros r Hr. apply in_app_iff in Hr.
        destruct Hr as [Hr | [<- | []]]; [now apply H | now right].
      * destruct (50 <=? Z.of_nat (List.length rs)); run_handler;
          [exact H |].
        intros r Hr. apply in_app_iff in Hr.
        destruct Hr as [Hr | [<- | []]]; [now apply H | now right].
  - (* confirm *)
    destruct pd as [d |]; run_handler; [| exact H].
    intros r [<- | []]. now right.
  - destruct (find _ rs); run_handler; exact H.
  - (* delete *)
    assert (F : forall r,
              In r (filter (fun r => negb (id r =? id_)%string) rs) ->
              userId r = "migrated"%string \/ userId r = User.id u).
    { intros r Hr. apply filter_In in Hr. now apply H. }
    destruct ed as [e |]; [destruct (id e =? id_)%string |];
      run_handler; exact F.
  - (* toggle *)
    intros r Hr. apply in_map_iff in Hr. destruct Hr as [r0 [<- Hr0]].
    destruct (id r0 =? id_)%string; [cbn |]; now apply H.
  - (* login *)
    intros r Hr. apply in_map_iff in Hr. destruct Hr as [r0 [<- _]].
    now left.
  - (* logout *)
    intros r [].
Qed.

(** X17.  In every state of a session each entry is owned by the present
    user or carries the marker ["migrated"]; the entries a guest made are
    never attributed to the account the guest logs in as. *)
Theorem reachable_ownedOrMigrated (s : State) (r : Reminder) :
  reachable s ->
  In r (reminders s) ->
  userId r = "migrated"%string \/ userId r = User.id (user s).
Proof.
  intros Hs. revert r.
  apply (reachable_invariant ownedOrMigrated); trivial.
  - intros r [].
  - apply ownedOrMigrated_step.
Qed.

Lemma reachable_session1 : reachable session1.
Proof.
  exact (reachable_step _ _ reachable_initial
           (step_save initialState "id1" 1 (sampleData "first"))).
Qed.

Lemma reachable_session2 : reachable session2.
Proof.
  exact (reachable_step _ _ reachable_session1
           (step_open_edit session1 "id1")).
Qed.

Lemma reachable_session3 : reachable session3.
Proof.
  exact (reachable_step _ _ reachable_session1
           (step_save session1 "id2" 2 (sampleData "second"))).
Qed.

Lemma reachable_session4 : reachable session4.
Proof.
  apply (reachable_step session1 _ reachable_session1).
  apply (step_login session1
           {| UserProfile.isMenuOpen := true; UserProfile.tempName := "Ada" |});
    reflexivity.
Qed.

Lemma reachable_withinQuota_witness :
  (List.length (reminders session3) <= 1)%nat.
Proof. exact (reachable_withinQuota session3 reachable_session3). Defined.

Lemma reachable_dialogTracksPending_witness :
  showReplaceDialog session3 = true <-> pendingReminderData session3 <> None.
Proof.
  exact (reachable_dialogTracksPending session3 reachable_session3).
Defined.

Lemma reachable_editTargetExists_witness :
  showWidget session2 = true
  /\ exists r : Reminder,
       In r (reminders session2) /\ id r = "id1"%string.
Proof.
  exact (reachable_editTargetExists session2
           (newReminderOf (sampleData "first") "id1" "temp-user" 1)
           reachable_session2 eq_refl).
Defined.

Lemma reachable_identityKnown_witness :
  User.name (user session4) <> ""%string.
Proof.
  destruct (reachable_identityKnown session4 reachable_session4) as [_ H].
  apply H. reflexivity.
Defined.

Lemma reachable_ownedOrMigrated_witness :
  userId (withUserId (newReminderOf (sampleData "first") "id1" "temp-user" 1)
            "migrated") = "migrated"%string
  \/ userId (withUserId
               (newReminderOf (sampleData "first") "id1" "temp-user" 1)
               "migrated") = User.id (user session4).
Proof.
  apply (reachable_ownedOrMigrated session4 _ reachable_session4).
  left. reflexivity.
Defined.

(** X8.  A new entry submitted under the quota (a guest without entries,
    any other account with fewer than 50) is created at once: the entries
    before stay in place and one is appended that has the generated id, the
    id of the user, the time of creation and every field of the submitted
    data; the count is still within the quota, the widget closes and
    nothing is alerted. *)
Theorem create_under_quota (s : State) (data : ReminderData.t)
  (id1 : string) (now1 : Z) :
  editingReminder s = None ->
  (List.length (reminders s) < quota (user s))%nat ->
  exists r' : Reminder,
    after s (handleSaveReminder s id1 now1 data)
    = closedWith s (reminders s ++ [r'])
    /\ reminders (after s (handleSaveReminder s id1 now1 data))
       = reminders s ++ [r']
    /\ withinQuota (after s (handleSaveReminder s id1 now1 data))
    /\ showWidget (after s (handleSaveReminder s id1 now1 data)) = false
    /\ alerted s (handleSaveReminder s id1 now1 data) = []
    /\ id r' = id1
    /\ userId r' = User.id (user s)
    /\ createdAt r' = now1
    /\ title r' = ReminderData.title data
    /\ description r' = ReminderData.description data
    /\ date r' = ReminderData.date data
    /\ type r' = ReminderData.type data
    /\ recurrence r' = ReminderData.recurrence data
    /\ method r' = ReminderData.method data
    /\ completed r' = ReminderData.completed data
    /\ recurrenceEndMode r' = ReminderData.recurrenceEndMode data
    /\ recurrenceEndValue r' = ReminderData.recurrenceEndValue data
    /\ contactInfo r' = ReminderData.contactInfo data.
Proof.
  intros Hedit Hlen. unfold withinQuota. unfold quota in *.
  destruct s as [u rs sw vm sq ed iw pd dl]. run_handler. subst ed.
  destruct (User.isTemp u) eqn:Htemp; cbn [andb negb].
  - destruct (Z.leb_spec 1 (Z.of_nat (List.length rs))); [lia |].
    eexists. split; [reflexivity |]. split; [reflexivity |].
    cbn. rewrite Htemp, length_app. cbn. repeat split. lia.
  - destruct (Z.leb_spec 50 (Z.of_nat (List.length rs))); [lia |].
    eexists. split; [reflexivity |]. split; [reflexivity |].
    cbn. rewrite Htemp, length_app. cbn. repeat split. lia.
Qed.

Lemma create_under_quota_witness :
  exists r' : Reminder,
    reminders
      (after initialState
         (handleSaveReminder initialState "id1" 1 (sampleData "first")))
    = [r']
    /\ id r' = "id1"%string /\ userId r' = "temp-user"%string
    /\ createdAt r' = 1 /\ title r' = "first"%string.
Proof.
  destruct (create_under_quota initialState (sampleData "first") "id1" 1)
    as [r' [_ [E [_ [_ [_ [Hid [Hu [Hc [Ht _]]]]]]]]]].
  - reflexivity.
  - cbn. lia.
  - exists r'. split; [exact E |]. repeat split; assumption.
Defined.

(** X9.  Deleting by id removes every entry with that id and keeps the
    others, in their order; no entry has the id afterwards.  When no entry
    has the id and the entry being edited, if any, has another, the state
    is unchanged. *)
Theorem delete_removes_id (s : State) (id_ : string) :
  (forall r : Reminder,
     In r (reminders (after s (handleDeleteReminder s id_))) <->
     In r (reminders s) /\ id r <> id_)
  /\ (exists kept : list bool,
        List.length kept = List.length (reminders s)
        /\ reminders (after s (handleDeleteReminder s id_))
           = map fst (filter snd (combine (reminders s) kept)))
  /\ (List.length (reminders (after s (handleDeleteReminder s id_)))
      <= List.length (reminders s))%nat
  /\ ((forall r : Reminder, In r (reminders s) -> id r <> id_) ->
      (forall e : Reminder, editingReminder s = Some e -> id e <> id_) ->
      after s (handleDeleteReminder s id_) = s)
  /\ alerted s (handleDeleteReminder s id_) = [].
Proof.
  set (keep := fun r : Reminder => negb (id r =? id_)%string).
  assert (Hrs : reminders (after s (handleDeleteReminder s id_))
                = filter keep (reminders s)).
  { destruct s as [u rs sw vm sq ed iw pd dl]. run_handler.
    destruct ed as [e |]; [destruct (id e =? id_)%string |]; reflexivity. }
  rewrite Hrs. split; [| split; [| split; [| split]]].
  - intros r. rewrite filter_In. unfold keep.
    rewrite Bool.negb_true_iff, String.eqb_neq. reflexivity.
  - exists (map keep (reminders s)). split; [apply length_map |].
    clear Hrs. induction (reminders s) as [| r rs IH]; [reflexivity |].
    cbn [map combine filter snd fst]. destruct (keep r); cbn [map fst];
      now rewrite <- IH.
  - apply filter_length_le.
  - intros Hnone Hedit.
    assert (Hall : filter keep (reminders s) = reminders s).
    { clear Hrs Hedit. induction (reminders s) as [| r rs IH]; [reflexivity |].
      cbn [filter]. unfold keep at 1.
      destruct (String.eqb_spec (id r) id_) as [E | N]; cbn [negb].
      - exfalso. apply (Hnone r); [now left | exact E].
      - f_equal. apply IH. intros r' Hr'. apply Hnone. now right. }
    destruct s as [u rs sw vm sq ed iw pd dl]. run_handler.
    fold keep. cbn [reminders] in Hall.
    destruct ed as [e |].
    + destruct (String.eqb_spec (id e) id_) as [E | N].
      * exfalso. now apply (Hedit e).
      * run_handler. now rewrite Hall.
    + run_handler. now rewrite Hall.
  - destruct s as [u rs sw vm sq ed iw pd dl]. run_handler.
    destruct ed as [e |]; [destruct (id e =? id_)%string |]; reflexivity.
Qed.

Lemma delete_removes_id_witness :
  after twoEntriesEditing (handleDeleteReminder twoEntriesEditing "zz")
  = twoEntriesEditing.
Proof.
  destruct (delete_removes_id twoEntriesEditing "zz") as [_ [_ [_ [H _]]]].
  apply H.
  - intros r [<- | [<- | []]]; cbn; discriminate.
  - intros e E. injection E as <-. cbn. discriminate.
Defined.

Lemma withCompleted_twice (r : Reminder) :
  withCompleted (withCompleted r (negb (completed r)))
    (negb (completed (withCompleted r (negb (completed r))))) = r.
Proof. destruct r. cbn. now rewrite Bool.negb_involutive. Qed.

(** X10.  Toggling completion changes nothing but the [completed] flag of
    the entries with the given id, which it inverts; toggling twice restores
    the state. *)
Theorem toggle_complete (s : State) (id_ : string) :
  (forall (i : nat) (r : Reminder),
     nth_error (reminders s) i = Some r ->
     exists r' : Reminder,
       nth_error (reminders (after s (handleToggleComplete id_))) i = Some r'
       /\ r' = withCompleted r (if (id r =? id_)%string
                                then negb (completed r) else completed r))
  /\ List.length (reminders (after s (handleToggleComplete id_)))
     = List.length (reminders s)
  /\ after (after s (handleToggleComplete id_)) (handleToggleComplete id_) = s.
Proof.
  destruct s as [u rs sw vm sq ed iw pd dl]. run_handler.
  split; [| split].
  - intros i r Hi. rewrite nth_error_map, Hi. cbn [option_map].
    eexists. split; [reflexivity |].
    destruct (id r =? id_)%string; [reflexivity | now destruct r].
  - apply length_map.
  - f_equal. rewrite map_map. rewrite <- (map_id rs) at 2.
    apply map_ext. intros r.
    destruct (id r =? id_)%string eqn:E.
    + change (id (withCompleted r (negb (completed r)))) with (id r).
      rewrite E. apply withCompleted_twice.
    + now rewrite E.
Qed.

Lemma toggle_complete_witness :
  exists r' : Reminder,
    nth_error
      (reminders
         (after twoEntriesEditing
            (handleToggleComplete "id1"))) 1 = Some r'
    /\ completed r' = true /\ title r' = "second"%string.
Proof.
  destruct (toggle_complete twoEntriesEditing "id1"%string) as [H _].
  destruct (H 1%nat
              (newReminderOf (sampleData "second") "id1"%string
                 "u1"%string 2)
              eq_refl) as [r' [E ->]].
  eexists. split; [exact E |]. split; reflexivity.
Defined.

(** X11.  Logging out leaves the guest identity, no entries and a closed
    widget, whatever the state was, and touches no other cell; a new entry
    submitted next is created at once and is then the only one: it has the
    generated id, the time of creation and every field of the submitted
    data, and is owned by ["temp-user"]. *)
Theorem logout_then_submit (s : State) (data : ReminderData.t)
  (id1 : string) (now1 : Z) :
  (User.id (user (after s handleLogout)) = "temp-user"%string
   /\ User.isTemp (user (after s handleLogout)) = true
   /\ User.name (user (after s handleLogout)) = "Guest"%string
   /\ reminders (after s handleLogout) = []
   /\ showWidget (after s handleLogout) = false
   /\ editingReminder (after s handleLogout) = None
   /\ initialWidgetDate (after s handleLogout) = None
   /\ viewMode (after s handleLogout) = viewMode s
   /\ searchQuery (after s handleLogout) = searchQuery s
   /\ pendingReminderData (after s handleLogout) = pendingReminderData s
   /\ showReplaceDialog (after s handleLogout) = showReplaceDialog s)
  /\ (exists r' : Reminder,
        reminders
          (after (after s handleLogout)
             (handleSaveReminder (after s handleLogout) id1 now1 data))
        = [r']
        /\ user
             (after (after s handleLogout)
                (handleSaveReminder (after s handleLogout) id1 now1 data))
           = user (after s handleLogout)
        /\ showWidget
             (after (after s handleLogout)
                (handleSaveReminder (after s handleLogout) id1 now1 data))
           = false
        /\ id r' = id1
        /\ userId r' = "temp-user"%string
        /\ createdAt r' = now1
        /\ title r' = ReminderData.title data
        /\ description r' = ReminderData.description data
        /\ date r' = ReminderData.date data
        /\ type r' = ReminderData.type data
        /\ recurrence r' = ReminderData.recurrence data
        /\ method r' = ReminderData.method data
        /\ completed r' = ReminderData.completed data
        /\ recurrenceEndMode r' = ReminderData.recurrenceEndMode data
        /\ recurrenceEndValue r' = ReminderData.recurrenceEndValue data
        /\ contactInfo r' = ReminderData.contactInfo data)
  /\ alerted (after s handleLogout)
       (handleSaveReminder (after s handleLogout) id1 now1 data) = [].
Proof.
  destruct s as [u rs sw vm sq ed iw pd dl]. run_handler.
  split; [repeat split |]. split; [| reflexivity].
  eexists. split; [reflexivity |]. cbn. repeat split.
Qed.

(** X12.  Opening an entry for editing by an id that some entry has, and
    submitting, keeps the length and the order of the collection, gives
    every entry with that id each field of the submitted data (an optional
    field that the data lack stays as it was) while it keeps its [id],
    [userId] and [createdAt], leaves the others as they were and closes
    the widget; opening by an id that no entry has changes nothing. *)
Theorem open_edit_then_submit (s : State) (id_ : string)
  (data : ReminderData.t) (id1 : string) (now1 : Z) :
  ((exists r0 : Reminder, In r0 (reminders s) /\ id r0 = id_) ->
   showWidget (after s (openEditWidget s id_)) = true
   /\ (exists editing : Reminder,
         editingReminder (after s (openEditWidget s id_)) = Some editing
         /\ In editing (reminders s) /\ id editing = id_)
   /\ (exists rs : list Reminder,
         after (after s (openEditWidget s id_))
           (handleSaveReminder (after s (openEditWidget s id_)) id1 now1 data)
         = closedWith s rs
         /\ List.length rs = List.length (reminders s)
         /\ forall (i : nat) (r : Reminder),
              nth_error (reminders s) i = Some r ->
              exists r' : Reminder,
                nth_error rs i = Some r'
                /\ (id r <> id_ -> r' = r)
                /\ (id r = id_ ->
                    id r' = id r
                    /\ userId r' = userId r
                    /\ createdAt r' = createdAt r
                    /\ title r' = ReminderData.title data
                    /\ description r' = ReminderData.description data
                    /\ date r' = ReminderData.date data
                    /\ type r' = ReminderData.type data
                    /\ recurrence r' = ReminderData.recurrence data
                    /\ method r' = ReminderData.method data
                    /\ completed r' = ReminderData.completed data
                    /\ recurrenceEndMode r'
                       = match ReminderData.recurrenceEndMode data with
                         | Missing => recurrenceEndMode r
                         | given => given
                         end
                    /\ recurrenceEndValue r'
                       = match ReminderData.recurrenceEndValue data with
                         | Missing => recurrenceEndValue r
                         | given => given
                         end
                    /\ contactInfo r'
                       = match ReminderData.contactInfo data with
                         | Missing => contactInfo r
                         | given => given
                         end)))
  /\ ((forall r : Reminder, In r (reminders s) -> id r <> id_) ->
      after s (openEditWidget s id_) = s).
Proof.
  split.
  - intros [r0 [Hr0 Hid0]].
    destruct (find (fun r => (id r =? id_)%string) (reminders s))
      as [editing |] eqn:F.
    + pose proof (find_some _ _ F) as [Hin Heq].
      apply String.eqb_eq in Heq.
      destruct s as [u rs sw vm sq ed iw pd dl]. run_handler.
      rewrite F. run_handler. rewrite Heq.
      split; [reflexivity |]. split.
      * exists editing. repeat split; trivial.
      * eexists. split; [reflexivity |]. split; [apply length_map |].
        intros i r Hi. rewrite nth_error_map, Hi. cbn [option_map].
        destruct (String.eqb_spec (id r) id_) as [E | N].
        -- exists (spreadData r data). split; [reflexivity |].
           split; [contradiction |]. intros _. cbn.
           repeat split;
             match goal with
             | |- spreadOptional _ ?o = _ => destruct o; reflexivity
             end.
        -- exists r. split; [reflexivity |]. split; [reflexivity |].
           contradiction.
    + exfalso. apply (find_none _ _ F) in Hr0.
      rewrite Hid0, String.eqb_refl in Hr0. discriminate.
  - intros Hnone.
    destruct (find (fun r => (id r =? id_)%string) (reminders s))
      as [r |] eqn:F.
    + exfalso. pose proof (find_some _ _ F) as [Hin Heq].
      apply String.eqb_eq in Heq. now apply (Hnone r).
    + destruct s as [u rs sw vm sq ed iw pd dl]. run_handler.
      now rewrite F.
Qed.

Lemma open_edit_then_submit_witness :
  exists r' : Reminder,
    reminders
      (after (after session1 (openEditWidget session1 "id1"))
         (handleSaveReminder (after session1 (openEditWidget session1 "id1"))
            "x" 9 (sampleData "renamed")))
    = [r']
    /\ title r' = "renamed"%string /\ id r' = "id1"%string
    /\ createdAt r' = 1.
Proof.
  destruct (open_edit_then_submit session1 "id1" (sampleData "renamed") "x" 9)
    as [H _].
  destruct H as [_ [_ [rs [E [Hlen H]]]]].
  - exists (newReminderOf (sampleData "first") "id1" "temp-user" 1).
    split; [left |]; reflexivity.
  - destruct (H 0%nat (newReminderOf (sampleData "first") "id1" "temp-user" 1)
                eq_refl) as [r' [Hn [_ Hf]]].
    destruct (Hf eq_refl) as [Hid [_ [Hc [Ht _]]]].
    exists r'. split.
    + rewrite E. cbn [closedWith reminders].
      destruct rs as [| r0 [| r1 rs]]; try discriminate Hlen.
      now injection Hn as ->.
    + repeat split; assumption.
Defined.

End AppMore.

(* ================================================================= *)
(** ** More on sorting *)

Module JSArrayMore.

Import JSArray JSArrayFacts SortTerms.

Section Sort.

Context {A : Type}.
Variable compareFn : A -> A -> Z.

Lemma insert_Permutation (x : A) (l : list A) :
  Permutation (insert compareFn x l) (x :: l).
Proof.
  induction l as [| y l IH]; cbn [insert]; [apply Permutation_refl |].
  destruct (compareFn x y <=? 0); [apply Permutation_refl |].
  apply (perm_trans (l' := y :: x :: l)).
  - now apply perm_skip.
  - apply perm_swap.
Qed.

Lemma sort_Permutation (l : list A) : Permutation (sort compareFn l) l.
Proof.
  induction l as [| x l IH]; [apply Permutation_refl |].
  cbn [sort fold_right]. fold (sort compareFn l).
  apply (perm_trans (insert_Permutation x (sort compareFn l))).
  now apply perm_skip.
Qed.

End Sort.

Section SortByKey.

Context {A : Type}.
Variable key : A -> Z.

Lemma insert_sorted (x : A) (l : list A) :
  StronglySorted (keyLe key) l ->
  StronglySorted (keyLe key) (insert (byKey key) x l).
Proof.
  induction 1 as [| y l Hl IH Hy]; cbn [insert].
  - repeat constructor.
  - unfold byKey at 1. destruct (Z.leb_spec (key x - key y) 0) as [Hle | Hgt].
    + constructor; [now constructor |].
      constructor; [unfold keyLe; lia |].
      apply Forall_forall. intros z Hz.
      rewrite Forall_forall in Hy. specialize (Hy z Hz). unfold keyLe in *. lia.
    + constructor; [exact IH |].
      apply Forall_forall. intros z Hz. apply In_insert in Hz.
      destruct Hz as [-> | Hz]; [unfold keyLe; lia |].
      rewrite Forall_forall in Hy. now apply Hy.
Qed.

Lemma sort_sorted (l : list A) :
  StronglySorted (keyLe key) (sort (byKey key) l).
Proof.
  induction l as [| x l IH]; [constructor |].
  cbn [sort fold_right]. now apply insert_sorted.
Qed.

(** The sort is stable: the elements with one key keep their order. *)
Lemma insert_same_key (k : Z) (x : A) (l : list A) :
  filter (fun a => key a =? k) (insert (byKey key) x l)
  = filter (fun a => key a =? k) (x :: l).
Proof.
  induction l as [| y l IH]; cbn [insert]; [reflexivity |].
  unfold byKey at 1. destruct (Z.leb_spec (key x - key y) 0) as [Hle | Hgt];
    [reflexivity |].
  cbn [filter] in *. rewrite IH.
  destruct (Z.eqb_spec (key x) k) as [Ex | Nx];
    destruct (Z.eqb_spec (key y) k) as [Ey | Ny]; try reflexivity.
  lia.
Qed.

Lemma sort_same_key (k : Z) (l : list A) :
  filter (fun a => key a =? k) (sort (byKey key) l)
  = filter (fun a => key a =? k) l.
Proof.
  induction l as [| x l IH]; [reflexivity |].
  cbn [sort fold_right]. fold (sort (byKey key) l).
  rewrite insert_same_key. cbn [filter]. now rewrite IH.
Qed.

End SortByKey.

End JSArrayMore.

(* ================================================================= *)
(** ** The list of reminders under the search box *)

Module FilterSpec.

Import Types App AppTerms JSArrayMore.

Lemma includes_empty (s : string) : JSString.includes s "" = true.
Proof. destruct s; reflexivity. Qed.

Section Filtering.

Variable toLowerCase : string -> string.

Lemma filteredReminders_eq (s : State) :
  filteredReminders toLowerCase s
  = JSArray.sort (fun a b => date a - date b)
      (filter (matchesQuery toLowerCase s) (reminders s)).
Proof. reflexivity. Qed.

(** X18.  The list shown under the search box holds exactly the reminders
    that match the query, each as often as the collection does, in
    ascending order of their timestamps; reminders with the same timestamp
    keep the order they have in the collection. *)
Theorem filteredReminders_sorted (s : State) :
  Permutation (filteredReminders toLowerCase s)
    (filter (matchesQuery toLowerCase s) (reminders s))
  /\ StronglySorted (fun a b => date a <= date b)
       (filteredReminders toLowerCase s)
  /\ (forall r : Reminder,
        In r (filteredReminders toLowerCase s) <->
        In r (reminders s) /\ matchesQuery toLowerCase s r = true)
  /\ (forall d : ESDate.Date,
        dueAt d (filteredReminders toLowerCase s)
        = dueAt d (filter (matchesQuery toLowerCase s) (reminders s))).
Proof.
  rewrite filteredReminders_eq. split; [| split; [| split]].
  - apply sort_Permutation.
  - apply (sort_sorted date).
  - intros r. rewrite (JSArrayFacts.In_sort (fun a b => date a - date b)).
    apply filter_In.
  - intros d. apply (sort_same_key date).
Qed.

(** X19.  With an empty search box every reminder is listed: the list is a
    rearrangement of the whole collection. *)
Theorem filteredReminders_all (s : State) :
  toLowerCase "" = ""%string ->
  searchQuery s = ""%string ->
  Permutation (filteredReminders toLowerCase s) (reminders s)
  /\ List.length (filteredReminders toLowerCase s)
     = List.length (reminders s).
Proof.
  intros Hlower Hquery.
  assert (Hall : filter (matchesQuery toLowerCase s) (reminders s)
                 = reminders s).
  { induction (reminders s) as [| r rs IH]; [reflexivity |].
    cbn [filter]. unfold matchesQuery at 1.
    rewrite Hquery, Hlower, includes_empty. cbn [orb]. now rewrite IH. }
  assert (P : Permutation (filteredReminders toLowerCase s) (reminders s)).
  { rewrite filteredReminders_eq, Hall. apply sort_Permutation. }
  split; [exact P | now apply Permutation_length].
Qed.

End Filtering.

Lemma filteredReminders_sorted_witness :
  In (newReminderOf (sampleData "first") "id0" "u1" 1)
    (filteredReminders (fun x => x) twoEntriesEditing).
Proof.
  destruct (filteredReminders_sorted (fun x => x) twoEntriesEditing)
    as [_ [_ [H _]]].
  apply H. split; [left; reflexivity | reflexivity].
Defined.

Lemma filteredReminders_all_witness :
  List.length (filteredReminders (fun x => x) twoEntriesEditing) = 2%nat.
Proof.
  destruct (filteredReminders_all (fun x => x) twoEntriesEditing) as [_ H].
  - reflexivity.
  - reflexivity.
  - exact H.
Defined.

End FilterSpec.

(* ================================================================= *)
(** ** More on the services: answers, the chat *)

Module ServiceMore.

Import GeminiService ServiceTerms.

Lemma trimStart_start (s : string) : startsWithSpace (trimStart s) = false.
Proof.
  induction s as [| c s IH]; [reflexivity |].
  cbn [trimStart]. destruct (isWhiteSpace c) eqn:E; [exact IH |].
  cbn [startsWithSpace]. exact E.
Qed.

Lemma trimEnd_end (s : string) : endsWithSpace (trimEnd s) = false.
Proof.
  induction s as [| c s IH]; [reflexivity |].
  cbn [trimEnd]. destruct (trimEnd s) as [| c' t] eqn:E.
  - destruct (isWhiteSpace c) eqn:W; [reflexivity |].
    cbn [endsWithSpace]. exact W.
  - exact IH.
Qed.

Lemma trimEnd_start (s : string) :
  startsWithSpace s = false -> startsWithSpace (trimEnd s) = false.
Proof.
  destruct s as [| c s]; [reflexivity |].
  cbn [startsWithSpace trimEnd]. intros W.
  destruct (trimEnd s); [rewrite W |]; exact W.
Qed.

Lemma trim_trimmed (s : string) :
  startsWithSpace (trim s) = false /\ endsWithSpace (trim s) = false.
Proof.
  unfold trim. split.
  - apply trimEnd_start, trimStart_start.
  - apply trimEnd_end.
Qed.

Section Service.

Variable generateContent :
  string -> string -> Completion GenerateContentResponse.

Lemma generateAssistantResponse_answers (history userMessage : string) :
  exists answer : string,
    generateAssistantResponse generateContent history userMessage
    = Fulfilled answer
    /\ answer <> ""%string.
Proof.
  unfold generateAssistantResponse.
  destruct (generateContent model (assistantPrompt history userMessage))
    as [response | error].
  - destruct (text response) as [t |].
    + destruct (String.eqb_spec t "") as [E | N].
      * exists troubleMessage. split; [reflexivity | discriminate].
      * exists t. split; [reflexivity | exact N].
    + exists troubleMessage. split; [reflexivity | discriminate].
  - exists apologyMessage. split; [reflexivity | discriminate].
Qed.

(** X20.  [generateAssistantResponse] always answers, never throws and
    never answers with the empty string: it passes on the text of the model
    when there is some, says that it has trouble connecting when the model
    answers without text, and apologizes when the call fails. *)
Theorem assistant_always_answers (history userMessage : string) :
  exists answer : string,
    generateAssistantResponse generateContent history userMessage
    = Fulfilled answer
    /\ answer <> ""%string
    /\ (forall error : string,
          generateContent model (assistantPrompt history userMessage)
          = Thrown error ->
          answer = apologyMessage)
    /\ (forall response : GenerateContentResponse,
          generateContent model (assistantPrompt history userMessage)
          = Fulfilled response ->
          (forall t : string,
             text response = Some t -> t <> ""%string -> answer = t)
          /\ (text response = None \/ text response = Some ""%string ->
              answer = troubleMessage)).
Proof.
  unfold generateAssistantResponse.
  destruct (generateContent model (assistantPrompt history userMessage))
    as [response | error].
  - destruct (text response) as [t |] eqn:Et.
    + destruct (String.eqb_spec t "") as [E | N].
      * exists troubleMessage. split; [reflexivity |].
        split; [discriminate |]. split; [discriminate |].
        intros r Hr. injection Hr as <-. rewrite Et. split.
        -- intros t' Ht'. injection Ht' as <-. congruence.
        -- reflexivity.
      * exists t. split; [reflexivity |].
        split; [exact N |]. split; [discriminate |].
        intros r Hr. injection Hr as <-. rewrite Et. split.
        -- intros t' Ht'. now injection Ht' as <-.
        -- intros [H | H]; [discriminate | congruence].
    + exists troubleMessage. split; [reflexivity |].
      split; [discriminate |]. split; [discriminate |].
      intros r Hr. injection Hr as <-. rewrite Et. split.
      * discriminate.
      * reflexivity.
  - exists apologyMessage. split; [reflexivity |].
    split; [discriminate |]. split; [reflexivity |]. discriminate.
Qed.

(** X21.  [refineReminderText] returns either its input as it is or the
    answer of the model with the white space at both ends removed, and the
    latter only when something is left of it; so notes that are not empty
    are never refined to nothing. *)
Theorem refine_returns_input_or_trimmed (text_ : string) :
  exists out : string,
    refineReminderText generateContent text_ = Fulfilled out
    /\ (out = text_
        \/ exists (response : GenerateContentResponse) (t : string),
             generateContent model (refinePrompt text_) = Fulfilled response
             /\ text response = Some t
             /\ out = trim t
             /\ out <> ""%string
             /\ startsWithSpace out = false
             /\ endsWithSpace out = false)
    /\ (text_ <> ""%string -> out <> ""%string).
Proof.
  unfold refineReminderText.
  destruct (generateContent model (refinePrompt text_))
    as [response | error].
  - destruct (text response) as [t |] eqn:Et; cbn [option_map].
    + destruct (String.eqb_spec (trim t) "") as [E | N].
      * exists text_. split; [reflexivity |]. split; [now left | tauto].
      * exists (trim t). split; [reflexivity |]. split; [| tauto].
        right. exists response, t.
        destruct (trim_trimmed t) as [Hs He].
        repeat split; trivial.
    + exists text_. split; [reflexivity |]. split; [now left | tauto].
  - exists text_. split; [reflexivity |]. split; [now left | tauto].
Qed.

End Service.

Lemma assistant_always_answers_witness :
  generateAssistantResponse outOfService "user: hi" "help"
  = Fulfilled apologyMessage.
Proof.
  destruct (assistant_always_answers outOfService "user: hi" "help")
    as [answer [-> [_ [H _]]]].
  f_equal. apply (H "503 Service Unavailable"%string). reflexivity.
Defined.

Lemma refine_returns_input_or_trimmed_witness :
  exists out : string,
    refineReminderText (answering "   ") "buy milk" = Fulfilled out
    /\ out <> ""%string.
Proof.
  destruct (refine_returns_input_or_trimmed (answering "   ") "buy milk")
    as [out [H1 [_ H2]]].
  exists out. split; [exact H1 |]. apply H2. discriminate.
Defined.

(** The no-break space is white space to [trim]: around an answer it is
    dropped, and an answer or an input of nothing else is blank. *)
Example refine_no_break_space :
  refineReminderText (answering (nbsp ++ "Leg day" ++ nbsp)) "gym"
  = Fulfilled "Leg day"%string
  /\ refineReminderText (answering nbsp) "gym" = Fulfilled "gym"%string.
Proof. split; reflexivity. Qed.

Section Chat.

Import Assistant.

Variable generateContent :
  string -> string -> Completion GenerateContentResponse.

(** X22.  A send with blank input changes nothing.  Any other send appends
    the message of the user, with the input as typed, and, when the answer
    has arrived, the message of the model, whose text is not empty; each is
    appended to the messages of that moment, so none is lost.  A send that
    nothing interrupts leaves the two messages at the end, the input empty
    and the spinner off. *)
Theorem handleSend_appends (s : State) (clock : Clock) :
  (trim (input s) = ""%string ->
   forall cur : State,
     handleSend_begin s clock cur = cur
     /\ handleSend_resume generateContent s clock cur = cur)
  /\ (trim (input s) <> ""%string ->
      exists response : string,
        response <> ""%string
        /\ (forall cur : State,
              messages (handleSend_begin s clock cur)
              = messages cur ++ [userMsg s clock]
              /\ messages (handleSend_resume generateContent s clock cur)
                 = messages cur ++ [botMsg clock response]
              /\ loading (handleSend_resume generateContent s clock cur)
                 = false)
        /\ handleSend_resume generateContent s clock
             (handleSend_begin s clock s)
           = {| isOpen := isOpen s;
                messages := messages s
                            ++ [userMsg s clock; botMsg clock response];
                input := "";
                loading := false |}
        /\ ChatMessage.text (userMsg s clock) = input s
        /\ ChatMessage.role (userMsg s clock) = ChatMessage.user
        /\ ChatMessage.role (botMsg clock response) = ChatMessage.model).
Proof.
  unfold handleSend_begin, handleSend_resume, responseText. split.
  - intros E cur. rewrite E. cbn. split; reflexivity.
  - intros N.
    destruct (String.eqb_spec (trim (input s)) "") as [E | _];
      [contradiction |].
    destruct (generateAssistantResponse_answers generateContent
                (historyText s) (ChatMessage.text (userMsg s clock)))
      as [response [-> Hne]].
    exists response. split; [exact Hne |]. split; [| split].
    + intros cur. repeat split.
    + cbn [messages isOpen input loading]. rewrite <- app_assoc.
      reflexivity.
    + repeat split.
Qed.

End Chat.

Lemma handleSend_appends_witness :
  List.length
    (Assistant.messages
       (Assistant.handleSend_resume outOfService chatWithQuestion sampleClock
          (Assistant.handleSend_begin chatWithQuestion sampleClock
             chatWithQuestion)))
  = 3%nat.
Proof.
  destruct (handleSend_appends outOfService chatWithQuestion sampleClock)
    as [_ H].
  destruct H as [response [_ [_ [-> _]]]].
  - vm_compute. discriminate.
  - reflexivity.
Defined.

Example handleSend_no_break_space (cur : Assistant.State) :
  let s := {| Assistant.isOpen := true; Assistant.messages := [];
              Assistant.input := nbsp; Assistant.loading := false |} in
  Assistant.handleSend_begin s sampleClock cur = cur
  /\ Assistant.handleSend_resume outOfService s sampleClock cur = cur.
Proof. split; reflexivity. Qed.

End ServiceMore.

(* ================================================================= *)
(** ** Dates as strings: what is written is read back *)

Module DateStringFacts.

Import ESDate ESDateFacts DateString WidgetTerms.

Lemma digit_cases (n : Z) :
  exists k : Z, 0 <= k <= 9 /\ k = n mod 10
                /\ digit n = ascii_of_N (48 + Z.to_N k).
Proof.
  exists (n mod 10). pose proof (Z.mod_pos_bound n 10). repeat split; lia.
Qed.

Lemma digitValue_digit (n : Z) : digitValue (digit n) = Some (n mod 10).
Proof.
  destruct (digit_cases n) as [k [Hk [Ek Ed]]]. rewrite Ed, <- Ek.
  clear Ek Ed.
  assert (C : k = 0 \/ k = 1 \/ k = 2 \/ k = 3 \/ k = 4 \/ k = 5 \/ k = 6
              \/ k = 7 \/ k = 8 \/ k = 9) by lia.
  repeat (destruct C as [-> | C]; [reflexivity |]). subst k. reflexivity.
Qed.

Lemma digit_not_T (n : Z) : (digit n =? "T")%char = false.
Proof.
  destruct (digit_cases n) as [k [Hk [Ek Ed]]]. rewrite Ed.
  clear Ek Ed.
  assert (C : k = 0 \/ k = 1 \/ k = 2 \/ k = 3 \/ k = 4 \/ k = 5 \/ k = 6
              \/ k = 7 \/ k = 8 \/ k = 9) by lia.
  repeat (destruct C as [-> | C]; [reflexivity |]). subst k. reflexivity.
Qed.

Lemma number2_digits (n : Z) :
  0 <= n <= 99 -> number2 (digit (n / 10)) (digit n) = Some n.
Proof.
  intros H. unfold number2. rewrite !digitValue_digit. f_equal.
  Z.div_mod_to_equations. lia.
Qed.

Lemma number4_digits (y : Z) :
  0 <= y <= 9999 ->
  number4 (digit (y / 10 / 10 / 10)) (digit (y / 10 / 10))
    (digit (y / 10)) (digit y) = Some y.
Proof.
  intros H. unfold number4, number2. rewrite !digitValue_digit. f_equal.
  Z.div_mod_to_equations. lia.
Qed.

Lemma pad2_eq (n : Z) :
  pad 2 n = String (digit (n / 10)) (String (digit n) "").
Proof. reflexivity. Qed.

Lemma pad4_eq (n : Z) :
  pad 4 n
  = String (digit (n / 10 / 10 / 10))
      (String (digit (n / 10 / 10))
         (String (digit (n / 10)) (String (digit n) ""))).
Proof. reflexivity. Qed.

Lemma dateString_eq (y m d : Z) :
  dateString y m d
  = String (digit (y / 10 / 10 / 10))
      (String (digit (y / 10 / 10))
         (String (digit (y / 10))
            (String (digit y)
               (String "-"
                  (String (digit (m / 10))
                     (String (digit m)
                        (String "-"
                           (String (digit (d / 10))
                              (String (digit d) ""))))))))).
Proof. reflexivity. Qed.

Lemma timeString_eq (h mi : Z) :
  timeString h mi
  = String (digit (h / 10))
      (String (digit h)
         (String ":" (String (digit (mi / 10)) (String (digit mi) "")))).
Proof. reflexivity. Qed.

Lemma splitHead_app_T (a b : string) :
  JSString.splitHead "T" a = a ->
  JSString.splitHead "T" (a ++ String "T" b) = a.
Proof.
  induction a as [| c a IH]; cbn [JSString.splitHead append].
  - reflexivity.
  - destruct (c =? "T")%char; [discriminate |].
    intros H. injection H as H. now rewrite IH.
Qed.

Lemma splitHead_dateString (y m d : Z) :
  JSString.splitHead "T" (dateString y m d) = dateString y m d.
Proof.
  rewrite dateString_eq. cbn [JSString.splitHead].
  rewrite !digit_not_T. reflexivity.
Qed.

(** The date part of [toISOString] is the UTC date. *)
Lemma toISOString_date (d : Date) :
  0 <= YearFromTime d <= 9999 ->
  JSString.splitHead "T" (toISOString d)
  = dateString (YearFromTime d) (MonthFromTime d + 1) (DateFromTime d).
Proof.
  intros Hy. unfold toISOString, yearString.
  destruct (Z.leb_spec 0 (YearFromTime d)); [| lia].
  destruct (Z.leb_spec (YearFromTime d) 9999); [| lia]. cbn [andb].
  transitivity
    (JSString.splitHead "T"
       (dateString (YearFromTime d) (MonthFromTime d + 1) (DateFromTime d)
        ++ String "T"
             (pad 2 (HourFromTime d) ++ ":" ++ pad 2 (MinFromTime d) ++ ":"
              ++ pad 2 (SecFromTime d) ++ "." ++ pad 3 (msFromTime d)
              ++ "Z"))).
  - reflexivity.
  - apply splitHead_app_T, splitHead_dateString.
Qed.

Section Local.

Context {host : Host}.

(** The first five characters of [toTimeString] are the local hour and
    minute. *)
Lemma toTimeString_hhmm (d : Date) :
  JSString.sliceTo 5 (toTimeString d)
  = timeString (HourFromTime (LocalTime d)) (MinFromTime (LocalTime d)).
Proof. reflexivity. Qed.

Lemma DateFromTime_le (t : Z) :
  DateFromTime t <= DaysInMonth (YearFromTime t) (MonthFromTime t).
Proof.
  pose proof (MonthFromTime_bracket t) as B.
  unfold DateFromTime, DaysInMonth, InLeapYear in *. revert B.
  generalize (FirstDayOfMonth (MonthFromTime t + 1)
                (LeapOfYear (YearFromTime t))).
  generalize (FirstDayOfMonth (MonthFromTime t)
                (LeapOfYear (YearFromTime t))).
  generalize (DayWithinYear t). intros w f0 f1 B. lia.
Qed.

Lemma DateFromTime_range (t : Z) : 1 <= DateFromTime t <= 31.
Proof.
  pose proof (MonthFromTime_bracket t) as B.
  pose proof (MonthFromTime_range t) as R.
  assert (L : InLeapYear t = 0 \/ InLeapYear t = 1)
    by apply LeapOfYear_cases.
  unfold DateFromTime. revert B.
  generalize (DayWithinYear t). generalize dependent (InLeapYear t).
  generalize dependent (MonthFromTime t). intros m R leap L w.
  assert (C : m = 0 \/ m = 1 \/ m = 2 \/ m = 3 \/ m = 4 \/ m = 5 \/ m = 6
              \/ m = 7 \/ m = 8 \/ m = 9 \/ m = 10 \/ m = 11) by lia.
  repeat (destruct C as [-> | C]; [fdm_norm; lia |]).
  subst m. fdm_norm. lia.
Qed.

Lemma HourFromTime_range (t : Z) : 0 <= HourFromTime t <= 23.
Proof.
  unfold HourFromTime. pose proof (Z.mod_pos_bound (t / msPerHour) 24). lia.
Qed.

Lemma MinFromTime_range (t : Z) : 0 <= MinFromTime t <= 59.
Proof.
  unfold MinFromTime. pose proof (Z.mod_pos_bound (t / msPerMinute) 60). lia.
Qed.

(** Day, hour and minute give the time back, less what is beyond the
    minute. *)
Lemma MakeDate_to_the_minute (t : Z) :
  MakeDate (Day t) (MakeTime (HourFromTime t) (MinFromTime t) 0 0)
  = t - t mod msPerMinute.
Proof.
  unfold MakeDate, Day, MakeTime, HourFromTime, MinFromTime, msPerDay,
    msPerHour, msPerMinute, msPerSecond.
  Z.div_mod_to_equations. lia.
Qed.

(** Reading a written date and time: the fields come back as a local
    date-time. *)
Lemma parse_formatted (y m d h mi : Z) :
  0 <= y <= 9999 ->
  1 <= m <= 12 ->
  1 <= d <= DaysInMonth y (m - 1) ->
  d <= 31 ->
  0 <= h <= 23 ->
  0 <= mi <= 59 ->
  parseLocalDateTime (dateString y m d ++ "T" ++ timeString h mi)
  = Some (UTC (MakeDate (MakeDay y (m - 1) d) (MakeTime h mi 0 0))).
Proof.
  intros Hy Hm Hd Hd31 Hh Hmi.
  rewrite dateString_eq, timeString_eq. cbn [append parseLocalDateTime].
  change (("-" =? "-")%char) with true. change (("T" =? "T")%char) with true.
  change ((":" =? ":")%char) with true. cbn [andb].
  rewrite (number4_digits y Hy), (number2_digits m), (number2_digits d),
    (number2_digits h), (number2_digits mi) by lia.
  destruct (Z.leb_spec 1 m); [| lia]. destruct (Z.leb_spec m 12); [| lia].
  destruct (Z.leb_spec 1 d); [| lia].
  destruct (Z.leb_spec d (DaysInMonth y (m - 1))); [| lia].
  destruct (Z.leb_spec h 23); [| lia]. destruct (Z.leb_spec mi 59); [| lia].
  reflexivity.
Qed.

(** The date of the form of an edited reminder, read back: the UTC day of
    the reminder with its local hour and minute. *)
Lemma parse_loaded (d : Date) :
  0 <= YearFromTime d <= 9999 ->
  parseLocalDateTime
    (JSString.splitHead "T" (toISOString d) ++ "T"
     ++ JSString.sliceTo 5 (toTimeString d))
  = Some (UTC (MakeDate (Day d)
                 (MakeTime (HourFromTime (LocalTime d))
                    (MinFromTime (LocalTime d)) 0 0))).
Proof.
  intros Hy. rewrite (toISOString_date d Hy), toTimeString_hhmm.
  pose proof (MonthFromTime_range d) as Rm.
  pose proof (DateFromTime_range d) as Rd.
  pose proof (DateFromTime_le d) as Ld.
  rewrite parse_formatted.
  - replace (MonthFromTime d + 1 - 1) with (MonthFromTime d) by lia.
    now rewrite MakeDay_fields.
  - exact Hy.
  - lia.
  - replace (MonthFromTime d + 1 - 1) with (MonthFromTime d) by lia. lia.
  - lia.
  - apply HourFromTime_range.
  - apply MinFromTime_range.
Qed.

End Local.

End DateStringFacts.

(* ================================================================= *)
(** ** The form of the widget: loading, submitting, refining *)

Module WidgetMore.

Import ESDate ESDateFacts D3Time D3TimeFacts DateString DateStringFacts.
Import Types ReminderWidget WidgetTerms.

Section Form.

Context {host : Host}.

(** The [Date] constructor; on the strings that the model of the parser
    reads it gives what the parser gives. *)
Variable newDate : string -> Date.

Hypothesis newDate_parses :
  forall (str : string) (t : Date),
    parseLocalDateTime str = Some t -> newDate str = t.

Lemma loaded_date_nonempty (d : Date) :
  0 <= YearFromTime d <= 9999 ->
  (JSString.splitHead "T" (toISOString d) =? "")%string = false.
Proof.
  intros Hy. rewrite (toISOString_date d Hy), dateString_eq. reflexivity.
Qed.

Lemma loaded_time_nonempty (d : Date) :
  (JSString.sliceTo 5 (toTimeString d) =? "")%string = false.
Proof. rewrite toTimeString_hhmm, timeString_eq. reflexivity. Qed.

(** The form loaded from [r], submitted as it is. *)
Lemma handleSubmit_loaded (r : Reminder) (s0 : State) :
  0 <= YearFromTime (Types.date r) <= 9999 ->
  Types.title r <> ""%string ->
  handleSubmit newDate (editing r) (loadForm (editing r) s0)
  = Some {|
      ReminderData.title := Types.title r;
      ReminderData.description := Types.description r;
      ReminderData.date :=
        UTC (MakeDate (Day (Types.date r))
               (MakeTime (HourFromTime (LocalTime (Types.date r)))
                  (MinFromTime (LocalTime (Types.date r))) 0 0));
      ReminderData.type := Types.type r;
      ReminderData.recurrence := Types.recurrence r;
      ReminderData.method := Types.method r;
      ReminderData.completed := Types.completed r;
      ReminderData.recurrenceEndMode :=
        if RecurrenceType.eqb (Types.recurrence r) RecurrenceType.None
        then Undefined
        else Value (endModeOr (Types.recurrenceEndMode r));
      ReminderData.recurrenceEndValue :=
        if RecurrenceType.eqb (Types.recurrence r) RecurrenceType.None
           || RecurrenceEndMode.eqb (endModeOr (Types.recurrenceEndMode r))
                RecurrenceEndMode.never
        then Undefined
        else Value (endValueOr (Types.recurrenceEndValue r));
      ReminderData.contactInfo :=
        if CommunicationMethod.eqb (Types.method r)
             CommunicationMethod.Notification
        then Undefined
        else Value (contactOr (Types.contactInfo r))
    |}.
Proof.
  intros Hy Ht. unfold handleSubmit, loadForm, editing.
  cbn [initialReminder initialDate title description date time type
       recurrence method recurrenceEndMode recurrenceEndValue contactInfo].
  destruct (String.eqb_spec (Types.title r) "") as [E | _]; [contradiction |].
  rewrite (loaded_date_nonempty _ Hy), loaded_time_nonempty. cbn [orb].
  rewrite (newDate_parses _ _ (parse_loaded (Types.date r) Hy)).
  reflexivity.
Qed.

(** X23 (ReminderWidget, the effect that loads the form and
    [handleSubmit]): on any host, an entry of a year from 0 to 9999 with a
    title, opened for editing and saved with the form untouched, is
    submitted with its title, description, type, recurrence, method and
    completion, and its new date is the local date-time made of the UTC
    year, month and day of the old one and of its local hour and minute,
    with no seconds. *)
Theorem edit_resubmits_date (r : Reminder) (s0 : State) :
  0 <= YearFromTime (Types.date r) <= 9999 ->
  Types.title r <> ""%string ->
  exists data : ReminderData.t,
    handleSubmit newDate (editing r) (loadForm (editing r) s0) = Some data
    /\ ReminderData.date data
       = localDate (YearFromTime (Types.date r))
           (MonthFromTime (Types.date r)) (DateFromTime (Types.date r))
           (HourFromTime (LocalTime (Types.date r)))
           (MinFromTime (LocalTime (Types.date r))) 0 0
    /\ ReminderData.title data = Types.title r
    /\ ReminderData.description data = Types.description r
    /\ ReminderData.type data = Types.type r
    /\ ReminderData.recurrence data = Types.recurrence r
    /\ ReminderData.method data = Types.method r
    /\ ReminderData.completed data = Types.completed r.
Proof.
  intros Hy Ht. rewrite (handleSubmit_loaded r s0 Hy Ht).
  eexists. split; [reflexivity |].
  cbn [ReminderData.date ReminderData.title ReminderData.description
       ReminderData.type ReminderData.recurrence ReminderData.method
       ReminderData.completed].
  split; [| repeat split].
  unfold localDate. now rewrite MakeDay_fields.
Qed.

End Form.

Section FormInZone.

Context {tz : TimeZone}.

(** The time values of the years from 0 to 9999. *)
Lemma year_bounds (t : Z) :
  0 <= YearFromTime t <= 9999 ->
  -62167219200000 <= t < 253402300800000.
Proof.
  intros Hy. unfold YearFromTime in Hy.
  pose proof (YearFromDay_spec (Day t)) as S.
  pose proof (DayFromYear_le 0 (YearFromDay (Day t)) ltac:(lia)) as L0.
  pose proof (DayFromYear_le (YearFromDay (Day t) + 1) 10000 ltac:(lia))
    as L1.
  change (DayFromYear 0) with (-719528) in L0.
  change (DayFromYear 10000) with 2932897 in L1.
  pose proof (Day_bounds t) as B. unfold msPerDay in B. lia.
Qed.

Variable newDate : string -> Date.

Hypothesis newDate_parses :
  forall (str : string) (t : Date),
    parseLocalDateTime str = Some t -> newDate str = t.

(** The UTC day with the local hour and minute, as an offset from the
    time itself. *)
Lemma utc_day_local_time (d : Date) :
  UTC (MakeDate (Day d)
         (MakeTime (HourFromTime (LocalTime d)) (MinFromTime (LocalTime d))
            0 0))
  = d - LocalTime d mod msPerMinute
    - (Day (LocalTime d) - Day d) * msPerDay.
Proof.
  pose proof (MakeDate_to_the_minute (LocalTime d)) as E.
  rewrite UTC_eq. unfold MakeDate in *. revert E.
  generalize (MakeTime (HourFromTime (LocalTime d))
                (MinFromTime (LocalTime d)) 0 0).
  generalize (LocalTime d mod msPerMinute).
  generalize (Day (LocalTime d)) (Day d).
  rewrite LocalTime_eq. unfold msPerDay. intros a b m x E. lia.
Qed.

(** X24 (ReminderWidget, the effect that loads the form and
    [handleSubmit]; App, [handleSaveReminder] on an edit): saving an
    entry with the form untouched leaves the entry as it was exactly when
    its date is on the same calendar day locally and in UTC and on a whole
    minute of local time, for an entry whose optional properties are as
    the form writes them with no end value 0. *)
Theorem edit_unchanged_iff (r : Reminder) (s0 : State) :
  0 <= YearFromTime (Types.date r) <= 9999 ->
  Types.title r <> ""%string ->
  asSubmitted r ->
  exists data : ReminderData.t,
    handleSubmit newDate (editing r) (loadForm (editing r) s0) = Some data
    /\ (App.spreadData r data = r
        <-> Day (LocalTime (Types.date r)) = Day (Types.date r)
            /\ LocalTime (Types.date r) mod msPerMinute = 0).
Proof.
  intros Hy Ht [Hnone [Hsome [Hnotif Hother]]].
  rewrite (handleSubmit_loaded newDate newDate_parses r s0 Hy Ht).
  rewrite utc_day_local_time.
  eexists. split; [reflexivity |].
  assert (D : forall x : Z,
             x = Types.date r - LocalTime (Types.date r) mod msPerMinute
                 - (Day (LocalTime (Types.date r)) - Day (Types.date r))
                   * msPerDay ->
             (x = Types.date r
              <-> Day (LocalTime (Types.date r)) = Day (Types.date r)
                  /\ LocalTime (Types.date r) mod msPerMinute = 0)).
  { intros x ->.
    pose proof (Z.mod_pos_bound (LocalTime (Types.date r)) msPerMinute) as B.
    revert B. generalize (LocalTime (Types.date r) mod msPerMinute).
    generalize (Day (LocalTime (Types.date r))) (Day (Types.date r)).
    unfold msPerMinute, msPerSecond, msPerDay. intros a b m B. lia. }
  specialize (D _ eq_refl). revert D.
  generalize (Types.date r - LocalTime (Types.date r) mod msPerMinute
              - (Day (LocalTime (Types.date r)) - Day (Types.date r))
                * msPerDay).
  generalize (Day (LocalTime (Types.date r)) = Day (Types.date r)
              /\ LocalTime (Types.date r) mod msPerMinute = 0).
  intros P x D. rewrite <- D. clear D Hy.
  destruct r as [i u t de d ty rec me co cr em ev ci].
  unfold App.spreadData.
  cbn [Types.id Types.userId Types.title Types.description Types.date
       Types.type Types.recurrence Types.method Types.completed
       Types.createdAt Types.recurrenceEndMode Types.recurrenceEndValue
       Types.contactInfo ReminderData.title ReminderData.description
       ReminderData.date ReminderData.type ReminderData.recurrence
       ReminderData.method ReminderData.completed
       ReminderData.recurrenceEndMode ReminderData.recurrenceEndValue
       ReminderData.contactInfo] in *.
  assert (Em : App.spreadOptional em
                 (if RecurrenceType.eqb rec RecurrenceType.None
                  then Undefined else Value (endModeOr em)) = em).
  { destruct rec; cbn [RecurrenceType.eqb App.spreadOptional].
    - symmetry. now apply Hnone.
    - destruct Hsome as [m [-> _]]; [discriminate | reflexivity].
    - destruct Hsome as [m [-> _]]; [discriminate | reflexivity].
    - destruct Hsome as [m [-> _]]; [discriminate | reflexivity].
    - destruct Hsome as [m [-> _]]; [discriminate | reflexivity]. }
  assert (Ev : App.spreadOptional ev
                 (if RecurrenceType.eqb rec RecurrenceType.None
                     || RecurrenceEndMode.eqb (endModeOr em)
                          RecurrenceEndMode.never
                  then Undefined else Value (endValueOr ev)) = ev).
  { destruct (RecurrenceType.eqb rec RecurrenceType.None) eqn:Er.
    - cbn [orb App.spreadOptional]. symmetry. apply Hnone.
      destruct rec; try discriminate; reflexivity.
    - cbn [orb]. destruct Hsome as [m [-> [Hnever Hval]]].
      + intros ->. discriminate.
      + cbn [endModeOr].
        destruct m; cbn [RecurrenceEndMode.eqb App.spreadOptional].
        * symmetry. now apply Hnever.
        * destruct Hval as [v [-> Hv]]; [discriminate |].
          destruct v as [[| c s] | [| p | p]]; try reflexivity.
          now contradiction Hv.
        * destruct Hval as [v [-> Hv]]; [discriminate |].
          destruct v as [[| c s] | [| p | p]]; try reflexivity.
          now contradiction Hv. }
  assert (Ec : App.spreadOptional ci
                 (if CommunicationMethod.eqb me
                       CommunicationMethod.Notification
                  then Undefined else Value (contactOr ci)) = ci).
  { destruct me; cbn [CommunicationMethod.eqb App.spreadOptional].
    - symmetry. now apply Hnotif.
    - destruct Hother as [c ->]; [discriminate | reflexivity].
    - destruct Hother as [c ->]; [discriminate | reflexivity].
    - destruct Hother as [c ->]; [discriminate | reflexivity]. }
  rewrite Em, Ev, Ec. split.
  - intros H. injection H as H. exact H.
  - intros ->. reflexivity.
Qed.

(** X25 (TimelineCalendar, the click on a cell; ReminderWidget, the effect
    that loads the form and [handleSubmit]): the form opened from a cell
    of the grid, given a title and submitted, makes a reminder at 09:00
    local time on the UTC date of the cell's local midnight: it is shown
    in the cell that was clicked when the zone is UTC or west of it, and
    in the cell of the day before when the zone is east of UTC. *)
Theorem clicked_day_prefills (cal : TimelineCalendar.State) (day : Date)
  (t : string) (s0 : State) :
  - msPerDay < LocalTZA <= msPerDay ->
  In day (TimelineCalendar.getDays cal) ->
  0 <= YearFromTime day <= 9999 ->
  t <> ""%string ->
  exists data : ReminderData.t,
    handleSubmit newDate (creatingOn day)
      (setTitle t (loadForm (creatingOn day) s0)) = Some data
    /\ ReminderData.date data
       = localDate (YearFromTime day) (MonthFromTime day) (DateFromTime day)
           9 0 0 0
    /\ count timeDay day (ReminderData.date data)
       = (if 0 <? LocalTZA then -1 else 0).
Proof.
  intros Hz Hin Hy Ht.
  destruct (TimelineCalendarMore.getDays_cells cal) as [_ Hcells].
  destruct (Hcells day Hin) as [k [Ek _]]. clear Hcells Hin.
  unfold handleSubmit, loadForm, creatingOn, setTitle.
  cbn [initialReminder initialDate title description date time type
       recurrence method recurrenceEndMode recurrenceEndValue contactInfo].
  destruct (String.eqb_spec t "") as [E | _]; [contradiction |].
  rewrite (loaded_date_nonempty _ Hy). cbn [orb].
  change (("09:00" =? "")%string) with false. cbv iota.
  rewrite (toISOString_date day Hy).
  change "09:00"%string with (timeString 9 0).
  pose proof (MonthFromTime_range day) as Rm.
  pose proof (DateFromTime_range day) as Rd.
  pose proof (DateFromTime_le day) as Ld.
  assert (P : parseLocalDateTime
                (dateString (YearFromTime day) (MonthFromTime day + 1)
                   (DateFromTime day) ++ "T" ++ timeString 9 0)
              = Some (UTC (MakeDate (Day day) (MakeTime 9 0 0 0)))).
  { rewrite parse_formatted.
    - replace (MonthFromTime day + 1 - 1) with (MonthFromTime day) by lia.
      now rewrite MakeDay_fields.
    - exact Hy.
    - lia.
    - replace (MonthFromTime day + 1 - 1) with (MonthFromTime day) by lia.
      lia.
    - lia.
    - lia.
    - lia. }
  rewrite (newDate_parses _ _ P).
  eexists. split; [reflexivity |]. cbn [ReminderData.date]. split.
  - unfold localDate. now rewrite MakeDay_fields.
  - pose proof (year_bounds day Hy) as Yb.
    pose proof (Day_bounds day) as Db.
    assert (E9 : Day (LocalTime
                        (UTC (MakeDate (Day day) (MakeTime 9 0 0 0))))
                 = Day day).
    { rewrite LocalTime_UTC. apply Day_MakeDate.
      vm_compute. split; [discriminate | reflexivity]. }
    assert (Ex : UTC (MakeDate (Day day) (MakeTime 9 0 0 0))
                 = Day day * msPerDay + 32400000 - LocalTZA).
    { rewrite UTC_eq. reflexivity. }
    assert (Ed : Day (LocalTime day) = k)
      by (rewrite Ek; apply localDay_localMidnight).
    rewrite count_timeDay.
    + rewrite E9, Ed, Ek, localMidnight_eq.
      clear - Hz. unfold Day, msPerDay in *.
      destruct (Z.ltb_spec 0 LocalTZA); f_equal;
        Z.div_mod_to_equations; lia.
    + unfold inRange, maxTime. lia.
    + rewrite Ex. unfold inRange, maxTime, msPerDay in *. lia.
    + rewrite Ed, <- Ek. unfold inRange, maxTime. lia.
    + rewrite E9, localMidnight_eq.
      unfold inRange, maxTime, msPerDay in *. lia.
Qed.

End FormInZone.

Section Refine.

Variable generateContent :
  string -> string -> GeminiService.Completion
                        GeminiService.GenerateContentResponse.

Lemma refineReminderText_total (text_ : string) :
  exists out : string,
    GeminiService.refineReminderText generateContent text_
    = GeminiService.Fulfilled out
    /\ (text_ <> ""%string -> out <> ""%string).
Proof.
  unfold GeminiService.refineReminderText.
  destruct (generateContent _ _) as [response | error].
  - destruct (GeminiService.text response) as [t |]; cbn [option_map].
    + destruct (String.eqb_spec (GeminiService.trim t) "") as [E | N].
      * exists text_. tauto.
      * exists (GeminiService.trim t). tauto.
    + exists text_. tauto.
  - exists text_. tauto.
Qed.

(** X26 (ReminderWidget, [handleAiRefine]): with no description the
    handler changes nothing; otherwise, once the service has answered or
    failed, the form is no longer refining, its description is the text
    the service function returned, which is not empty and replaces what
    was typed in the meantime, and every other cell is as it was. *)
Theorem handleAiRefine_settles (s cur : State) :
  let cur' :=
    handleAiRefine_resume generateContent s (handleAiRefine_begin s cur) in
  (description s = ""%string -> cur' = cur)
  /\ (description s <> ""%string ->
      isRefining cur' = false
      /\ GeminiService.refineReminderText generateContent (description s)
         = GeminiService.Fulfilled (description cur')
      /\ description cur' <> ""%string
      /\ setIsRefining (isRefining cur)
           (setDescription (description cur) cur') = cur).
Proof.
  cbv zeta. unfold handleAiRefine_resume, handleAiRefine_begin.
  destruct (String.eqb_spec (description s) "") as [E | N].
  - split; [reflexivity | contradiction].
  - split; [contradiction |]. intros _.
    destruct (refineReminderText_total (description s)) as [out [-> Ho]].
    destruct cur. cbn. repeat split. now apply Ho.
Qed.

End Refine.

Lemma newDateOf_parses {host : Host} (str : string) (t : Date) :
  parseLocalDateTime str = Some t -> newDateOf str = t.
Proof. intros H. unfold newDateOf. now rewrite H. Qed.

Lemma edit_resubmits_date_witness :
  exists data : ReminderData.t,
    handleSubmit (newDateOf (host := CalendarTerms.springForward))
      (editing eveningReminder)
      (loadForm (host := CalendarTerms.springForward)
         (editing eveningReminder) weeklyForm)
    = Some data
    /\ ReminderData.date data = 1710032400000 + 23 * msPerHour.
Proof.
  destruct (edit_resubmits_date (host := CalendarTerms.springForward)
              (newDateOf (host := CalendarTerms.springForward))
              (newDateOf_parses (host := CalendarTerms.springForward))
              eveningReminder weeklyForm)
    as [data [H [D _]]].
  - vm_compute. split; discriminate.
  - discriminate.
  - exists data. split; [exact H |]. rewrite D. reflexivity.
Defined.

Lemma edit_unchanged_iff_witness :
  exists data : ReminderData.t,
    handleSubmit
      (newDateOf (host := fixedOffset (tz := CalendarTerms.zonePlus2)))
      (editing noonReminder)
      (loadForm (host := fixedOffset (tz := CalendarTerms.zonePlus2))
         (editing noonReminder) weeklyForm)
    = Some data
    /\ App.spreadData noonReminder data = noonReminder.
Proof.
  destruct (edit_unchanged_iff (tz := CalendarTerms.zonePlus2)
              (newDateOf (host := fixedOffset (tz := CalendarTerms.zonePlus2)))
              (newDateOf_parses
                 (host := fixedOffset (tz := CalendarTerms.zonePlus2)))
              noonReminder weeklyForm)
    as [data [H [_ D]]].
  - vm_compute. split; discriminate.
  - discriminate.
  - vm_compute. repeat split; try discriminate; intros _.
    + exists RecurrenceEndMode.count. repeat split; try discriminate.
      intros _. exists (Num 5). split; [reflexivity | discriminate].
    + now exists "someone@example.org"%string.
  - exists data. split; [exact H |]. apply D.
    vm_compute. split; reflexivity.
Defined.

Lemma clicked_day_prefills_witness :
  exists data : ReminderData.t,
    handleSubmit
      (newDateOf (host := fixedOffset (tz := CalendarTerms.zonePlus2)))
      (creatingOn
         (localMidnight (host := fixedOffset (tz := CalendarTerms.zonePlus2))
            19797))
      (setTitle "Gym"
         (loadForm (host := fixedOffset (tz := CalendarTerms.zonePlus2))
            (creatingOn
               (localMidnight
                  (host := fixedOffset (tz := CalendarTerms.zonePlus2))
                  19797))
            weeklyForm))
    = Some data
    /\ count (timeDay (host := fixedOffset (tz := CalendarTerms.zonePlus2)))
         (localMidnight (host := fixedOffset (tz := CalendarTerms.zonePlus2))
            19797)
         (ReminderData.date data) = -1.
Proof.
  destruct (clicked_day_prefills (tz := CalendarTerms.zonePlus2)
              (newDateOf (host := fixedOffset (tz := CalendarTerms.zonePlus2)))
              (newDateOf_parses
                 (host := fixedOffset (tz := CalendarTerms.zonePlus2)))
              (CalendarTerms.monthView
                 (localMidnight
                    (host := fixedOffset (tz := CalendarTerms.zonePlus2))
                    19797) None)
              (localMidnight
                 (host := fixedOffset (tz := CalendarTerms.zonePlus2)) 19797)
              "Gym"%string weeklyForm)
    as [data [H [_ C]]].
  - vm_compute. split; [reflexivity | discriminate].
  - vm_compute. tauto.
  - vm_compute. split; discriminate.
  - discriminate.
  - exists data. split; [exact H | exact C].
Defined.

Lemma handleAiRefine_settles_witness :
  isRefining
    (handleAiRefine_resume (ServiceTerms.answering " Leg day ")
       (setDescription "legs" weeklyForm)
       (handleAiRefine_begin (setDescription "legs" weeklyForm)
          (setDescription "legs and more" weeklyForm))) = false.
Proof.
  pose proof (handleAiRefine_settles (ServiceTerms.answering " Leg day ")
                (setDescription "legs" weeklyForm)
                (setDescription "legs and more" weeklyForm)) as H.
  cbv zeta in H. destruct H as [_ H].
  destruct H as [R _]; [discriminate | exact R].
Defined.

End WidgetMore.

